(** * City-Pulse: the trend ranking and maintenance subsystem

    A shallow embedding of [app/routers/trends.py] and [app/region_map.py],
    with the parts of [app/models.py], [app/schemas.py] and [app/database.py]
    they rely on, followed by the properties of the trend list.

    Python [int] is [Z]; Python [str] is [string], read as a sequence of
    code points below 256; a Python [dict] is an association list in
    insertion order; a table is the list of its rows in storage order;
    a request handler is a function from the session state to a result and
    the session state at the point where it returned or raised. *)

From Stdlib Require Import Ascii String.
From Stdlib Require Import ZArith List Bool Lia Permutation Sorted.
Import ListNotations.
Local Open Scope Z_scope.

(** ** Python's stable sort *)

(** [sorted] and [list.sort] compare keys with [<] only and are stable.
    A stable sort is determined by its input (see [stable_sort_unique]),
    so it is modelled by the insertion sort that puts an element in front
    of the first one that is not smaller than it. *)
Section StableSort.

Variable A : Type.
Variable lt : A -> A -> bool.

Fixpoint insert_stable (x : A) (l : list A) : list A :=
  match l with
  | [] => [x]
  | y :: l' => if lt y x then y :: insert_stable x l' else x :: l
  end.

Definition stable_sort (l : list A) : list A :=
  fold_right insert_stable [] l.

(** [x] and [y] have equal keys: neither is below the other. *)
Definition tied (x y : A) : bool := negb (lt x y) && negb (lt y x).

(** [x] may stand before [y] in a sorted list. *)
Definition ordered (x y : A) : Prop := lt y x = false.

End StableSort.

Arguments insert_stable {A} lt x l.
Arguments stable_sort {A} lt l.
Arguments tied {A} lt x y.
Arguments ordered {A} lt x y.

(** ** Tuples of integers and the sort key *)

(** Python compares tuples lexicographically: the first position where
    they differ decides. *)
Definition tuple3_lt (p q : Z * Z * Z) : bool :=
  let '(a1, b1, c1) := p in
  let '(a2, b2, c2) := q in
  if negb (a1 =? a2) then a1 <? a2
  else if negb (b1 =? b2) then b1 <? b2
  else c1 <? c2.


(** An entry is [(event_id, att, com, lik)]. *)
Definition entry : Type := Z * Z * Z * Z.

(** trends.py, [_order_key]. *)
Definition _order_key (item : entry) : Z * Z * Z :=
  let '(_event_id, att, com, lik) := item in
  (- att, - com, - lik).

(** [a < b] as [sorted(..., key=key)] evaluates it. *)
Definition key_lt {A : Type} (key : A -> Z * Z * Z) (a b : A) : bool :=
  tuple3_lt (key a) (key b).

(** [sorted(l, key=key)]. *)
Definition sorted {A : Type} (key : A -> Z * Z * Z) (l : list A) : list A :=
  stable_sort (key_lt key) l.

(** [enumerate(l, start)]. *)
Fixpoint enumerate {A : Type} (start : Z) (l : list A) : list (Z * A) :=
  match l with
  | [] => []
  | x :: l' => (start, x) :: enumerate (start + 1) l'
  end.

(** The three counts of an entry. *)
Definition entry_counts (item : entry) : Z * Z * Z :=
  let '(_event_id, att, com, lik) := item in (att, com, lik).

(** [p] is lexicographically greater than or equal to [q]: attendance
    first, then comments, then likes. *)
Definition counts_ge (p q : Z * Z * Z) : Prop :=
  let '(a1, b1, c1) := p in
  let '(a2, b2, c2) := q in
  a1 > a2 \/ (a1 = a2 /\ (b1 > b2 \/ (b1 = b2 /\ c1 >= c2))).

(** The ranking of trends.py, lines 113-119: the entries sorted by
    [_order_key], numbered from 1. *)
Definition rank_entries (entries : list entry) : list (Z * entry) :=
  enumerate 1 (sorted _order_key entries).

(** ** Strings *)

Definition code (c : ascii) : N := N_of_ascii c.

(** [str.isspace] on the code points below 256. *)
Definition is_space (c : ascii) : bool :=
  let n := code c in
  ((9 <=? n) && (n <=? 13) || (28 <=? n) && (n <=? 32)
   || (n =? 133) || (n =? 160))%N.

(** [str.lower] on one code point below 256: A-Z and the Latin-1 capitals. *)
Definition lower_char (c : ascii) : ascii :=
  let n := code c in
  if ((65 <=? n) && (n <=? 90)
      || (192 <=? n) && (n <=? 222) && negb (n =? 215))%N
  then ascii_of_N (n + 32) else c.

Fixpoint map_string (f : ascii -> ascii) (s : string) : string :=
  match s with
  | EmptyString => EmptyString
  | String c s' => String (f c) (map_string f s')
  end.

Fixpoint lstrip (s : string) : string :=
  match s with
  | EmptyString => EmptyString
  | String c s' => if is_space c then lstrip s' else s
  end.

Fixpoint rstrip (s : string) : string :=
  match s with
  | EmptyString => EmptyString
  | String c s' =>
      match rstrip s' with
      | EmptyString => if is_space c then EmptyString else String c EmptyString
      | r => String c r
      end
  end.

(** [s.strip()]. *)
Definition strip (s : string) : string := rstrip (lstrip s).

(** [s.lower()]. *)
Definition lower (s : string) : string := map_string lower_char s.

(** [s.replace("-", " ")]: both strings have one character. *)
Definition replace_hyphen (s : string) : string :=
  map_string (fun c => if Ascii.eqb c "-" then " "%char else c) s.

(** ** Results and exceptions *)

Inductive result (E A : Type) : Type :=
| Ok (a : A)
| Err (e : E).
Arguments Ok {E A} a.
Arguments Err {E A} e.

(** The two [ValueError]s of region_map.py; the second message quotes the
    rejected value. *)
Inductive ValueError : Type :=
| UnknownRegionId
| UnknownRegion (got : string).

Inductive detail : Type :=
| DetailValueError (e : ValueError)
| DetailText (msg : string).

(** What a handler can raise: an [HTTPException], SQLAlchemy's
    [MultipleResultsFound] out of [scalar_one_or_none], or the
    [OverflowError] of the SQLite driver for an integer parameter that is
    no SQLite INTEGER. The last two are no [HTTPException]: the client
    gets a 500. *)
Inductive exn : Type :=
| HTTPException (status_code : Z) (d : detail)
| MultipleResultsFound
| OverflowError.

(** SQLite's INTEGER: a signed 64-bit value. The path, query and body
    integers of the API have no upper bound of their own. *)
Definition sqlite_int (n : Z) : bool :=
  (- 2 ^ 63 <=? n) && (n <? 2 ^ 63).

(** ** region_map.py *)

Definition REGION_SAN_DIEGO_ID : Z := 0.

(** A region parameter is a [str] or an [int]. *)
Inductive region_param : Type :=
| RegionStr (s : string)
| RegionInt (n : Z).

Definition parse_region_param (value : region_param) : result ValueError Z :=
  match value with
  | RegionInt n =>
      if n =? REGION_SAN_DIEGO_ID then Ok n else Err UnknownRegionId
  | RegionStr v =>
      let s := lower (strip v) in
      if String.eqb s "0" then Ok REGION_SAN_DIEGO_ID
      else
        let normalized := replace_hyphen s in
        if String.eqb normalized "san diego" then Ok REGION_SAN_DIEGO_ID
        else Err (UnknownRegion v)
  end.

(** ** models.py: the tables *)

(** [Event]; the columns the trend subsystem never reads (user_id,
    content, created_at) are left out. *)
Record Event : Type := mkEvent {
  ev_id : Z;
  ev_region_id : Z;
  ev_title : string
}.

(** A row of [event_attending], [event_comments] or [event_likes]. *)
Record Interaction : Type := mkInteraction {
  ia_id : Z;
  ia_user_id : Z;
  ia_event_id : Z
}.

(** [Trend]. Timestamps are integers. *)
Record Trend : Type := mkTrend {
  t_id : Z;
  t_region_id : Z;
  t_event_id : Z;
  t_rank : Z;
  t_attendance_count : Z;
  t_comments_count : Z;
  t_likes_count : Z;
  t_updated_at : Z
}.

Record DB : Type := mkDB {
  events : list Event;
  event_attending : list Interaction;
  event_comments : list Interaction;
  event_likes : list Interaction;
  trends : list Trend
}.

(** The two clocks a request reads: [datetime.now(timezone.utc)] and the
    database's [CURRENT_TIMESTAMP], the server default of [updated_at]. *)
Record Clock : Type := mkClock {
  utc_now : Z;
  current_timestamp : Z
}.

Definition t_counts (t : Trend) : Z * Z * Z :=
  (t_attendance_count t, t_comments_count t, t_likes_count t).

Definition set_rank (rank : Z) (t : Trend) : Trend :=
  mkTrend (t_id t) (t_region_id t) (t_event_id t) rank
          (t_attendance_count t) (t_comments_count t) (t_likes_count t)
          (t_updated_at t).

Definition set_counts (att com lik now : Z) (t : Trend) : Trend :=
  mkTrend (t_id t) (t_region_id t) (t_event_id t) (t_rank t) att com lik now.

Definition with_trends (db : DB) (ts : list Trend) : DB :=
  mkDB (events db) (event_attending db) (event_comments db) (event_likes db) ts.

(** The primary key of [trends] and its constraint
    [uq_trend_region_event]. *)
Definition trends_pk (db : DB) : Prop := NoDup (map t_id (trends db)).

Definition uq_trend_region_event (ts : list Trend) : Prop :=
  NoDup (map (fun t => (t_region_id t, t_event_id t)) ts).

(** ** Python dictionaries *)

(** Insertion-ordered: assigning to a key that is present keeps its place,
    a new key goes to the end. *)
Section Dict.

Variable V : Type.

Definition dict : Type := list (Z * V).

Fixpoint dict_get (d : dict) (k : Z) : option V :=
  match d with
  | [] => None
  | (k', v) :: d' => if k' =? k then Some v else dict_get d' k
  end.

Definition dict_get_default (d : dict) (k : Z) (default : V) : V :=
  match dict_get d k with Some v => v | None => default end.

Fixpoint dict_set (d : dict) (k : Z) (v : V) : dict :=
  match d with
  | [] => [(k, v)]
  | (k', v') :: d' =>
      if k' =? k then (k, v) :: d' else (k', v') :: dict_set d' k v
  end.

(** [{k: v for k, v in items}]. *)
Definition dict_of_items (items : list (Z * V)) : dict :=
  fold_left (fun d kv => dict_set d (fst kv) (snd kv)) items [].

End Dict.

Arguments dict_get {V} d k.
Arguments dict_get_default {V} d k default.
Arguments dict_set {V} d k v.
Arguments dict_of_items {V} items.

(** ** database.py: sessions *)

(** A handler runs against the session: it yields a value or raises, and
    leaves the session in some state either way. *)
Definition M (A : Type) : Type := DB -> result exn A * DB.

Definition ret {A : Type} (a : A) : M A := fun db => (Ok a, db).

Definition raise {A : Type} (e : exn) : M A := fun db => (Err e, db).

Definition bind {A B : Type} (m : M A) (k : A -> M B) : M B :=
  fun db =>
    match m db with
    | (Ok a, db') => k a db'
    | (Err e, db') => (Err e, db')
    end.

Declare Scope session_scope.
Delimit Scope session_scope with session.
Notation "x <- m ;; k" := (bind m (fun x => k))
  (at level 61, m at next level, right associativity) : session_scope.
Notation "m ;;; k" := (bind m (fun _ => k))
  (at level 61, right associativity) : session_scope.
Local Open Scope session_scope.

(** [for x in l: body(x)]. *)
Fixpoint for_each {A : Type} (l : list A) (body : A -> M unit) : M unit :=
  match l with
  | [] => ret tt
  | x :: l' => body x ;;; for_each l' body
  end.

(** [get_db]: commit when the handler returns, roll back when it raises. *)
Definition get_db {A : Type} (handler : M A) (db : DB) : result exn A * DB :=
  match handler db with
  | (Ok a, db') => (Ok a, db')
  | (Err e, _) => (Err e, db)
  end.

(** ** The statements the trend router issues *)

Definition in_region (region_id : Z) (t : Trend) : bool :=
  t_region_id t =? region_id.

Definition is_row (region_id event_id : Z) (t : Trend) : bool :=
  (t_region_id t =? region_id) && (t_event_id t =? event_id).

(** Binding a Python [int] as a parameter of a statement. *)
Definition bind_param (n : Z) : M unit :=
  if sqlite_int n then ret tt else raise OverflowError.

(** [db.get(Event, id)]: a [SELECT] by key, with [id] bound. *)
Definition db_get_event (id : Z) : M (option Event) :=
  bind_param id ;;;
  fun db => (Ok (find (fun e => ev_id e =? id) (events db)), db).

(** [select(Event.id).where(Event.region_id == region_id)]. *)
Definition select_event_ids (region_id : Z) : M (list Z) :=
  fun db =>
    (Ok (map ev_id (filter (fun e => ev_region_id e =? region_id) (events db))),
     db).

(** [GROUP BY event_id] with [count(id)]: one row per event id that
    occurs, with the number of its occurrences. *)
Definition group_count (event_ids : list Z) : list (Z * Z) :=
  fold_left (fun acc eid => dict_set acc eid (dict_get_default acc eid 0 + 1))
            event_ids [].

(** [select(T.event_id, func.count(T.id)).where(T.event_id.in_(event_ids))
    .group_by(T.event_id)] for an interaction table [T]. *)
Definition select_count_by_event (table : DB -> list Interaction)
    (event_ids : list Z) : M (list (Z * Z)) :=
  fun db =>
    (Ok (group_count
           (filter (fun eid => existsb (Z.eqb eid) event_ids)
                   (map ia_event_id (table db)))),
     db).

(** [delete(Trend).where(Trend.region_id == region_id)]. *)
Definition delete_trends (region_id : Z) : M unit :=
  fun db =>
    (Ok tt, with_trends db (filter (fun t => negb (in_region region_id t)) (trends db))).

(** The key an [INSERT] into [trends] gets: one more than the largest. *)
Definition next_trend_id (ts : list Trend) : Z :=
  fold_right Z.max 0 (map t_id ts) + 1.

(** [db.add(Trend(...))] and its [INSERT] at the flush. *)
Definition db_add_trend (region_id event_id rank att com lik updated_at : Z)
    : M unit :=
  fun db =>
    (Ok tt,
     with_trends db
       (trends db ++
        [mkTrend (next_trend_id (trends db)) region_id event_id rank
                 att com lik updated_at])).

(** [scalar_one_or_none()] on a list of result rows. *)
Definition scalar_one_or_none {A : Type} (rows : list A) : M (option A) :=
  match rows with
  | [] => ret None
  | [r] => ret (Some r)
  | _ => raise MultipleResultsFound
  end.

(** [select(Trend).where(Trend.region_id == region_id,
    Trend.event_id == event_id)]. *)
Definition select_trend (region_id event_id : Z) : M (list Trend) :=
  fun db => (Ok (filter (is_row region_id event_id) (trends db)), db).

(** [func.max] over a column: [NULL] on no rows. *)
Definition sql_max (l : list Z) : option Z :=
  match l with
  | [] => None
  | x :: l' => Some (fold_left Z.max l' x)
  end.

Definition coalesce (v : option Z) (default : Z) : Z :=
  match v with Some x => x | None => default end.

(** [select(func.coalesce(func.max(Trend.rank), 0))
    .where(Trend.region_id == region_id)]. *)
Definition select_max_rank (region_id : Z) : M Z :=
  fun db =>
    (Ok (coalesce (sql_max (map t_rank (filter (in_region region_id) (trends db)))) 0),
     db).

(** [ORDER BY col]; rows with equal values come in storage order. *)
Definition order_by {A : Type} (col : A -> Z) (rows : list A) : list A :=
  stable_sort (fun a b => col a <? col b) rows.

(** [select(Trend).where(Trend.region_id == region_id).order_by(Trend.rank)]. *)
Definition select_trends_by_rank (region_id : Z) : M (list Trend) :=
  fun db => (Ok (order_by t_rank (filter (in_region region_id) (trends db))), db).

(** [select(Trend, Event.title).join(Event, Event.id == Trend.event_id)
    .where(Trend.region_id == region_id).order_by(Trend.rank)]: an inner
    join, one result row per trend row and event with that id. *)
Definition trend_join (region_id : Z) (db : DB) : list (Trend * string) :=
  order_by (fun r => t_rank (fst r))
    (flat_map
       (fun t =>
          map (fun e => (t, ev_title e))
              (filter (fun e => ev_id e =? t_event_id t) (events db)))
       (filter (in_region region_id) (trends db))).

(** The same with [.offset(skip).limit(limit)]; [skip] is bound, and has
    no upper bound of its own ([limit] is at most 100). *)
Definition select_trend_page (region_id : Z) (skip limit : nat)
    : M (list (Trend * string)) :=
  bind_param (Z.of_nat skip) ;;;
  fun db => (Ok (firstn limit (skipn skip (trend_join region_id db))), db).

(** The [UPDATE] a flush issues for a loaded row whose attributes were
    assigned: only the assigned columns, for the row of that key. *)
Definition update_where_id (id : Z) (f : Trend -> Trend) : M unit :=
  fun db =>
    (Ok tt,
     with_trends db (map (fun t => if t_id t =? id then f t else t) (trends db))).

(** ** schemas.py *)

Record TrendEntryRead : Type := mkTrendEntryRead {
  te_event_id : Z;
  te_rank : Z;
  te_title : string;
  te_attendance_count : Z;
  te_comments_count : Z;
  te_likes_count : Z;
  te_updated_at : Z
}.

Record TrendRebuildBody : Type := mkTrendRebuildBody {
  rb_region : region_param
}.

(** [rank: int | None = Field(None, ge=1)]: a validated body carries no
    rank or a positive one. *)
Record TrendUpdateBody : Type := mkTrendUpdateBody {
  ub_region : region_param;
  ub_event_id : Z;
  ub_rank : option positive
}.

Record SuccessResponse : Type := mkSuccessResponse {
  success : bool
}.

(** The dictionary [{"success": ..., "count": ...}] of [rebuild_trends]. *)
Record RebuildResult : Type := mkRebuildResult {
  rr_success : bool;
  rr_count : Z
}.

(** ** routers/trends.py *)

(** [try: parse_region_param(region) except ValueError as e:
    raise HTTPException(status_code=400, detail=str(e))]. *)
Definition resolve_region (region : region_param) : M Z :=
  match parse_region_param region with
  | Ok region_id => ret region_id
  | Err e => raise (HTTPException 400 (DetailValueError e))
  end.

(** [skip] has [ge=0] and [limit] has [ge=1]: both are naturals here. *)
Definition get_trends (region : region_param) (skip limit : nat)
    : M (list TrendEntryRead) :=
  region_id <- resolve_region region ;;
  rows <- select_trend_page region_id skip limit ;;
  ret (map (fun r : Trend * string =>
              let (t, title) := r in
              mkTrendEntryRead (t_event_id t) (t_rank t) title
                (t_attendance_count t) (t_comments_count t) (t_likes_count t)
                (t_updated_at t))
           rows).

Definition _get_event_interaction_counts (region_id : Z)
    : M (dict (Z * Z * Z)) :=
  event_ids <- select_event_ids region_id ;;
  match event_ids with
  | [] => ret []
  | _ =>
      r_att <- select_count_by_event event_attending event_ids ;;
      r_com <- select_count_by_event event_comments event_ids ;;
      r_lik <- select_count_by_event event_likes event_ids ;;
      let by_event_att := dict_of_items r_att in
      let by_event_com := dict_of_items r_com in
      let by_event_lik := dict_of_items r_lik in
      ret (dict_of_items
             (map (fun eid =>
                     (eid, (dict_get_default by_event_att eid 0,
                            dict_get_default by_event_com eid 0,
                            dict_get_default by_event_lik eid 0)))
                  event_ids))
  end.

(** [[(eid, att, com, lik) for eid, (att, com, lik) in counts.items()]]. *)
Definition items_as_entries (counts : dict (Z * Z * Z)) : list entry :=
  map (fun kv : Z * (Z * Z * Z) =>
         let '(eid, (att, com, lik)) := kv in (eid, att, com, lik))
      counts.

Definition rebuild_trends (clock : Clock) (payload : TrendRebuildBody)
    : M RebuildResult :=
  region_id <- resolve_region (rb_region payload) ;;
  counts <- _get_event_interaction_counts region_id ;;
  match counts with
  | [] =>
      delete_trends region_id ;;;
      ret (mkRebuildResult true 0)
  | _ =>
      let sorted_events := sorted _order_key (items_as_entries counts) in
      delete_trends region_id ;;;
      let now := utc_now clock in
      for_each (enumerate 1 sorted_events)
        (fun r : Z * entry =>
           let '(rank, (event_id, att, com, lik)) := r in
           db_add_trend region_id event_id rank att com lik now) ;;;
      ret (mkRebuildResult true (Z.of_nat (length sorted_events)))
  end.

(** The key under which [update_trends] sorts a trend row. *)
Definition trend_key (t : Trend) : Z * Z * Z :=
  _order_key (t_event_id t, t_attendance_count t, t_comments_count t,
              t_likes_count t).

(** trends.py, lines 151-174: update the row of the event or add one. The
    rank of an added row is one more than a stored rank; the handlers
    store ranks from 1 to the number of rows of a region, far below the
    largest SQLite integer. *)
Definition upsert_trend (clock : Clock) (region_id event_id att com lik : Z)
    : M unit :=
  existing <- select_trend region_id event_id ;;
  trend_row <- scalar_one_or_none existing ;;
  match trend_row with
  | Some row =>
      update_where_id (t_id row) (set_counts att com lik (utc_now clock))
  | None =>
      max_rank <- select_max_rank region_id ;;
      let next_rank := max_rank + 1 in
      db_add_trend region_id event_id next_rank att com lik
                   (current_timestamp clock)
  end.

(** trends.py, lines 176-183: sort the rows of the region by their stored
    counts and number them. *)
Definition reorder_trends (region_id : Z) : M unit :=
  all_trends <- select_trends_by_rank region_id ;;
  let rows := sorted trend_key all_trends in
  for_each (enumerate 1 rows)
    (fun r : Z * Trend => let (rank, t) := r in
                          update_where_id (t_id t) (set_rank rank)).

Definition update_trends (clock : Clock) (payload : TrendUpdateBody)
    : M SuccessResponse :=
  region_id <- resolve_region (ub_region payload) ;;
  event <- db_get_event (ub_event_id payload) ;;
  if match event with
     | None => true
     | Some ev => negb (ev_region_id ev =? region_id)
     end
  then raise (HTTPException 404 (DetailText "Event not found in this region"))
  else
    counts <- _get_event_interaction_counts region_id ;;
    let '(att, com, lik) :=
      dict_get_default counts (ub_event_id payload) (0, 0, 0) in
    upsert_trend clock region_id (ub_event_id payload) att com lik ;;;
    reorder_trends region_id ;;;
    ret (mkSuccessResponse true).

(** ** Example states *)

(** [n] interaction rows on event [event_id], with keys from [first_id]
    and one user each. *)
Fixpoint interactions (first_id event_id : Z) (n : nat) : list Interaction :=
  match n with
  | O => []
  | S n' =>
      mkInteraction first_id first_id event_id
        :: interactions (first_id + 1) event_id n'
  end.

(** Region 0 with E1 (3 attending, 1 comment, 5 likes), E2 (3, 2, 0) and
    E3 (nothing), and no trend list yet. *)
Definition db_three : DB :=
  mkDB [mkEvent 1 0 "E1"; mkEvent 2 0 "E2"; mkEvent 3 0 "E3"]
       (interactions 1 1 3 ++ interactions 4 2 3)
       (interactions 1 1 1 ++ interactions 2 2 2)
       (interactions 1 1 5)
       [].

Definition clock0 : Clock := mkClock 1000 1001.

Definition san_diego : region_param := RegionStr "san diego".

(** [db_three] after a rebuild. *)
Definition db_ranked : DB :=
  snd (rebuild_trends clock0 (mkTrendRebuildBody san_diego) db_three).

(** [db_ranked] with one more like, on E3. *)
Definition db_liked : DB :=
  mkDB (events db_ranked) (event_attending db_ranked) (event_comments db_ranked)
       (event_likes db_ranked ++ interactions 6 3 1) (trends db_ranked).

(** The update of E3 after that like. *)
Definition update_e3 : TrendUpdateBody := mkTrendUpdateBody san_diego 3 None.

Definition db_updated : DB := snd (update_trends clock0 update_e3 db_liked).

(** [db_ranked] with four more people attending E3, and then the update
    of E1: the row of E3 is not touched. *)
Definition db_stale : DB :=
  mkDB (events db_ranked) (event_attending db_ranked ++ interactions 7 3 4)
       (event_comments db_ranked) (event_likes db_ranked) (trends db_ranked).

Definition update_e1 : TrendUpdateBody := mkTrendUpdateBody (RegionInt 0) 1 None.

(** A trend row whose event is gone. *)
Definition db_orphan : DB :=
  mkDB [mkEvent 1 0 "E1"] [] [] []
       [mkTrend 1 0 1 1 0 0 0 1000; mkTrend 2 0 7 2 0 0 0 1000].

(** ** Vocabulary of the statements *)

(** The ranks [1..n]. *)
Definition one_to (n : nat) : list Z := map Z.of_nat (seq 1 n).



(** The number of rows of an interaction table on one event. *)
Definition count_for (table : list Interaction) (event_id : Z) : Z :=
  Z.of_nat (length (filter (fun r => ia_event_id r =? event_id) table)).

(** The live counts of an event: attendance, comments, likes. *)
Definition live_counts (db : DB) (event_id : Z) : Z * Z * Z :=
  (count_for (event_attending db) event_id,
   count_for (event_comments db) event_id,
   count_for (event_likes db) event_id).

(** The ids of the events of a region, in storage order. *)
Definition region_event_ids (region_id : Z) (db : DB) : list Z :=
  map ev_id (filter (fun e => ev_region_id e =? region_id) (events db)).

(** The trend rows of a region, in storage order. *)
Definition region_trends (region_id : Z) (db : DB) : list Trend :=
  filter (in_region region_id) (trends db).

(** A trend row without its key and timestamp. *)
Definition row_content (t : Trend) : Z * Z * Z * (Z * Z * Z) :=
  (t_region_id t, t_event_id t, t_rank t, t_counts t).

(** The dictionary the counter returns for a region. *)
Definition region_counts (region_id : Z) (db : DB) : dict (Z * Z * Z) :=
  dict_of_items
    (map (fun eid => (eid, live_counts db eid)) (region_event_ids region_id db)).

(** The trend rows of the other regions. *)
Definition other_trends (region_id : Z) (db : DB) : list Trend :=
  filter (fun t => negb (in_region region_id t)) (trends db).

Definition entry_id (e : entry) : Z :=
  let '(event_id, _, _, _) := e in event_id.

(** The rows that adding the ranked entries one by one appends to the
    table [ts]. *)
Fixpoint added_rows (ts : list Trend) (region_id now : Z)
    (ranked : list (Z * entry)) : list Trend :=
  match ranked with
  | [] => []
  | (rank, (event_id, att, com, lik)) :: ranked' =>
      let t := mkTrend (next_trend_id ts) region_id event_id rank att com lik now in
      t :: added_rows (ts ++ [t]) region_id now ranked'
  end.

(** The content of the row stored for a ranked entry. *)
Definition ranked_content (region_id : Z) (r : Z * entry)
    : Z * Z * Z * (Z * Z * Z) :=
  (region_id, entry_id (snd r), fst r, entry_counts (snd r)).

(** [coalesce(max(rank), 0)] over the rows of a region. *)
Definition region_max_rank (region_id : Z) (db : DB) : Z :=
  coalesce (sql_max (map t_rank (region_trends region_id db))) 0.

(** A trend row without its rank. *)
Definition row_unranked (t : Trend) : Z * Z * Z * (Z * Z * Z) * Z :=
  (t_id t, t_region_id t, t_event_id t, t_counts t, t_updated_at t).

(** The table with the counts and the timestamp of the row of
    [(region_id, event_id)] replaced, everything else as it was. *)
Definition with_counts_at (region_id event_id att com lik now : Z)
    (ts : list Trend) : list Trend :=
  map (fun t => if is_row region_id event_id t
                then set_counts att com lik now t else t) ts.

(** The table after the loop of lines 181-182: for each ranked row in
    turn, the rank of the stored row with its key is set. *)
Definition apply_ranks (ranked : list (Z * Trend)) (ts : list Trend)
    : list Trend :=
  fold_left
    (fun ts r => map (fun t => if t_id t =? t_id (snd r)
                               then set_rank (fst r) t else t) ts)
    ranked ts.

(** The rows of a region as [update_trends] sorts them. *)
Definition reordered (region_id : Z) (ts : list Trend) : list Trend :=
  sorted trend_key (order_by t_rank (filter (in_region region_id) ts)).

(** Rows given the ranks 1, 2, ... in their order. *)
Definition renumbered (rows : list Trend) : list Trend :=
  map (fun r => set_rank (fst r) (snd r)) (enumerate 1 rows).

(** A trend row stands rightly before another: its stored counts are
    lexicographically greater or equal. *)
Definition stored_before (a b : Trend) : Prop :=
  counts_ge (t_counts a) (t_counts b).

(** The 404 of [update_trends]. *)
Definition not_found : exn :=
  HTTPException 404 (DetailText "Event not found in this region").

(** The 400 that the three handlers raise for a [ValueError]. *)
Definition invalid_region (e : ValueError) : exn :=
  HTTPException 400 (DetailValueError e).

(** The region parameters that name the supported region. *)
Definition accepted_region (value : region_param) : Prop :=
  match value with
  | RegionInt n => n = 0
  | RegionStr v =>
      lower (strip v) = "0"%string
      \/ replace_hyphen (lower (strip v)) = "san diego"%string
  end.

(** The entry that [get_trends] builds from a joined row. *)
Definition entry_read (r : Trend * string) : TrendEntryRead :=
  let (t, title) := r in
  mkTrendEntryRead (t_event_id t) (t_rank t) title
    (t_attendance_count t) (t_comments_count t) (t_likes_count t)
    (t_updated_at t).

(** The rest of the database is what it was: only [trends] may differ. *)
Definition same_sources (db db' : DB) : Prop :=
  events db' = events db
  /\ event_attending db' = event_attending db
  /\ event_comments db' = event_comments db
  /\ event_likes db' = event_likes db.

(** Entries in ascending order of rank. *)
Definition rank_le (a b : TrendEntryRead) : Prop := te_rank a <= te_rank b.

(** The primary key of [events]. *)
Definition events_pk (db : DB) : Prop := NoDup (map ev_id (events db)).

(** ** region_map.py: city locations *)

(** The [ValueError] of [city_location_to_region_id]; its message quotes
    the rejected value. *)
Inductive CityError : Type :=
| UnsupportedCityLocation (got : string).

Definition city_location_to_region_id (city_location : string)
    : result CityError Z :=
  let normalized := replace_hyphen (lower (strip city_location)) in
  if String.eqb normalized "san diego" then Ok REGION_SAN_DIEGO_ID
  else Err (UnsupportedCityLocation city_location).

Definition region_id_to_city_location (region_id : Z) : option string :=
  if region_id =? REGION_SAN_DIEGO_ID then Some "san diego"%string else None.

(** Every character of the string is white space. *)
Fixpoint all_space (s : string) : bool :=
  match s with
  | EmptyString => true
  | String c s' => is_space c && all_space s'
  end.

(** ** routers/interactions.py and routers/events.py *)

(** A flush can also fail on a constraint of the database. *)
Inductive api_exn : Type :=
| Raised (e : exn)
| IntegrityError.

(** Handlers whose flush may be refused. *)
Definition MI (A : Type) : Type := DB -> result api_exn A * DB.

Definition retI {A : Type} (a : A) : MI A := fun db => (Ok a, db).

Definition raiseI {A : Type} (e : api_exn) : MI A := fun db => (Err e, db).

Definition bindI {A B : Type} (m : MI A) (k : A -> MI B) : MI B :=
  fun db =>
    match m db with
    | (Ok a, db') => k a db'
    | (Err e, db') => (Err e, db')
    end.

Declare Scope flush_scope.
Delimit Scope flush_scope with flush.
Notation "x <- m ;; k" := (bindI m (fun x => k))
  (at level 61, m at next level, right associativity) : flush_scope.
Notation "m ;;; k" := (bindI m (fun _ => k))
  (at level 61, right associativity) : flush_scope.

(** The three interaction tables. *)
Inductive table : Type := Likes | Attending | Comments.

Definition rows_of (T : table) (db : DB) : list Interaction :=
  match T with
  | Likes => event_likes db
  | Attending => event_attending db
  | Comments => event_comments db
  end.

Definition with_rows (T : table) (db : DB) (rows : list Interaction) : DB :=
  match T with
  | Likes =>
      mkDB (events db) (event_attending db) (event_comments db) rows (trends db)
  | Attending =>
      mkDB (events db) rows (event_comments db) (event_likes db) (trends db)
  | Comments =>
      mkDB (events db) (event_attending db) rows (event_likes db) (trends db)
  end.

(** [uq_event_like_user_event] and [uq_event_attending_user_event];
    comments have no such constraint. *)
Definition unique_user_event (T : table) : bool :=
  match T with
  | Likes | Attending => true
  | Comments => false
  end.

(** The row is the one of the user on the event. *)
Definition of_user_event (event_id user_id : Z) (r : Interaction) : bool :=
  (ia_event_id r =? event_id) && (ia_user_id r =? user_id).

Definition next_interaction_id (rows : list Interaction) : Z :=
  fold_right Z.max 0 (map ia_id rows) + 1.

(** Binding a Python [int] as a parameter of a statement, in a handler
    whose flush may be refused. *)
Definition bind_paramI (n : Z) : MI unit :=
  if sqlite_int n then retI tt else raiseI (Raised OverflowError).

(** [db.get(Event, id)] in a handler whose flush may be refused. *)
Definition get_event (id : Z) : MI (option Event) :=
  bindI (bind_paramI id)
    (fun _ db => (Ok (find (fun e => ev_id e =? id) (events db)), db)).

(** [select(T).where(T.event_id == event_id, T.user_id == user_id)],
    with both values bound. *)
Definition select_user_event (T : table) (event_id user_id : Z)
    : MI (list Interaction) :=
  bindI (bind_paramI event_id)
    (fun _ =>
       bindI (bind_paramI user_id)
         (fun _ db =>
            (Ok (filter (of_user_event event_id user_id) (rows_of T db)), db))).

Definition one_or_none {A : Type} (rows : list A) : MI (option A) :=
  match rows with
  | [] => retI None
  | [r] => retI (Some r)
  | _ => raiseI (Raised MultipleResultsFound)
  end.

(** [db.add(T(event_id=event_id, user_id=user_id))] and its [INSERT] at
    the flush. The database refuses the row when its user is not in
    [users] or its event does not exist (the foreign keys), or when the
    table has the unique constraint and the pair is there already. The
    users table itself is not part of [DB]: its keys are the list
    [users]. *)
Definition insert_interaction (users : list Z) (T : table)
    (event_id user_id : Z) : MI unit :=
  fun db =>
    if negb (existsb (Z.eqb user_id) users)
       || negb (existsb (fun e => ev_id e =? event_id) (events db))
       || (unique_user_event T
           && existsb (of_user_event event_id user_id) (rows_of T db))
    then (Err IntegrityError, db)
    else
      (Ok tt,
       with_rows T db
         (rows_of T db ++
          [mkInteraction (next_interaction_id (rows_of T db)) user_id event_id])).

(** [db.delete(row)] and its [DELETE] by key at the flush. *)
Definition delete_row (T : table) (row : Interaction) : MI unit :=
  fun db =>
    (Ok tt,
     with_rows T db
       (filter (fun r => negb (ia_id r =? ia_id row)) (rows_of T db))).

Definition http (status_code : Z) (msg : string) : api_exn :=
  Raised (HTTPException status_code (DetailText msg)).

Record InteractionLikeBody : Type := mkInteractionLikeBody {
  like_user_id : Z
}.

Record InteractionAttendingBody : Type := mkInteractionAttendingBody {
  attending_user_id : Z
}.

Local Open Scope flush_scope.

(** The body that [add_like] (lines 70-88) and [add_attending] (lines
    112-133) share, up to the table. *)
Definition put_member (users : list Z) (T : table) (event_id user_id : Z)
    : MI SuccessResponse :=
  event <- get_event event_id ;;
  match event with
  | None => raiseI (http 404 "Event not found")
  | Some _ =>
      existing <- select_user_event T event_id user_id ;;
      row <- one_or_none existing ;;
      match row with
      | Some _ => retI (mkSuccessResponse true)
      | None =>
          insert_interaction users T event_id user_id ;;;
          retI (mkSuccessResponse true)
      end
  end.

Definition add_like (users : list Z) (event_id : Z)
    (payload : InteractionLikeBody) : MI SuccessResponse :=
  put_member users Likes event_id (like_user_id payload).

Definition add_attending (users : list Z) (event_id : Z)
    (payload : InteractionAttendingBody) : MI SuccessResponse :=
  put_member users Attending event_id (attending_user_id payload).

(** The body that [remove_like] (lines 136-151) and [remove_attending]
    (lines 172-190) share, up to the table and the message. *)
Definition drop_member (T : table) (not_found_msg : string)
    (event_id user_id : Z) : MI SuccessResponse :=
  result <- select_user_event T event_id user_id ;;
  row <- one_or_none result ;;
  match row with
  | None => raiseI (http 404 not_found_msg)
  | Some r =>
      delete_row T r ;;;
      retI (mkSuccessResponse true)
  end.

Definition remove_like (event_id user_id : Z) : MI SuccessResponse :=
  drop_member Likes "Like not found" event_id user_id.

Definition remove_attending (event_id user_id : Z) : MI SuccessResponse :=
  drop_member Attending "Attendance record not found" event_id user_id.

(** [remove_comment] (lines 154-169), for a [comment_id] that SQLite can
    hold: the keys of the stored comments are such. *)
Definition remove_comment (event_id comment_id user_id : Z)
    : MI SuccessResponse :=
  fun db =>
    match find (fun c => ia_id c =? comment_id) (event_comments db) with
    | None => (Err (http 404 "Comment not found"), db)
    | Some comment =>
        if negb (ia_event_id comment =? event_id)
        then (Err (http 404 "Comment not found"), db)
        else if negb (ia_user_id comment =? user_id)
        then (Err (http 403 "Cannot delete another user's comment"), db)
        else (delete_row Comments comment ;;; retI (mkSuccessResponse true)) db
    end.

Local Close Scope flush_scope.

(** events.py, [delete_event]. Deleting an event deletes, with it, its
    likes, comments, attendance rows and trend rows: the relationships of
    [Event] cascade, and so do the foreign keys. *)
Definition delete_event (id : Z) : M SuccessResponse :=
  event <- db_get_event id ;;
  match event with
  | None => raise (HTTPException 404 (DetailText "Event not found"))
  | Some ev =>
      fun db =>
        (Ok (mkSuccessResponse true),
         mkDB (filter (fun e => negb (ev_id e =? ev_id ev)) (events db))
              (filter (fun r => negb (ia_event_id r =? ev_id ev)) (event_attending db))
              (filter (fun r => negb (ia_event_id r =? ev_id ev)) (event_comments db))
              (filter (fun r => negb (ia_event_id r =? ev_id ev)) (event_likes db))
              (filter (fun t => negb (t_event_id t =? ev_id ev)) (trends db)))
  end.

(** The user has a row on the event in the table. *)
Definition member (T : table) (db : DB) (event_id user_id : Z) : bool :=
  existsb (of_user_event event_id user_id) (rows_of T db).

(** The tables other than [T] are the same in both states. *)
Definition same_but (T : table) (db db' : DB) : Prop :=
  events db' = events db /\ trends db' = trends db
  /\ forall T', T' <> T -> rows_of T' db' = rows_of T' db.

(** Every trend row and every interaction row is on an event that
    exists. *)
Definition references_ok (db : DB) : Prop :=
  Forall (fun t => existsb (fun e => ev_id e =? t_event_id t) (events db) = true)
         (trends db)
  /\ forall T,
       Forall (fun r => existsb (fun e => ev_id e =? ia_event_id r) (events db)
                        = true)
              (rows_of T db).

(** One event and nothing else. *)
Definition db_one_event : DB := mkDB [mkEvent 1 0 "E1"] [] [] [] [].

(** The pair of user and event is unique in the table. *)
Definition uq_user_event (rows : list Interaction) : Prop :=
  NoDup (map (fun r => (ia_event_id r, ia_user_id r)) rows).

(** The primary key of an interaction table. *)
Definition rows_pk (rows : list Interaction) : Prop := NoDup (map ia_id rows).

(** One event with a comment of user 5 and one of user 6. *)
Definition db_commented : DB :=
  mkDB [mkEvent 1 0 "E1"] [] [mkInteraction 1 5 1; mkInteraction 2 6 1] [] [].

(** The title of the event with the id, if it exists. *)
Definition title_of (db : DB) (event_id : Z) : string :=
  match find (fun e => ev_id e =? event_id) (events db) with
  | Some ev => ev_title ev
  | None => EmptyString
  end.

(** What an entry of the trend list says of the ranking: the rank, the
    event and the three counts. *)
Definition entry_ranked (e : TrendEntryRead) : Z * entry :=
  (te_rank e,
   (te_event_id e, te_attendance_count e, te_comments_count e, te_likes_count e)).

(** An event with the event id of the trend row exists. *)
Definition has_event (db : DB) (t : Trend) : bool :=
  existsb (fun e => ev_id e =? t_event_id t) (events db).

(** * Properties *)

(** ** The stable sort *)

Section StableSortFacts.

Variable A : Type.
Variable lt : A -> A -> bool.

Lemma insert_stable_perm x l : Permutation (x :: l) (insert_stable lt x l).
Proof.
  induction l as [|y l IH]; simpl; [reflexivity|].
  destruct (lt y x); [|reflexivity].
  rewrite perm_swap. now apply perm_skip.
Qed.

Lemma stable_sort_perm l : Permutation l (stable_sort lt l).
Proof.
  induction l as [|x l IH]; simpl; [constructor|].
  rewrite <- insert_stable_perm. now apply perm_skip.
Qed.

Lemma stable_sort_length l : length (stable_sort lt l) = length l.
Proof. symmetry. apply Permutation_length, stable_sort_perm. Qed.

Lemma stable_sort_In x l : In x (stable_sort lt l) <-> In x l.
Proof.
  split; apply Permutation_in;
    [symmetry|]; apply stable_sort_perm.
Qed.

Hypothesis lt_asym : forall x y, lt x y = true -> lt y x = false.
Hypothesis lt_negtrans :
  forall x y z, lt x y = false -> lt y z = false -> lt x z = false.

Lemma insert_stable_sorted x l :
  StronglySorted (ordered lt) l -> StronglySorted (ordered lt) (insert_stable lt x l).
Proof.
  induction 1 as [|y l Hs IH Hy]; simpl.
  - repeat constructor.
  - destruct (lt y x) eqn:E.
    + constructor; [exact IH|].
      rewrite Forall_forall in *. intros z Hz.
      apply (Permutation_in _ (Permutation_sym (insert_stable_perm x l))) in Hz.
      destruct Hz as [<-|Hz]; [now apply lt_asym | now apply Hy].
    + constructor; [now constructor|].
      constructor; [exact E|].
      rewrite Forall_forall in *. intros z Hz.
      unfold ordered. apply lt_negtrans with y; [now apply Hy | exact E].
Qed.

Lemma stable_sort_sorted l : StronglySorted (ordered lt) (stable_sort lt l).
Proof.
  induction l as [|x l IH]; simpl; [constructor|].
  now apply insert_stable_sorted.
Qed.

(** Stability: elements that are pairwise tied keep their input order. *)
Lemma insert_stable_filter (p : A -> bool) x l :
  (forall a b, p a = true -> p b = true -> lt a b = false) ->
  filter p (insert_stable lt x l) = filter p (x :: l).
Proof.
  intros Hp. induction l as [|y l IH]; [reflexivity|].
  simpl insert_stable. destruct (lt y x) eqn:E; [|reflexivity].
  cbn [filter]. rewrite IH. cbn [filter].
  destruct (p y) eqn:Ey, (p x) eqn:Ex; try reflexivity.
  rewrite (Hp y x Ey Ex) in E. discriminate.
Qed.

Lemma stable_sort_filter (p : A -> bool) l :
  (forall a b, p a = true -> p b = true -> lt a b = false) ->
  filter p (stable_sort lt l) = filter p l.
Proof.
  intros Hp. induction l as [|x l IH]; [reflexivity|].
  simpl stable_sort. rewrite insert_stable_filter by exact Hp.
  simpl. now rewrite IH.
Qed.

Lemma stable_sort_tied k l :
  filter (tied lt k) (stable_sort lt l) = filter (tied lt k) l.
Proof.
  apply stable_sort_filter. intros a b Ha Hb. unfold tied in Ha, Hb.
  apply andb_true_iff in Ha as [Ha1 Ha2], Hb as [Hb1 Hb2].
  apply negb_true_iff in Ha1, Ha2, Hb1, Hb2.
  now apply lt_negtrans with k.
Qed.

Lemma lt_irrefl x : lt x x = false.
Proof. destruct (lt x x) eqn:E; [|reflexivity]. now rewrite (lt_asym x x E) in E. Qed.

Lemma tied_refl x : tied lt x x = true.
Proof. unfold tied. now rewrite lt_irrefl. Qed.

Lemma tied_sym x y : tied lt x y = tied lt y x.
Proof. unfold tied. apply andb_comm. Qed.

(** Two sorted lists in which every class of tied elements appears in
    the same order are the same list: whatever stable algorithm Python
    runs, its result is the one of [stable_sort]. *)
Lemma sorted_tied_unique l1 :
  forall l2,
    StronglySorted (ordered lt) l1 -> StronglySorted (ordered lt) l2 ->
    (forall k, filter (tied lt k) l1 = filter (tied lt k) l2) ->
    l1 = l2.
Proof.
  induction l1 as [|x l1 IH]; intros [|y l2] S1 S2 H; try reflexivity.
  - specialize (H y). cbn [filter] in H. now rewrite tied_refl in H.
  - specialize (H x). cbn [filter] in H. now rewrite tied_refl in H.
  - apply StronglySorted_inv in S1 as [S1 F1], S2 as [S2 F2].
    rewrite Forall_forall in F1, F2.
    assert (x = y) as <-.
    { pose proof (H x) as Hx. pose proof (H y) as Hy.
      cbn [filter] in Hx, Hy.
      rewrite tied_refl in Hx, Hy. rewrite (tied_sym y x) in Hy.
      destruct (tied lt x y) eqn:T; [congruence|].
      assert (In x l2) as Ix.
      { assert (In x (filter (tied lt x) l2)) as I by (rewrite <- Hx; now left).
        now apply filter_In in I. }
      assert (In y l1) as Iy.
      { assert (In y (filter (tied lt y) l1)) as I by (rewrite Hy; now left).
        now apply filter_In in I. }
      apply F2 in Ix. apply F1 in Iy. unfold ordered in Ix, Iy.
      unfold tied in T. now rewrite Ix, Iy in T. }
    f_equal. apply IH; auto.
    intros k. specialize (H k). cbn [filter] in H.
    destruct (tied lt k x); congruence.
Qed.

Lemma stable_sort_unique l l' :
  StronglySorted (ordered lt) l' ->
  (forall k, filter (tied lt k) l' = filter (tied lt k) l) ->
  l' = stable_sort lt l.
Proof.
  intros S H. apply sorted_tied_unique; auto using stable_sort_sorted.
  intros k. now rewrite stable_sort_tied.
Qed.

End StableSortFacts.

(** ** Tuple comparison *)

Ltac z_cases :=
  repeat match goal with
         | |- context [?a =? ?b] => destruct (Z.eqb_spec a b)
         | |- context [?a <? ?b] => destruct (Z.ltb_spec a b)
         | H : context [?a =? ?b] |- _ => destruct (Z.eqb_spec a b)
         | H : context [?a <? ?b] |- _ => destruct (Z.ltb_spec a b)
         end.

Lemma tuple3_lt_asym p q : tuple3_lt p q = true -> tuple3_lt q p = false.
Proof.
  destruct p as [[a1 b1] c1], q as [[a2 b2] c2]. unfold tuple3_lt.
  z_cases; simpl; z_cases; try discriminate; try reflexivity; lia.
Qed.

Lemma tuple3_lt_negtrans p q r :
  tuple3_lt p q = false -> tuple3_lt q r = false -> tuple3_lt p r = false.
Proof.
  destruct p as [[a1 b1] c1], q as [[a2 b2] c2], r as [[a3 b3] c3].
  unfold tuple3_lt.
  z_cases; simpl; z_cases; try discriminate; try reflexivity; lia.
Qed.

Lemma tuple3_tied p q :
  tuple3_lt p q = false -> tuple3_lt q p = false -> p = q.
Proof.
  destruct p as [[a1 b1] c1], q as [[a2 b2] c2]. unfold tuple3_lt.
  z_cases; simpl; z_cases; try discriminate; intros; repeat f_equal; lia.
Qed.

Lemma tuple3_lt_irrefl p : tuple3_lt p p = false.
Proof.
  destruct p as [[a b] c]. unfold tuple3_lt.
  rewrite !Z.eqb_refl. simpl. apply Z.ltb_irrefl.
Qed.


Section KeyOrder.

Variable A : Type.
Variable key : A -> Z * Z * Z.

Lemma key_lt_asym x y : key_lt key x y = true -> key_lt key y x = false.
Proof. apply tuple3_lt_asym. Qed.

Lemma key_lt_negtrans x y z :
  key_lt key x y = false -> key_lt key y z = false -> key_lt key x z = false.
Proof. apply tuple3_lt_negtrans. Qed.

Lemma tied_key x y : tied (key_lt key) x y = true <-> key x = key y.
Proof.
  unfold tied, key_lt. rewrite andb_true_iff, !negb_true_iff. split.
  - intros [H1 H2]. now apply tuple3_tied.
  - intros ->. now rewrite tuple3_lt_irrefl.
Qed.

Lemma sorted_perm l : Permutation l (sorted key l).
Proof. apply stable_sort_perm. Qed.

Lemma sorted_length l : length (sorted key l) = length l.
Proof. apply stable_sort_length. Qed.

Lemma sorted_In x l : In x (sorted key l) <-> In x l.
Proof. apply stable_sort_In. Qed.

Lemma sorted_ordered l :
  StronglySorted (ordered (key_lt key)) (sorted key l).
Proof.
  apply stable_sort_sorted; [apply key_lt_asym | apply key_lt_negtrans].
Qed.


End KeyOrder.

(** ** The ranker *)

Lemma enumerate_snd {A : Type} (l : list A) :
  forall start, map snd (enumerate start l) = l.
Proof. induction l as [|x l IH]; intros; simpl; [|rewrite IH]; reflexivity. Qed.

Lemma enumerate_length {A : Type} (l : list A) :
  forall start, length (enumerate start l) = length l.
Proof. induction l as [|x l IH]; intros; simpl; [|rewrite IH]; reflexivity. Qed.

Lemma enumerate_fst {A : Type} (l : list A) :
  forall start,
    map fst (enumerate start l)
    = map (fun i => start + Z.of_nat i) (seq 0 (length l)).
Proof.
  induction l as [|x l IH]; intros start; simpl; [reflexivity|].
  rewrite Z.add_0_r. f_equal. rewrite IH, <- seq_shift, map_map.
  apply map_ext. intros i. lia.
Qed.

Lemma enumerate_one_fst {A : Type} (l : list A) :
  map fst (enumerate 1 l) = one_to (length l).
Proof.
  rewrite enumerate_fst. unfold one_to. rewrite <- seq_shift, map_map.
  apply map_ext. intros i. lia.
Qed.



Lemma order_key_counts_ge (e1 e2 : entry) :
  tuple3_lt (_order_key e2) (_order_key e1) = false ->
  counts_ge (entry_counts e1) (entry_counts e2).
Proof.
  destruct e1 as [[[i1 a1] b1] c1], e2 as [[[i2 a2] b2] c2].
  unfold tuple3_lt, _order_key, entry_counts, counts_ge.
  z_cases; simpl; z_cases; try discriminate; intros _; lia.
Qed.



(** ** Dictionaries *)

Section DictFacts.

Variable V : Type.
Implicit Types (d : dict V) (k : Z) (v : V).

Lemma dict_get_set d k v k' :
  dict_get (dict_set d k v) k' = if k =? k' then Some v else dict_get d k'.
Proof.
  induction d as [|[k0 v0] d IH]; simpl.
  - reflexivity.
  - destruct (Z.eqb_spec k0 k) as [->|N]; simpl.
    + destruct (k =? k'); reflexivity.
    + destruct (Z.eqb_spec k0 k') as [->|N'].
      * destruct (Z.eqb_spec k k'); [congruence | reflexivity].
      * exact IH.
Qed.

Lemma dict_get_default_set d k v k' dflt :
  dict_get_default (dict_set d k v) k' dflt
  = if k =? k' then v else dict_get_default d k' dflt.
Proof.
  unfold dict_get_default. rewrite dict_get_set. now destruct (k =? k').
Qed.

Lemma dict_set_keys d k v :
  map fst (dict_set d k v)
  = if existsb (Z.eqb k) (map fst d) then map fst d else map fst d ++ [k].
Proof.
  induction d as [|[k0 v0] d IH]; simpl; [reflexivity|].
  rewrite (Z.eqb_sym k k0).
  destruct (Z.eqb_spec k0 k) as [->|N]; simpl; [reflexivity|].
  rewrite IH. now destruct (existsb (Z.eqb k) (map fst d)).
Qed.

Lemma dict_set_fresh d k v :
  ~ In k (map fst d) -> dict_set d k v = d ++ [(k, v)].
Proof.
  induction d as [|[k0 v0] d IH]; simpl; intros N; [reflexivity|].
  destruct (Z.eqb_spec k0 k) as [->|_]; [tauto|].
  rewrite IH; tauto.
Qed.

Lemma dict_set_In_keys d k v k' :
  In k' (map fst (dict_set d k v)) <-> k' = k \/ In k' (map fst d).
Proof.
  rewrite dict_set_keys. destruct (existsb (Z.eqb k) (map fst d)) eqn:E.
  - apply existsb_exists in E as (x & Hx & ->%Z.eqb_eq).
    split; [tauto | intros [->|]; assumption].
  - rewrite in_app_iff. simpl. intuition.
Qed.

Lemma fold_dict_set_fresh (items : list (Z * V)) :
  forall d,
    NoDup (map fst (d ++ items)) ->
    fold_left (fun d kv => dict_set d (fst kv) (snd kv)) items d = d ++ items.
Proof.
  induction items as [|[k v] items IH]; intros d N; simpl.
  - now rewrite app_nil_r.
  - rewrite dict_set_fresh.
    + rewrite IH; rewrite <- app_assoc; [reflexivity | exact N].
    + rewrite map_app in N. simpl in N.
      apply NoDup_remove_2 in N. rewrite in_app_iff in N. tauto.
Qed.

(** A list of pairs with distinct keys is its own dictionary. *)
Lemma dict_of_items_NoDup (items : list (Z * V)) :
  NoDup (map fst items) -> dict_of_items items = items.
Proof. intros N. unfold dict_of_items. now rewrite fold_dict_set_fresh. Qed.

Lemma fold_dict_set_In_keys (items : list (Z * V)) k :
  forall d,
    In k (map fst (fold_left (fun d kv => dict_set d (fst kv) (snd kv)) items d))
    <-> In k (map fst d) \/ In k (map fst items).
Proof.
  induction items as [|[k0 v0] items IH]; intros d; simpl; [tauto|].
  rewrite IH, dict_set_In_keys. intuition.
Qed.

Lemma dict_of_items_In_keys (items : list (Z * V)) k :
  In k (map fst (dict_of_items items)) <-> In k (map fst items).
Proof. unfold dict_of_items. rewrite fold_dict_set_In_keys. simpl. tauto. Qed.

Lemma dict_set_NoDup d k v :
  NoDup (map fst d) -> NoDup (map fst (dict_set d k v)).
Proof.
  intros N. rewrite dict_set_keys.
  destruct (existsb (Z.eqb k) (map fst d)) eqn:E; [exact N|].
  apply NoDup_app; [exact N | repeat constructor; simpl; tauto |].
  intros x Hx [Hk|[]]. subst x.
  assert (existsb (Z.eqb k) (map fst d) = true) as E'
      by (apply existsb_exists; exists k; split; [exact Hx | apply Z.eqb_refl]).
  congruence.
Qed.

Lemma fold_dict_set_NoDup (items : list (Z * V)) :
  forall d,
    NoDup (map fst d) ->
    NoDup (map fst (fold_left (fun d kv => dict_set d (fst kv) (snd kv)) items d)).
Proof.
  induction items as [|[k v] items IH]; intros d N; simpl; [exact N|].
  apply IH, dict_set_NoDup, N.
Qed.

Lemma dict_of_items_keys_NoDup (items : list (Z * V)) :
  NoDup (map fst (dict_of_items items)).
Proof. apply fold_dict_set_NoDup. constructor. Qed.

(** A dictionary built from [(k, f k)] pairs maps each key to [f k]. *)
Lemma dict_set_values (f : Z -> V) d k :
  Forall (fun kv => snd kv = f (fst kv)) d ->
  Forall (fun kv => snd kv = f (fst kv)) (dict_set d k (f k)).
Proof.
  induction 1 as [|[k0 v0] d H F IH]; simpl.
  - repeat constructor.
  - destruct (k0 =? k); constructor; auto.
Qed.

Lemma dict_of_items_values (f : Z -> V) (ks : list Z) :
  Forall (fun kv => snd kv = f (fst kv))
         (dict_of_items (map (fun k => (k, f k)) ks)).
Proof.
  unfold dict_of_items.
  assert (forall d, Forall (fun kv : Z * V => snd kv = f (fst kv)) d ->
                    Forall (fun kv : Z * V => snd kv = f (fst kv))
                      (fold_left (fun d kv => dict_set d (fst kv) (snd kv))
                                 (map (fun k => (k, f k)) ks) d)) as G.
  { induction ks as [|k ks IH]; intros d F; simpl; [exact F|].
    apply IH, dict_set_values, F. }
  apply G. constructor.
Qed.

End DictFacts.

(** ** The interaction counter *)

Lemma group_count_fold (l : list Z) (k : Z) :
  forall acc,
    dict_get_default
      (fold_left (fun acc eid => dict_set acc eid (dict_get_default acc eid 0 + 1))
                 l acc) k 0
    = dict_get_default acc k 0
      + Z.of_nat (length (filter (fun x => x =? k) l)).
Proof.
  induction l as [|x l IH]; intros acc; simpl; [lia|].
  rewrite IH, dict_get_default_set.
  destruct (Z.eqb_spec x k) as [->|N]; simpl length; lia.
Qed.

Lemma group_count_get (l : list Z) (k : Z) :
  dict_get_default (group_count l) k 0
  = Z.of_nat (length (filter (fun x => x =? k) l)).
Proof. unfold group_count. now rewrite group_count_fold. Qed.

Lemma group_count_dict (l : list Z) :
  dict_of_items (group_count l) = group_count l.
Proof.
  apply dict_of_items_NoDup. unfold group_count.
  assert (forall acc : dict Z, NoDup (map fst acc) ->
            NoDup (map fst (fold_left
              (fun acc eid => dict_set acc eid (dict_get_default acc eid 0 + 1))
              l acc))) as G.
  { induction l as [|x l IH]; intros acc N; simpl; [exact N|].
    apply IH, dict_set_NoDup, N. }
  apply G. constructor.
Qed.

Lemma filter_member_count (table : list Interaction) (ids : list Z) (k : Z) :
  In k ids ->
  Z.of_nat (length (filter (fun x => x =? k)
              (filter (fun eid => existsb (Z.eqb eid) ids)
                      (map ia_event_id table))))
  = count_for table k.
Proof.
  intros Hk. unfold count_for. f_equal.
  induction table as [|r table IH]; simpl; [reflexivity|].
  destruct (Z.eqb_spec (ia_event_id r) k) as [E|N].
  - assert (existsb (Z.eqb (ia_event_id r)) ids = true) as ->.
    { apply existsb_exists. exists k. split; [exact Hk|]. now apply Z.eqb_eq. }
    simpl. rewrite E, Z.eqb_refl. simpl. now rewrite IH.
  - destruct (existsb (Z.eqb (ia_event_id r)) ids); simpl; [|exact IH].
    destruct (Z.eqb_spec (ia_event_id r) k); [contradiction | exact IH].
Qed.

(** What the counter returns: the live counts of each event of the
    region, keyed in the order of the events; the session is left as it
    was. *)
Lemma get_counts_spec (region_id : Z) (db : DB) :
  _get_event_interaction_counts region_id db
  = (Ok (dict_of_items
           (map (fun eid => (eid, live_counts db eid))
                (region_event_ids region_id db))),
     db).
Proof.
  unfold _get_event_interaction_counts, bind, select_event_ids.
  fold (region_event_ids region_id db).
  destruct (region_event_ids region_id db) as [|e0 ids] eqn:E; [reflexivity|].
  unfold select_count_by_event, ret. rewrite <- E. f_equal. f_equal. f_equal.
  apply map_ext_in. intros eid Hin. f_equal. unfold live_counts.
  rewrite !group_count_dict, !group_count_get.
  now rewrite !filter_member_count by exact Hin.
Qed.

Lemma get_counts_keys (region_id : Z) (db : DB) (counts : dict (Z * Z * Z)) db' :
  _get_event_interaction_counts region_id db = (Ok counts, db') ->
  db' = db
  /\ (forall eid, In eid (map fst counts) <-> In eid (region_event_ids region_id db))
  /\ NoDup (map fst counts)
  /\ Forall (fun kv => snd kv = live_counts db (fst kv)) counts.
Proof.
  rewrite get_counts_spec. intros [= <- <-]. repeat split.
  - rewrite dict_of_items_In_keys, map_map. simpl. now rewrite map_id.
  - rewrite dict_of_items_In_keys, map_map. simpl. now rewrite map_id.
  - apply dict_of_items_keys_NoDup.
  - apply dict_of_items_values.
Qed.

(** ** Rebuild *)

Lemma for_each_add (region_id now : Z) (ranked : list (Z * entry)) :
  forall db,
    for_each ranked
      (fun r : Z * entry =>
         let '(rank, (event_id, att, com, lik)) := r in
         db_add_trend region_id event_id rank att com lik now) db
    = (Ok tt,
       with_trends db (trends db ++ added_rows (trends db) region_id now ranked)).
Proof.
  induction ranked as [|[rank [[[eid att] com] lik]] ranked IH]; intros db.
  - simpl. unfold ret. rewrite app_nil_r. now destruct db.
  - cbn [for_each]. unfold bind at 1. unfold db_add_trend at 1.
    rewrite IH. simpl. now rewrite <- app_assoc.
Qed.

Lemma added_rows_content (region_id now : Z) (ranked : list (Z * entry)) :
  forall ts,
    map row_content (added_rows ts region_id now ranked)
    = map (ranked_content region_id) ranked.
Proof.
  induction ranked as [|[rank [[[eid att] com] lik]] ranked IH]; intros ts.
  - reflexivity.
  - simpl. now rewrite IH.
Qed.

Lemma added_rows_in_region (region_id now : Z) (ranked : list (Z * entry)) :
  forall ts,
    filter (in_region region_id) (added_rows ts region_id now ranked)
    = added_rows ts region_id now ranked.
Proof.
  induction ranked as [|[rank [[[eid att] com] lik]] ranked IH]; intros ts.
  - reflexivity.
  - simpl. unfold in_region at 1. simpl. now rewrite Z.eqb_refl, IH.
Qed.

Lemma other_trends_not_in_region (region_id : Z) (db : DB) :
  filter (in_region region_id) (other_trends region_id db) = [].
Proof.
  unfold other_trends. induction (trends db) as [|t ts IH]; simpl; [reflexivity|].
  destruct (in_region region_id t) eqn:E; simpl; [exact IH|].
  now rewrite E.
Qed.

Lemma other_trends_idem (region_id : Z) (ts : list Trend) :
  filter (fun t => negb (in_region region_id t))
         (filter (fun t => negb (in_region region_id t)) ts)
  = filter (fun t => negb (in_region region_id t)) ts.
Proof.
  induction ts as [|t ts IH]; simpl; [reflexivity|].
  destruct (in_region region_id t) eqn:E; simpl; [exact IH|].
  now rewrite E, IH.
Qed.

Lemma resolve_region_ok (region : region_param) (region_id : Z) (db : DB) :
  parse_region_param region = Ok region_id ->
  resolve_region region db = (Ok region_id, db).
Proof. unfold resolve_region. now intros ->. Qed.

Lemma resolve_region_err (region : region_param) (e : ValueError) (db : DB) :
  parse_region_param region = Err e ->
  resolve_region region db = (Err (HTTPException 400 (DetailValueError e)), db).
Proof. unfold resolve_region. now intros ->. Qed.

(** What a rebuild with a resolvable region does: it always succeeds,
    drops the rows of the region and appends the ranking of the live
    counts. *)
Lemma rebuild_trends_spec (clock : Clock) (payload : TrendRebuildBody)
    (region_id : Z) (db : DB) :
  parse_region_param (rb_region payload) = Ok region_id ->
  rebuild_trends clock payload db
  = (Ok (mkRebuildResult true (Z.of_nat (length (region_counts region_id db)))),
     with_trends db
       (other_trends region_id db
        ++ added_rows (other_trends region_id db) region_id (utc_now clock)
             (rank_entries (items_as_entries (region_counts region_id db))))).
Proof.
  intros Hp. unfold rebuild_trends. unfold bind at 1.
  rewrite (resolve_region_ok _ _ _ Hp). unfold bind at 1.
  rewrite get_counts_spec. fold (region_counts region_id db).
  destruct (region_counts region_id db) as [|kv counts] eqn:E.
  - unfold bind, delete_trends, ret. simpl. fold (other_trends region_id db).
    now rewrite app_nil_r.
  - rewrite <- E. unfold bind at 1. unfold delete_trends at 1.
    unfold bind at 1. rewrite for_each_add. unfold ret.
    unfold rank_entries. cbn [trends with_trends].
    fold (other_trends region_id db).
    rewrite sorted_length. unfold items_as_entries. rewrite length_map.
    now destruct db.
Qed.

Lemma rebuild_region_trends (clock : Clock) (payload : TrendRebuildBody)
    (region_id : Z) (db : DB) :
  parse_region_param (rb_region payload) = Ok region_id ->
  region_trends region_id (snd (rebuild_trends clock payload db))
  = added_rows (other_trends region_id db) region_id (utc_now clock)
      (rank_entries (items_as_entries (region_counts region_id db))).
Proof.
  intros Hp. rewrite (rebuild_trends_spec _ _ _ _ Hp). unfold region_trends.
  cbn [snd trends with_trends].
  now rewrite filter_app, other_trends_not_in_region, added_rows_in_region.
Qed.

Lemma added_rows_event_ids (region_id now : Z) (ranked : list (Z * entry)) :
  forall ts,
    map t_event_id (added_rows ts region_id now ranked)
    = map entry_id (map snd ranked).
Proof.
  induction ranked as [|[rank [[[eid att] com] lik]] ranked IH]; intros ts.
  - reflexivity.
  - simpl. now rewrite IH.
Qed.

Lemma added_rows_length (region_id now : Z) (ranked : list (Z * entry)) :
  forall ts, length (added_rows ts region_id now ranked) = length ranked.
Proof.
  induction ranked as [|[rank [[[eid att] com] lik]] ranked IH]; intros ts.
  - reflexivity.
  - simpl. now rewrite IH.
Qed.

Lemma added_rows_Forall (P : Z -> Z * Z * Z -> Prop) (region_id now : Z)
    (ranked : list (Z * entry)) :
  Forall (fun e => P (entry_id e) (entry_counts e)) (map snd ranked) ->
  forall ts,
    Forall (fun t => P (t_event_id t) (t_counts t))
           (added_rows ts region_id now ranked).
Proof.
  induction ranked as [|[rank [[[eid att] com] lik]] ranked IH];
    intros F ts; simpl.
  - constructor.
  - inversion F; subst. constructor; [assumption | now apply IH].
Qed.

Lemma items_as_entries_ids (counts : dict (Z * Z * Z)) :
  map entry_id (items_as_entries counts) = map fst counts.
Proof.
  unfold items_as_entries. rewrite map_map. apply map_ext.
  now intros [eid [[att com] lik]].
Qed.

Lemma items_as_entries_counts (counts : dict (Z * Z * Z)) (f : Z -> Z * Z * Z) :
  Forall (fun kv => snd kv = f (fst kv)) counts ->
  Forall (fun e => entry_counts e = f (entry_id e)) (items_as_entries counts).
Proof.
  unfold items_as_entries. induction 1 as [|[eid [[att com] lik]] l H F IH];
    simpl; constructor; auto.
Qed.

Lemma region_counts_keys (region_id : Z) (db : DB) (eid : Z) :
  In eid (map fst (region_counts region_id db))
  <-> In eid (region_event_ids region_id db).
Proof.
  unfold region_counts. rewrite dict_of_items_In_keys, map_map. simpl.
  now rewrite map_id.
Qed.

Lemma ranking_event_ids (es : list entry) (eid : Z) :
  In eid (map entry_id (map snd (rank_entries es))) <-> In eid (map entry_id es).
Proof.
  unfold rank_entries. rewrite enumerate_snd, !in_map_iff.
  split; intros (e & He & Hin); exists e; (split; [exact He|]).
  - now apply (sorted_In entry _order_key).
  - now apply (sorted_In entry _order_key).
Qed.

(** C3. A rebuild with a resolvable region succeeds, and afterwards the
    event ids in the region's trend list are exactly the ids of the
    region's events; every row carries the live counts of its event, so an
    event without interactions is listed with (0,0,0); the count returned
    is the number of rows; and when the region has no events the list is
    empty and the count is 0, whatever was stored before. *)
Theorem rebuild_trends_complete (clock : Clock) (payload : TrendRebuildBody)
    (region_id : Z) (db : DB) :
  parse_region_param (rb_region payload) = Ok region_id ->
  exists (n : Z) (db' : DB),
    rebuild_trends clock payload db = (Ok (mkRebuildResult true n), db')
    /\ (forall eid,
          In eid (map t_event_id (region_trends region_id db'))
          <-> In eid (region_event_ids region_id db))
    /\ Forall (fun t => t_counts t = live_counts db (t_event_id t))
              (region_trends region_id db')
    /\ (forall eid,
          In eid (region_event_ids region_id db) ->
          live_counts db eid = (0, 0, 0) ->
          exists t, In t (region_trends region_id db')
                    /\ t_event_id t = eid /\ t_counts t = (0, 0, 0))
    /\ n = Z.of_nat (length (region_trends region_id db'))
    /\ (region_event_ids region_id db = [] ->
        region_trends region_id db' = [] /\ n = 0).
Proof.
  intros Hp.
  pose proof (rebuild_region_trends clock payload region_id db Hp) as HR.
  pose proof (rebuild_trends_spec clock payload region_id db Hp) as HS.
  rewrite HS in HR. cbn [snd] in HR. rewrite HS.
  eexists _, _. split; [reflexivity|]. rewrite HR. clear HS HR.
  assert (Forall (fun t => t_counts t = live_counts db (t_event_id t))
            (added_rows (other_trends region_id db) region_id (utc_now clock)
               (rank_entries (items_as_entries (region_counts region_id db)))))
    as HF.
  { apply (added_rows_Forall (fun eid c => c = live_counts db eid)).
    unfold rank_entries. rewrite enumerate_snd.
    apply Forall_forall. intros e He. apply sorted_In in He. revert e He.
    apply Forall_forall, items_as_entries_counts.
    apply dict_of_items_values. }
  assert (forall eid,
            In eid (map t_event_id
                      (added_rows (other_trends region_id db) region_id
                         (utc_now clock)
                         (rank_entries (items_as_entries (region_counts region_id db)))))
            <-> In eid (region_event_ids region_id db)) as HI.
  { intros eid. rewrite added_rows_event_ids, ranking_event_ids.
    rewrite items_as_entries_ids. apply region_counts_keys. }
  repeat split.
  - apply HI.
  - apply HI.
  - exact HF.
  - intros eid Hin H0. apply HI in Hin. apply in_map_iff in Hin as (t & <- & Ht).
    exists t. repeat split; auto.
    rewrite Forall_forall in HF. now rewrite (HF t Ht).
  - rewrite added_rows_length. unfold rank_entries.
    rewrite enumerate_length, sorted_length. unfold items_as_entries.
    now rewrite length_map.
  - unfold region_counts. now rewrite H.
  - unfold region_counts. now rewrite H.
Qed.

(** The rebuild of the three-event region lists all three events. *)
Lemma rebuild_trends_complete_witness :
  parse_region_param (rb_region (mkTrendRebuildBody san_diego)) = Ok 0
  /\ exists (n : Z) (db' : DB),
    rebuild_trends clock0 (mkTrendRebuildBody san_diego) db_three
    = (Ok (mkRebuildResult true n), db')
    /\ (forall eid,
          In eid (map t_event_id (region_trends 0 db'))
          <-> In eid (region_event_ids 0 db_three))
    /\ Forall (fun t => t_counts t = live_counts db_three (t_event_id t))
              (region_trends 0 db')
    /\ (forall eid,
          In eid (region_event_ids 0 db_three) ->
          live_counts db_three eid = (0, 0, 0) ->
          exists t, In t (region_trends 0 db')
                    /\ t_event_id t = eid /\ t_counts t = (0, 0, 0))
    /\ n = Z.of_nat (length (region_trends 0 db'))
    /\ (region_event_ids 0 db_three = [] ->
        region_trends 0 db' = [] /\ n = 0).
Proof.
  split; [reflexivity|].
  apply (rebuild_trends_complete clock0 (mkTrendRebuildBody san_diego) 0 db_three).
  reflexivity.
Defined.

Lemma added_rows_not_other (region_id now : Z) (ranked : list (Z * entry)) :
  forall ts,
    filter (fun t => negb (in_region region_id t))
           (added_rows ts region_id now ranked) = [].
Proof.
  induction ranked as [|[rank [[[eid att] com] lik]] ranked IH]; intros ts.
  - reflexivity.
  - simpl. unfold in_region at 1. simpl. now rewrite Z.eqb_refl, IH.
Qed.

Lemma region_counts_with_trends (region_id : Z) (db : DB) (ts : list Trend) :
  region_counts region_id (with_trends db ts) = region_counts region_id db.
Proof. reflexivity. Qed.

Lemma get_db_ok {A : Type} (handler : M A) (db db' : DB) (a : A) :
  handler db = (Ok a, db') -> get_db handler db = (Ok a, db').
Proof. unfold get_db. now intros ->. Qed.

Lemma get_db_err {A : Type} (handler : M A) (db db' : DB) (e : exn) :
  handler db = (Err e, db') -> get_db handler db = (Err e, db).
Proof. unfold get_db. now intros ->. Qed.

Lemma other_trends_after_rebuild (region_id now : Z) (db : DB)
    (ranked : list (Z * entry)) :
  other_trends region_id
    (with_trends db
       (other_trends region_id db
        ++ added_rows (other_trends region_id db) region_id now ranked))
  = other_trends region_id db.
Proof.
  unfold other_trends. cbn [trends with_trends].
  now rewrite filter_app, added_rows_not_other, app_nil_r, other_trends_idem.
Qed.

(** C6. Two rebuild requests in a row, with no change to the events and
    interactions in between, return the same result, and the trend table
    after the second has the same rows as after the first in region,
    event, rank and the three counts; only [updated_at] may differ. *)
Theorem rebuild_trends_idempotent (clock1 clock2 : Clock)
    (payload : TrendRebuildBody) (db : DB) :
  let first := get_db (rebuild_trends clock1 payload) db in
  let second := get_db (rebuild_trends clock2 payload) (snd first) in
  fst second = fst first
  /\ map row_content (trends (snd second)) = map row_content (trends (snd first)).
Proof.
  destruct (parse_region_param (rb_region payload)) as [region_id|e] eqn:Hp.
  - cbn zeta.
    rewrite (get_db_ok _ _ _ _ (rebuild_trends_spec clock1 payload region_id db Hp)).
    cbn [snd fst].
    rewrite (get_db_ok _ _ _ _ (rebuild_trends_spec clock2 payload region_id _ Hp)).
    cbn [snd fst].
    rewrite region_counts_with_trends, other_trends_after_rebuild.
    split; [reflexivity|].
    cbn [trends with_trends]. now rewrite !map_app, !added_rows_content.
  - cbn zeta. unfold get_db, rebuild_trends, bind.
    rewrite (resolve_region_err _ _ _ Hp). cbn [snd fst].
    rewrite (resolve_region_err _ _ _ Hp). cbn [snd fst]. auto.
Qed.

(** ** Upsert *)

Lemma NoDup_map_inj {A B : Type} (f : A -> B) (l : list A) (x y : A) :
  NoDup (map f l) -> In x l -> In y l -> f x = f y -> x = y.
Proof.
  induction l as [|a l IH]; simpl; intros N Hx Hy E; [contradiction|].
  apply NoDup_cons_iff in N as [Na N].
  destruct Hx as [<-|Hx], Hy as [<-|Hy]; auto.
  - exfalso. apply Na. rewrite E. now apply in_map.
  - exfalso. apply Na. rewrite <- E. now apply in_map.
Qed.

Lemma filter_unique {A B : Type} (f : A -> B) (p : A -> bool) (l : list A)
    (row : A) :
  NoDup (map f l) ->
  (forall t, In t l -> p t = true -> f t = f row) ->
  In row l -> p row = true ->
  filter p l = [row].
Proof.
  intros N Hp Hin Hrow.
  assert (forall t, In t (filter p l) -> t = row) as U.
  { intros t Ht. apply filter_In in Ht as [Ht Hpt].
    apply (NoDup_map_inj f l); auto. }
  assert (NoDup (filter p l)) as Nf.
  { apply NoDup_filter. now apply NoDup_map_inv in N. }
  assert (In row (filter p l)) as Hf by (apply filter_In; auto).
  destruct (filter p l) as [|a [|b l']]; [contradiction| |].
  - f_equal. apply U. now left.
  - exfalso. apply NoDup_cons_iff in Nf as [Nab _]. apply Nab.
    rewrite (U a), (U b); simpl; auto.
Qed.

Lemma is_row_pair (region_id event_id : Z) (t : Trend) :
  is_row region_id event_id t = true
  <-> (t_region_id t, t_event_id t) = (region_id, event_id).
Proof.
  unfold is_row. rewrite andb_true_iff, !Z.eqb_eq. split.
  - now intros [-> ->].
  - now intros [= -> ->].
Qed.

Lemma next_trend_id_fresh (ts : list Trend) :
  Forall (fun t => t_id t < next_trend_id ts) ts.
Proof.
  unfold next_trend_id. induction ts as [|t ts IH]; constructor; simpl.
  - lia.
  - revert IH. apply Forall_impl. intros a. lia.
Qed.

Lemma fold_left_max_ge (l : list Z) :
  forall x, x <= fold_left Z.max l x /\ Forall (fun y => y <= fold_left Z.max l x) l.
Proof.
  induction l as [|y l IH]; intros x; simpl.
  - split; [lia | constructor].
  - destruct (IH (Z.max x y)) as [H1 H2]. split; [lia|].
    constructor; [lia | exact H2].
Qed.

Lemma fold_left_max_In (l : list Z) :
  forall x, fold_left Z.max l x = x \/ In (fold_left Z.max l x) l.
Proof.
  induction l as [|y l IH]; intros x; simpl; [now left|].
  destruct (IH (Z.max x y)) as [H|H]; [|now right; right].
  rewrite H. destruct (Z.max_spec x y) as [[_ ->]|[_ ->]]; auto.
Qed.

(** [func.max] is the largest value of a column with rows. *)
Lemma sql_max_spec (l : list Z) :
  match sql_max l with
  | None => l = []
  | Some m => In m l /\ Forall (fun y => y <= m) l
  end.
Proof.
  destruct l as [|x l]; simpl; [reflexivity|].
  destruct (fold_left_max_ge l x) as [H1 H2]. split.
  - destruct (fold_left_max_In l x) as [->|H]; auto.
  - now constructor.
Qed.

Lemma upsert_trend_existing (clock : Clock) (region_id event_id att com lik : Z)
    (db : DB) (row : Trend) :
  trends_pk db -> uq_trend_region_event (trends db) ->
  In row (trends db) -> is_row region_id event_id row = true ->
  upsert_trend clock region_id event_id att com lik db
  = (Ok tt,
     with_trends db
       (with_counts_at region_id event_id att com lik (utc_now clock) (trends db))).
Proof.
  intros PK UQ Hin Hrow.
  unfold upsert_trend, bind, select_trend.
  rewrite (filter_unique (fun t => (t_region_id t, t_event_id t))
             (is_row region_id event_id) (trends db) row UQ); auto.
  - unfold scalar_one_or_none, ret, update_where_id. do 2 f_equal.
    unfold with_counts_at. apply map_ext_in. intros t Ht.
    destruct (Z.eqb_spec (t_id t) (t_id row)) as [E|N].
    + apply (NoDup_map_inj t_id (trends db) t row PK Ht Hin) in E. subst t.
      now rewrite Hrow.
    + destruct (is_row region_id event_id t) eqn:Et; [|reflexivity].
      exfalso. apply N. f_equal.
      apply (NoDup_map_inj (fun t => (t_region_id t, t_event_id t))
               (trends db) t row UQ Ht Hin).
      apply is_row_pair in Et, Hrow. congruence.
  - intros t _ Ht. apply is_row_pair in Ht, Hrow. congruence.
Qed.

Lemma upsert_trend_absent (clock : Clock) (region_id event_id att com lik : Z)
    (db : DB) :
  Forall (fun t => is_row region_id event_id t = false) (trends db) ->
  upsert_trend clock region_id event_id att com lik db
  = (Ok tt,
     with_trends db
       (trends db ++
        [mkTrend (next_trend_id (trends db)) region_id event_id
                 (region_max_rank region_id db + 1) att com lik
                 (current_timestamp clock)])).
Proof.
  intros F. unfold upsert_trend, bind, select_trend.
  assert (filter (is_row region_id event_id) (trends db) = []) as ->.
  { induction F as [|t ts Ht F IH]; simpl; [reflexivity|]. now rewrite Ht. }
  reflexivity.
Qed.

Lemma with_counts_at_pairs (region_id event_id att com lik now : Z)
    (ts : list Trend) :
  map (fun t => (t_region_id t, t_event_id t))
      (with_counts_at region_id event_id att com lik now ts)
  = map (fun t => (t_region_id t, t_event_id t)) ts.
Proof.
  unfold with_counts_at. rewrite map_map. apply map_ext. intros t.
  now destruct (is_row region_id event_id t).
Qed.

Lemma with_counts_at_ids (region_id event_id att com lik now : Z)
    (ts : list Trend) :
  map t_id (with_counts_at region_id event_id att com lik now ts) = map t_id ts.
Proof.
  unfold with_counts_at. rewrite map_map. apply map_ext. intros t.
  now destruct (is_row region_id event_id t).
Qed.

Lemma with_counts_at_filter (region_id event_id att com lik now : Z)
    (ts : list Trend) :
  filter (is_row region_id event_id)
         (with_counts_at region_id event_id att com lik now ts)
  = map (set_counts att com lik now) (filter (is_row region_id event_id) ts).
Proof.
  unfold with_counts_at. induction ts as [|t ts IH]; simpl; [reflexivity|].
  destruct (is_row region_id event_id t) eqn:E; simpl.
  - unfold is_row in *. simpl. rewrite E. simpl. now rewrite IH.
  - now rewrite E, IH.
Qed.

Lemma pk_append (ts : list Trend) (t : Trend) :
  NoDup (map t_id ts) -> t_id t = next_trend_id ts ->
  NoDup (map t_id (ts ++ [t])).
Proof.
  intros N E. rewrite map_app. apply NoDup_app; [exact N | repeat constructor; simpl; tauto|].
  intros a Ha [Hb|[]]. simpl in Hb.
  apply in_map_iff in Ha as (u & <- & Hu).
  pose proof (next_trend_id_fresh ts) as F. rewrite Forall_forall in F.
  specialize (F u Hu). lia.
Qed.

Lemma Forall2_map_self {A : Type} (R : A -> A -> Prop) (f : A -> A)
    (l : list A) :
  (forall x, In x l -> R x (f x)) -> Forall2 R l (map f l).
Proof.
  induction l as [|a l IH]; intros H; cbn [map]; constructor.
  - apply H. now left.
  - apply IH. intros x Hx. apply H. now right.
Qed.

(** C4. With the primary key and the (region, event) constraint in force,
    the upsert succeeds and writes the trend table only. If the pair has
    a row, the table keeps its rows in their places: the row of the pair
    keeps its key, region, event and rank, its three counts are the given
    ones and its timestamp is the time of the request; every other row
    is the same row as before. If the pair has none, one row is appended
    with the counts and the region's largest rank plus one, which is 1 in
    a region without rows. Afterwards the pair has exactly one row and
    both constraints still hold. *)
Theorem upsert_trend_correct (clock : Clock)
    (region_id event_id att com lik : Z) (db : DB) :
  trends_pk db -> uq_trend_region_event (trends db) ->
  exists db' : DB,
    upsert_trend clock region_id event_id att com lik db = (Ok tt, db')
    /\ same_sources db db'
    /\ (((exists row, In row (trends db)
                      /\ is_row region_id event_id row = true)
         /\ Forall2
              (fun t t' : Trend =>
                 if is_row region_id event_id t
                 then t_id t' = t_id t
                      /\ t_region_id t' = t_region_id t
                      /\ t_event_id t' = t_event_id t
                      /\ t_rank t' = t_rank t
                      /\ t_attendance_count t' = att
                      /\ t_comments_count t' = com
                      /\ t_likes_count t' = lik
                      /\ t_updated_at t' = utc_now clock
                 else t' = t)
              (trends db) (trends db'))
        \/ (Forall (fun t => is_row region_id event_id t = false) (trends db)
            /\ exists new : Trend,
                 trends db' = trends db ++ [new]
                 /\ row_content new
                    = (region_id, event_id, region_max_rank region_id db + 1,
                       (att, com, lik))
                 /\ Forall (fun t => t_rank t < t_rank new)
                           (region_trends region_id db)
                 /\ ((region_trends region_id db = [] /\ t_rank new = 1)
                     \/ exists t, In t (region_trends region_id db)
                                  /\ t_rank new = t_rank t + 1)))
    /\ length (filter (is_row region_id event_id) (trends db')) = 1%nat
    /\ uq_trend_region_event (trends db')
    /\ trends_pk db'.
Proof.
  intros PK UQ.
  destruct (filter (is_row region_id event_id) (trends db)) as [|row rest] eqn:E.
  - assert (Forall (fun t => is_row region_id event_id t = false) (trends db)) as F.
    { apply Forall_forall. intros t Ht.
      destruct (is_row region_id event_id t) eqn:Et; [|reflexivity].
      assert (In t (filter (is_row region_id event_id) (trends db))) as H
          by (apply filter_In; auto).
      rewrite E in H. contradiction. }
    rewrite (upsert_trend_absent _ _ _ _ _ _ _ F).
    eexists. split; [reflexivity|]. split; [repeat split|].
    cbn [trends with_trends].
    repeat split.
    + right. split; [exact F|]. eexists. split; [reflexivity|].
      split; [reflexivity|]. cbn [t_rank]. unfold region_max_rank.
      pose proof (sql_max_spec (map t_rank (region_trends region_id db))) as HM.
      destruct (sql_max (map t_rank (region_trends region_id db))) as [m|];
        cbn [coalesce].
      * destruct HM as [Hin Hle]. split.
        -- rewrite Forall_map in Hle. revert Hle. apply Forall_impl.
           intros a. lia.
        -- right. apply in_map_iff in Hin as (t & <- & Ht). now exists t.
      * apply map_eq_nil in HM. rewrite HM. split; [constructor | now left].
    + rewrite filter_app, E. cbn [filter app]. unfold is_row. cbn.
      now rewrite !Z.eqb_refl.
    + unfold uq_trend_region_event. rewrite map_app.
      apply NoDup_app; [exact UQ | repeat constructor; simpl; tauto|].
      intros a Ha [Hb|[]]. cbn in Hb. subst a.
      apply in_map_iff in Ha as (u & Hu & Hin).
      rewrite Forall_forall in F. specialize (F u Hin).
      apply is_row_pair in Hu. congruence.
    + unfold trends_pk. cbn [trends with_trends]. now apply pk_append.
  - assert (In row (trends db) /\ is_row region_id event_id row = true)
      as [Hin Hrow].
    { apply filter_In. rewrite E. now left. }
    rewrite (upsert_trend_existing _ _ _ _ _ _ _ row PK UQ Hin Hrow).
    eexists. split; [reflexivity|]. split; [repeat split|].
    cbn [trends with_trends].
    split; [|repeat split].
    + left. split; [now exists row|]. unfold with_counts_at.
      apply Forall2_map_self. intros t _.
      destruct (is_row region_id event_id t); [|reflexivity].
      repeat split.
    + rewrite with_counts_at_filter, length_map.
      rewrite (filter_unique (fun t => (t_region_id t, t_event_id t))
                 (is_row region_id event_id) (trends db) row UQ); auto.
      intros t _ Ht. apply is_row_pair in Ht, Hrow. congruence.
    + unfold uq_trend_region_event. now rewrite with_counts_at_pairs.
    + unfold trends_pk. cbn [trends with_trends]. now rewrite with_counts_at_ids.
Qed.

Lemma db_ranked_pk : trends_pk db_ranked.
Proof.
  unfold trends_pk. vm_compute. repeat constructor; simpl; intuition discriminate.
Defined.

Lemma db_ranked_uq : uq_trend_region_event (trends db_ranked).
Proof.
  unfold uq_trend_region_event. vm_compute.
  repeat constructor; simpl; intuition discriminate.
Defined.

(** The upsert of E3 with one like into the ranked three-event region. *)
Lemma upsert_trend_correct_witness :
  trends_pk db_ranked /\ uq_trend_region_event (trends db_ranked)
  /\ exists db' : DB,
    upsert_trend clock0 0 3 0 0 1 db_ranked = (Ok tt, db')
    /\ same_sources db_ranked db'
    /\ (((exists row, In row (trends db_ranked) /\ is_row 0 3 row = true)
         /\ Forall2
              (fun t t' : Trend =>
                 if is_row 0 3 t
                 then t_id t' = t_id t
                      /\ t_region_id t' = t_region_id t
                      /\ t_event_id t' = t_event_id t
                      /\ t_rank t' = t_rank t
                      /\ t_attendance_count t' = 0
                      /\ t_comments_count t' = 0
                      /\ t_likes_count t' = 1
                      /\ t_updated_at t' = utc_now clock0
                 else t' = t)
              (trends db_ranked) (trends db'))
        \/ (Forall (fun t => is_row 0 3 t = false) (trends db_ranked)
            /\ exists new : Trend,
                 trends db' = trends db_ranked ++ [new]
                 /\ row_content new
                    = (0, 3, region_max_rank 0 db_ranked + 1, (0, 0, 1))
                 /\ Forall (fun t => t_rank t < t_rank new)
                           (region_trends 0 db_ranked)
                 /\ ((region_trends 0 db_ranked = [] /\ t_rank new = 1)
                     \/ exists t, In t (region_trends 0 db_ranked)
                                  /\ t_rank new = t_rank t + 1)))
    /\ length (filter (is_row 0 3) (trends db')) = 1%nat
    /\ uq_trend_region_event (trends db')
    /\ trends_pk db'.
Proof.
  split; [exact db_ranked_pk|]. split; [exact db_ranked_uq|].
  exact (upsert_trend_correct clock0 0 3 0 0 1 db_ranked db_ranked_pk db_ranked_uq).
Defined.

(** ** Reorder *)

Lemma for_each_update (ranked : list (Z * Trend)) :
  forall db,
    for_each ranked
      (fun r : Z * Trend => let (rank, t) := r in
                            update_where_id (t_id t) (set_rank rank)) db
    = (Ok tt, with_trends db (apply_ranks ranked (trends db))).
Proof.
  induction ranked as [|[rank t] ranked IH]; intros db.
  - simpl. unfold ret. now destruct db.
  - cbn [for_each]. unfold bind at 1. unfold update_where_id at 1.
    rewrite IH. now destruct db.
Qed.

Lemma reorder_trends_spec (region_id : Z) (db : DB) :
  reorder_trends region_id db
  = (Ok tt,
     with_trends db
       (apply_ranks (enumerate 1 (reordered region_id (trends db))) (trends db))).
Proof.
  unfold reorder_trends, bind, select_trends_by_rank. now rewrite for_each_update.
Qed.

(** The loop changes no column but the rank. *)
Lemma apply_ranks_frame (ranked : list (Z * Trend)) :
  forall ts, map row_unranked (apply_ranks ranked ts) = map row_unranked ts.
Proof.
  induction ranked as [|r ranked IH]; intros ts; [reflexivity|].
  unfold apply_ranks in *. cbn [fold_left]. rewrite IH, map_map.
  apply map_ext. intros t. now destruct (t_id t =? t_id (snd r)).
Qed.

Lemma find_by_id (ranked : list (Z * Trend)) (r : Z * Trend) :
  NoDup (map t_id (map snd ranked)) -> In r ranked ->
  find (fun r' => t_id (snd r') =? t_id (snd r)) ranked = Some r.
Proof.
  induction ranked as [|a ranked IH]; simpl; intros N Hin; [contradiction|].
  apply NoDup_cons_iff in N as [Na N].
  destruct Hin as [->|Hin].
  - now rewrite Z.eqb_refl.
  - destruct (Z.eqb_spec (t_id (snd a)) (t_id (snd r))) as [E|_]; [|auto].
    exfalso. apply Na. rewrite E. now apply in_map, in_map.
Qed.

(** With distinct keys, each stored row gets the rank of the ranked row
    with its key. *)
Lemma apply_ranks_find (ranked : list (Z * Trend)) :
  NoDup (map t_id (map snd ranked)) ->
  forall ts,
    apply_ranks ranked ts
    = map (fun t => match find (fun r => t_id (snd r) =? t_id t) ranked with
                    | Some r => set_rank (fst r) t
                    | None => t
                    end) ts.
Proof.
  induction ranked as [|a ranked IH]; intros N ts.
  - simpl. now rewrite map_id.
  - cbn [map] in N. apply NoDup_cons_iff in N as [Na N].
    unfold apply_ranks in *. cbn [fold_left]. rewrite (IH N), map_map.
    apply map_ext. intros t. cbn [find].
    rewrite (Z.eqb_sym (t_id (snd a)) (t_id t)).
    destruct (Z.eqb_spec (t_id t) (t_id (snd a))) as [E|_]; [|reflexivity].
    cbn [set_rank t_id].
    destruct (find (fun r => t_id (snd r) =? t_id t) ranked) as [r|] eqn:F;
      [|reflexivity].
    exfalso. apply find_some in F as [Hr Hid]. apply Z.eqb_eq in Hid.
    apply Na. rewrite <- E, <- Hid. now apply in_map, in_map.
Qed.

Lemma filter_map_preserved {A : Type} (p : A -> bool) (g : A -> A) (l : list A) :
  (forall t, p (g t) = p t) ->
  filter p (map g l) = map g (filter p l).
Proof.
  intros Hg. induction l as [|t l IH]; [reflexivity|].
  cbn [map filter]. rewrite Hg. destruct (p t); cbn [map]; now rewrite IH.
Qed.

Lemma filter_map_region (region_id : Z) (g : Trend -> Trend) (ts : list Trend) :
  (forall t, t_region_id (g t) = t_region_id t) ->
  filter (in_region region_id) (map g ts)
  = map g (filter (in_region region_id) ts).
Proof.
  intros Hg. induction ts as [|t ts IH]; [reflexivity|].
  cbn [map filter].
  replace (in_region region_id (g t)) with (in_region region_id t)
    by (unfold in_region; now rewrite Hg).
  destruct (in_region region_id t); cbn [map]; now rewrite IH.
Qed.

Lemma order_by_perm {A : Type} (col : A -> Z) (l : list A) :
  Permutation l (order_by col l).
Proof. apply stable_sort_perm. Qed.

Lemma reordered_perm (region_id : Z) (ts : list Trend) :
  Permutation (filter (in_region region_id) ts) (reordered region_id ts).
Proof.
  unfold reordered. rewrite <- sorted_perm. apply order_by_perm.
Qed.

Lemma reordered_ids (region_id : Z) (ts : list Trend) :
  NoDup (map t_id ts) -> NoDup (map t_id (reordered region_id ts)).
Proof.
  intros N.
  apply (Permutation_NoDup
           (Permutation_map t_id (reordered_perm region_id ts))).
  induction ts as [|t ts IH]; simpl; [constructor|].
  apply NoDup_cons_iff in N as [Nt N].
  destruct (in_region region_id t); simpl; [|now apply IH].
  constructor; [|now apply IH].
  intros H. apply Nt. apply in_map_iff in H as (u & <- & Hu).
  apply in_map. now apply filter_In in Hu.
Qed.

(** The rows of the region after the loop are, up to storage order, the
    sorted rows numbered from 1. *)
Lemma reorder_region_rows (region_id : Z) (ts : list Trend) :
  NoDup (map t_id ts) ->
  Permutation
    (filter (in_region region_id)
            (apply_ranks (enumerate 1 (reordered region_id ts)) ts))
    (renumbered (reordered region_id ts)).
Proof.
  intros N.
  pose proof (reordered_ids region_id ts N) as NS.
  set (S := reordered region_id ts) in *.
  assert (NoDup (map t_id (map snd (enumerate 1 S)))) as NR
      by now rewrite enumerate_snd.
  rewrite (apply_ranks_find _ NR).
  rewrite filter_map_region.
  2:{ intros t. now destruct (find _ _). }
  rewrite (Permutation_map _ (reordered_perm region_id ts)). fold S.
  unfold renumbered.
  rewrite <- (enumerate_snd S 1) at 1. rewrite map_map.
  erewrite map_ext_in; [reflexivity|].
  intros r Hr. cbn beta. now rewrite (find_by_id _ r NR Hr).
Qed.

Lemma renumbered_ranks (rows : list Trend) :
  map t_rank (renumbered rows) = one_to (length rows).
Proof.
  unfold renumbered. rewrite map_map. rewrite <- enumerate_one_fst.
  now apply map_ext.
Qed.

Lemma renumbered_length (rows : list Trend) :
  length (renumbered rows) = length rows.
Proof. unfold renumbered. now rewrite length_map, enumerate_length. Qed.

Lemma trend_key_stored_before (a b : Trend) :
  ordered (key_lt trend_key) a b -> stored_before a b.
Proof.
  unfold ordered, key_lt, trend_key, stored_before. intros H.
  now apply order_key_counts_ge in H.
Qed.

Lemma renumbered_sorted (rows : list Trend) :
  StronglySorted (ordered (key_lt trend_key)) rows ->
  StronglySorted stored_before (renumbered rows).
Proof.
  unfold renumbered. generalize 1. intros start S. revert start.
  induction S as [|t rows S IH F]; intros start; simpl; constructor.
  - apply IH.
  - rewrite Forall_map. apply Forall_forall. intros [rank u] Hu.
    rewrite Forall_forall in F.
    change (stored_before t u). apply trend_key_stored_before, F.
    rewrite <- (enumerate_snd rows (start + 1)). now apply (in_map snd) in Hu.
Qed.

Lemma reordered_sorted (region_id : Z) (ts : list Trend) :
  StronglySorted stored_before (renumbered (reordered region_id ts)).
Proof. apply renumbered_sorted, sorted_ordered. Qed.

(** ** Update *)

(** The three outcomes of the upsert, by the number of rows the pair has. *)
Lemma upsert_trend_cases (clock : Clock) (region_id event_id att com lik : Z)
    (db : DB) :
  upsert_trend clock region_id event_id att com lik db
  = match filter (is_row region_id event_id) (trends db) with
    | [] =>
        (Ok tt,
         with_trends db
           (trends db ++
            [mkTrend (next_trend_id (trends db)) region_id event_id
                     (region_max_rank region_id db + 1) att com lik
                     (current_timestamp clock)]))
    | [row] =>
        (Ok tt,
         with_trends db
           (map (fun t => if t_id t =? t_id row
                          then set_counts att com lik (utc_now clock) t else t)
                (trends db)))
    | _ => (Err MultipleResultsFound, db)
    end.
Proof.
  unfold upsert_trend, bind, select_trend.
  destruct (filter (is_row region_id event_id) (trends db)) as [|row [|row' rest]];
    reflexivity.
Qed.

Lemma upsert_trend_err (clock : Clock) (region_id event_id att com lik : Z)
    (db db1 : DB) (e : exn) :
  upsert_trend clock region_id event_id att com lik db = (Err e, db1) ->
  e = MultipleResultsFound /\ db1 = db.
Proof.
  rewrite upsert_trend_cases.
  destruct (filter (is_row region_id event_id) (trends db)) as [|row [|row' rest]];
    intros [= <- <-]; auto.
Qed.

Lemma upsert_trend_pk (clock : Clock) (region_id event_id att com lik : Z)
    (db db1 : DB) (u : unit) :
  trends_pk db ->
  upsert_trend clock region_id event_id att com lik db = (Ok u, db1) ->
  trends_pk db1.
Proof.
  intros PK. rewrite upsert_trend_cases.
  destruct (filter (is_row region_id event_id) (trends db)) as [|row [|row' rest]];
    intros [= _ <-]; unfold trends_pk; cbn [trends with_trends].
  - now apply pk_append.
  - rewrite map_map. erewrite map_ext; [exact PK|].
    intros t. now destruct (t_id t =? t_id row).
Qed.

(** Outside the pair's rows the upsert changes nothing, and the rows of
    the pair carry the given counts afterwards. *)
Lemma upsert_trend_frame (clock : Clock) (region_id event_id att com lik : Z)
    (db db1 : DB) (u : unit) :
  trends_pk db ->
  upsert_trend clock region_id event_id att com lik db = (Ok u, db1) ->
  filter (fun t => negb (is_row region_id event_id t)) (trends db1)
  = filter (fun t => negb (is_row region_id event_id t)) (trends db)
  /\ (exists t, filter (is_row region_id event_id) (trends db1) = [t])
  /\ Forall (fun t => t_counts t = (att, com, lik))
            (filter (is_row region_id event_id) (trends db1)).
Proof.
  intros PK. rewrite upsert_trend_cases.
  destruct (filter (is_row region_id event_id) (trends db)) as [|row [|row' rest]]
    eqn:E; intros [= _ <-]; cbn [trends with_trends].
  - set (new := mkTrend _ _ _ _ _ _ _ _).
    assert (is_row region_id event_id new = true) as Hn
        by (unfold is_row; cbn; now rewrite !Z.eqb_refl).
    rewrite !filter_app, E. cbn [filter]. rewrite Hn. cbn [negb app].
    rewrite app_nil_r.
    repeat split; [eexists; reflexivity | repeat constructor].
  - assert (In row (trends db) /\ is_row region_id event_id row = true)
      as [Hin Hrow] by (apply filter_In; rewrite E; now left).
    assert (forall t, In t (trends db) ->
              (t_id t =? t_id row) = true -> t = row) as Hid.
    { intros t Ht Et. apply Z.eqb_eq in Et.
      now apply (NoDup_map_inj t_id (trends db) t row PK). }
    assert (forall p : Trend -> bool,
              (forall t, p (set_counts att com lik (utc_now clock) t) = p t) ->
              filter p (map (fun t => if t_id t =? t_id row
                                      then set_counts att com lik (utc_now clock) t
                                      else t) (trends db))
              = map (fun t => if t_id t =? t_id row
                              then set_counts att com lik (utc_now clock) t
                              else t) (filter p (trends db))) as Hf.
    { intros p Hp. apply filter_map_preserved. intros t.
      destruct (t_id t =? t_id row); [apply Hp | reflexivity]. }
    rewrite !Hf by reflexivity. rewrite E. cbn [map].
    rewrite Z.eqb_refl. repeat split.
    + erewrite map_ext_in; [apply map_id|].
      intros t Ht. apply filter_In in Ht as [Ht Hn].
      destruct (t_id t =? t_id row) eqn:Et; [|reflexivity].
      apply (Hid t Ht) in Et. subst t. now rewrite Hrow in Hn.
    + eexists. reflexivity.
    + repeat constructor.
Qed.

Lemma region_counts_get (region_id event_id : Z) (db : DB) :
  In event_id (region_event_ids region_id db) ->
  dict_get_default (region_counts region_id db) event_id (0, 0, 0)
  = live_counts db event_id.
Proof.
  intros Hin. apply region_counts_keys in Hin.
  pose proof (dict_of_items_values _ (live_counts db)
                (region_event_ids region_id db)) as F.
  fold (region_counts region_id db) in F.
  unfold dict_get_default.
  induction (region_counts region_id db) as [|[k v] d IH]; [contradiction|].
  inversion F as [|? ? Hkv F']; subst. cbn in Hkv. cbn [dict_get].
  destruct (Z.eqb_spec k event_id) as [->|N]; [exact Hkv|].
  apply IH; [|exact F']. destruct Hin as [Hk|Hin]; [contradiction | exact Hin].
Qed.

Lemma found_in_region (region_id event_id : Z) (db : DB) (ev : Event) :
  find (fun e => ev_id e =? event_id) (events db) = Some ev ->
  ev_region_id ev = region_id ->
  In event_id (region_event_ids region_id db).
Proof.
  intros F R. apply find_some in F as [Hin Hid]. apply Z.eqb_eq in Hid.
  unfold region_event_ids. apply in_map_iff. exists ev. split; [exact Hid|].
  apply filter_In. split; [exact Hin | now apply Z.eqb_eq].
Qed.

(** [update_trends] step by step. *)
Lemma db_get_event_spec (id : Z) (db : DB) :
  db_get_event id db
  = if sqlite_int id
    then (Ok (find (fun e => ev_id e =? id) (events db)), db)
    else (Err OverflowError, db).
Proof.
  unfold db_get_event, bind, bind_param. now destruct (sqlite_int id).
Qed.

Lemma update_trends_unfold (clock : Clock) (payload : TrendUpdateBody) (db : DB) :
  update_trends clock payload db
  = match parse_region_param (ub_region payload) with
    | Err e => (Err (HTTPException 400 (DetailValueError e)), db)
    | Ok region_id =>
        if negb (sqlite_int (ub_event_id payload)) then (Err OverflowError, db)
        else
        match find (fun e => ev_id e =? ub_event_id payload) (events db) with
        | None =>
            (Err (HTTPException 404 (DetailText "Event not found in this region")),
             db)
        | Some ev =>
            if ev_region_id ev =? region_id then
              let '(att, com, lik) := live_counts db (ub_event_id payload) in
              match upsert_trend clock region_id (ub_event_id payload)
                                 att com lik db with
              | (Ok _, db1) =>
                  (Ok (mkSuccessResponse true),
                   with_trends db1
                     (apply_ranks
                        (enumerate 1 (reordered region_id (trends db1)))
                        (trends db1)))
              | (Err e, db1) => (Err e, db1)
              end
            else
              (Err (HTTPException 404 (DetailText "Event not found in this region")),
               db)
        end
    end.
Proof.
  unfold update_trends. unfold bind at 1. unfold resolve_region.
  destruct (parse_region_param (ub_region payload)) as [region_id|e];
    [|reflexivity].
  unfold ret at 1. unfold bind at 1. rewrite db_get_event_spec.
  destruct (sqlite_int (ub_event_id payload)); [|reflexivity]. cbn [negb].
  destruct (find (fun e => ev_id e =? ub_event_id payload) (events db))
    as [ev|] eqn:F; [|reflexivity].
  destruct (Z.eqb_spec (ev_region_id ev) region_id) as [R|R]; [|reflexivity].
  cbn [negb]. unfold bind at 1. rewrite get_counts_spec.
  fold (region_counts region_id db).
  rewrite (region_counts_get _ _ _ (found_in_region _ _ _ _ F R)).
  unfold live_counts. unfold bind at 1.
  destruct (upsert_trend _ _ _ _ _ _ db) as [[u|e] db1]; [|reflexivity].
  unfold bind. rewrite reorder_trends_spec. reflexivity.
Qed.

Lemma apply_ranks_filter_frame (p : Trend -> bool) (ranked : list (Z * Trend)) :
  (forall rank t, p (set_rank rank t) = p t) ->
  forall ts,
    map row_unranked (filter p (apply_ranks ranked ts))
    = map row_unranked (filter p ts).
Proof.
  intros Hp. induction ranked as [|r ranked IH]; intros ts; [reflexivity|].
  unfold apply_ranks in *. cbn [fold_left]. rewrite IH.
  rewrite filter_map_preserved.
  - rewrite map_map. apply map_ext. intros t.
    now destruct (t_id t =? t_id (snd r)).
  - intros t. destruct (t_id t =? t_id (snd r)); [apply Hp | reflexivity].
Qed.

(** A successful update, taken apart: the event is in the region, the
    upsert of its live counts succeeded on the state [db1], and the
    result is [db1] with the ranks of the region set by the loop. *)
Lemma update_trends_ok_inv (clock : Clock) (payload : TrendUpdateBody)
    (region_id : Z) (db db' : DB) (resp : SuccessResponse) :
  parse_region_param (ub_region payload) = Ok region_id ->
  update_trends clock payload db = (Ok resp, db') ->
  exists db1 : DB,
    upsert_trend clock region_id (ub_event_id payload)
      (count_for (event_attending db) (ub_event_id payload))
      (count_for (event_comments db) (ub_event_id payload))
      (count_for (event_likes db) (ub_event_id payload)) db
    = (Ok tt, db1)
    /\ trends db'
       = apply_ranks (enumerate 1 (reordered region_id (trends db1))) (trends db1).
Proof.
  intros Hp. rewrite update_trends_unfold, Hp.
  destruct (sqlite_int (ub_event_id payload)); [cbn [negb]|discriminate].
  destruct (find _ _) as [ev|]; [|discriminate].
  destruct (ev_region_id ev =? region_id); [|discriminate].
  unfold live_counts.
  destruct (upsert_trend _ _ _ _ _ _ db) as [[[] |e] db1]; [|discriminate].
  intros [= _ <-]. exists db1. split; reflexivity.
Qed.

(** The rows of the region after a successful update, listed by rank. *)
Lemma update_trends_by_rank (clock : Clock) (payload : TrendUpdateBody)
    (region_id : Z) (db db' : DB) (resp : SuccessResponse) :
  trends_pk db ->
  parse_region_param (ub_region payload) = Ok region_id ->
  update_trends clock payload db = (Ok resp, db') ->
  exists by_rank : list Trend,
    Permutation (region_trends region_id db') by_rank
    /\ map t_rank by_rank = one_to (length (region_trends region_id db'))
    /\ StronglySorted stored_before by_rank.
Proof.
  intros PK Hp H.
  destruct (update_trends_ok_inv _ _ _ _ _ _ Hp H) as (db1 & Hu & Ht).
  pose proof (upsert_trend_pk _ _ _ _ _ _ _ _ _ PK Hu) as PK1.
  pose proof (reorder_region_rows region_id (trends db1) PK1) as P.
  rewrite <- Ht in P. fold (region_trends region_id db') in P.
  exists (renumbered (reordered region_id (trends db1))).
  split; [exact P|]. split; [|apply reordered_sorted].
  rewrite renumbered_ranks. f_equal.
  rewrite (Permutation_length P). now rewrite renumbered_length.
Qed.

(** C2. After a successful update of an event of the region, with the
    primary key of the trend table in force, the ranks of the region's
    rows are a permutation of 1..N, N the number of those rows, and the
    rows listed by rank 1, 2, ..., N stand in descending order of their
    stored (attendance, comments, likes): every row, not only the updated
    one, has counts greater than or equal to those of every row ranked
    after it. *)
Theorem update_trends_renumbers (clock : Clock) (payload : TrendUpdateBody)
    (region_id : Z) (db db' : DB) (resp : SuccessResponse) :
  trends_pk db ->
  parse_region_param (ub_region payload) = Ok region_id ->
  update_trends clock payload db = (Ok resp, db') ->
  Permutation (map t_rank (region_trends region_id db'))
              (one_to (length (region_trends region_id db')))
  /\ exists by_rank : list Trend,
       Permutation (region_trends region_id db') by_rank
       /\ map t_rank by_rank = one_to (length (region_trends region_id db'))
       /\ StronglySorted stored_before by_rank.
Proof.
  intros PK Hp H.
  destruct (update_trends_by_rank _ _ _ _ _ _ PK Hp H) as (by_rank & P & R & S).
  split; [|now exists by_rank].
  rewrite <- R. now apply Permutation_map.
Qed.

(** C5. After a successful update of event X, with the primary key of
    the trend table in force, every trend row other than X's has the key,
    region, event, three counts and timestamp it had before, whatever the
    live counts of its event are now; X's row carries the live counts of
    X; and the ranks follow the stored counts: the rows of the region
    listed by rank are in descending order of their stored counts. *)
Theorem update_trends_frame (clock : Clock) (payload : TrendUpdateBody)
    (region_id : Z) (db db' : DB) (resp : SuccessResponse) :
  trends_pk db ->
  parse_region_param (ub_region payload) = Ok region_id ->
  update_trends clock payload db = (Ok resp, db') ->
  map row_unranked
      (filter (fun t => negb (is_row region_id (ub_event_id payload) t))
              (trends db'))
  = map row_unranked
        (filter (fun t => negb (is_row region_id (ub_event_id payload) t))
                (trends db))
  /\ (exists x : Trend,
        filter (is_row region_id (ub_event_id payload)) (trends db') = [x]
        /\ t_counts x = live_counts db (ub_event_id payload))
  /\ exists by_rank : list Trend,
       Permutation (region_trends region_id db') by_rank
       /\ map t_rank by_rank = one_to (length (region_trends region_id db'))
       /\ StronglySorted stored_before by_rank.
Proof.
  intros PK Hp H.
  split; [|split; [|exact (update_trends_by_rank _ _ _ _ _ _ PK Hp H)]];
    destruct (update_trends_ok_inv _ _ _ _ _ _ Hp H) as (db1 & Hu & Ht);
    destruct (upsert_trend_frame _ _ _ _ _ _ _ _ _ PK Hu)
      as (Hother & (x1 & Hx1) & Hcounts);
    rewrite Ht.
  - rewrite apply_ranks_filter_frame by reflexivity. now rewrite Hother.
  - pose proof (apply_ranks_filter_frame
                  (is_row region_id (ub_event_id payload))
                  (enumerate 1 (reordered region_id (trends db1)))
                  (fun _ _ => eq_refl) (trends db1)) as F.
    rewrite Hx1 in F. rewrite Hx1 in Hcounts.
    destruct (filter _ (apply_ranks _ _)) as [|x [|y rest]]; try discriminate.
    exists x. split; [reflexivity|].
    assert (row_unranked x = row_unranked x1) as F'
        by (cbn [map] in F; congruence).
    inversion Hcounts as [|? ? Hc _]; subst.
    assert (t_counts x = t_counts x1) as ->
        by exact (f_equal (fun p => snd (fst p)) F').
    exact Hc.
Qed.

Lemma db_liked_pk : trends_pk db_liked.
Proof.
  unfold trends_pk. vm_compute. repeat constructor; simpl; intuition discriminate.
Defined.

Lemma update_e3_ok :
  update_trends clock0 update_e3 db_liked = (Ok (mkSuccessResponse true), db_updated).
Proof. vm_compute. reflexivity. Defined.

(** The update of E3 in the ranked three-event region, after a like. *)
Lemma update_trends_renumbers_witness :
  trends_pk db_liked
  /\ parse_region_param (ub_region update_e3) = Ok 0
  /\ update_trends clock0 update_e3 db_liked
     = (Ok (mkSuccessResponse true), db_updated)
  /\ Permutation (map t_rank (region_trends 0 db_updated))
                 (one_to (length (region_trends 0 db_updated)))
  /\ exists by_rank : list Trend,
       Permutation (region_trends 0 db_updated) by_rank
       /\ map t_rank by_rank = one_to (length (region_trends 0 db_updated))
       /\ StronglySorted stored_before by_rank.
Proof.
  split; [exact db_liked_pk|]. split; [reflexivity|].
  split; [exact update_e3_ok|].
  exact (update_trends_renumbers clock0 update_e3 0 db_liked db_updated
           (mkSuccessResponse true) db_liked_pk eq_refl update_e3_ok).
Defined.

Lemma update_trends_frame_witness :
  trends_pk db_liked
  /\ parse_region_param (ub_region update_e3) = Ok 0
  /\ update_trends clock0 update_e3 db_liked
     = (Ok (mkSuccessResponse true), db_updated)
  /\ map row_unranked
        (filter (fun t => negb (is_row 0 (ub_event_id update_e3) t))
                (trends db_updated))
     = map row_unranked
         (filter (fun t => negb (is_row 0 (ub_event_id update_e3) t))
                 (trends db_liked))
  /\ (exists x : Trend,
        filter (is_row 0 (ub_event_id update_e3)) (trends db_updated) = [x]
        /\ t_counts x = live_counts db_liked (ub_event_id update_e3))
  /\ exists by_rank : list Trend,
       Permutation (region_trends 0 db_updated) by_rank
       /\ map t_rank by_rank = one_to (length (region_trends 0 db_updated))
       /\ StronglySorted stored_before by_rank.
Proof.
  split; [exact db_liked_pk|]. split; [reflexivity|].
  split; [exact update_e3_ok|].
  exact (update_trends_frame clock0 update_e3 0 db_liked db_updated
           (mkSuccessResponse true) db_liked_pk eq_refl update_e3_ok).
Defined.

(** C8. The result of an update does not depend on the rank in the body:
    two bodies with the same region and event, and any two ranks or none,
    give the same response and the same final state, of the handler and
    of the whole request. *)
Theorem update_trends_ignores_rank (clock : Clock) (region : region_param)
    (event_id : Z) (rank1 rank2 : option positive) (db : DB) :
  update_trends clock (mkTrendUpdateBody region event_id rank1) db
  = update_trends clock (mkTrendUpdateBody region event_id rank2) db
  /\ get_db (update_trends clock (mkTrendUpdateBody region event_id rank1)) db
     = get_db (update_trends clock (mkTrendUpdateBody region event_id rank2)) db.
Proof. split; reflexivity. Qed.

(** ** Failures of the update *)

(** The failures of the update. With a region that resolves, the update
    answers 404 exactly when the lookup of the event answers that there
    is none, or finds an event of another region; an event id that is no
    SQLite integer makes the lookup itself raise [OverflowError]. And
    whenever the update raises, whatever the error, the session is in the
    state it started from at that point, and so is the database after the
    request: no trend row was created, changed or renumbered. *)
Lemma update_trends_failure (clock : Clock) (payload : TrendUpdateBody)
    (db : DB) :
  (forall region_id,
     parse_region_param (ub_region payload) = Ok region_id ->
     sqlite_int (ub_event_id payload) = false ->
     update_trends clock payload db = (Err OverflowError, db))
  /\ (forall region_id,
     parse_region_param (ub_region payload) = Ok region_id ->
     ((exists d, fst (update_trends clock payload db) = Err (HTTPException 404 d))
      <-> (fst (db_get_event (ub_event_id payload) db) = Ok None
           \/ exists ev,
                fst (db_get_event (ub_event_id payload) db) = Ok (Some ev)
                /\ ev_region_id ev <> region_id))
     /\ ((exists d, fst (update_trends clock payload db) = Err (HTTPException 404 d))
         -> fst (update_trends clock payload db) = Err not_found))
  /\ (forall e,
        parse_region_param (ub_region payload) = Err e ->
        fst (update_trends clock payload db) = Err (invalid_region e))
  /\ (forall e,
        fst (update_trends clock payload db) = Err e ->
        snd (update_trends clock payload db) = db
        /\ snd (get_db (update_trends clock payload) db) = db).
Proof.
  split; [intros region_id Hp Hid; now rewrite update_trends_unfold, Hp, Hid|].
  split; [intros region_id Hp; split; [split|] | split].
  - intros [d H]. revert H. rewrite update_trends_unfold, Hp.
    rewrite db_get_event_spec.
    destruct (sqlite_int (ub_event_id payload)); [|discriminate].
    cbn [fst negb].
    destruct (find _ _) as [ev|]; [|now left].
    destruct (Z.eqb_spec (ev_region_id ev) region_id) as [R|R];
      [|right; now exists ev].
    unfold live_counts.
    destruct (upsert_trend _ _ _ _ _ _ db) as [[u|e] db1] eqn:U; [discriminate|].
    apply upsert_trend_err in U as [-> _]. discriminate.
  - rewrite update_trends_unfold, Hp, db_get_event_spec.
    destruct (sqlite_int (ub_event_id payload));
      [|intros [H|(ev & H & _)]; discriminate].
    cbn [fst negb]. intros [H|(ev & H & R)].
    + injection H as ->. eexists. reflexivity.
    + injection H as ->.
      destruct (Z.eqb_spec (ev_region_id ev) region_id); [contradiction|].
      eexists. reflexivity.
  - intros [d H]. revert H. rewrite update_trends_unfold, Hp.
    destruct (sqlite_int (ub_event_id payload)); [|discriminate]. cbn [negb].
    destruct (find _ _) as [ev|]; [|reflexivity].
    destruct (ev_region_id ev =? region_id); [|reflexivity].
    unfold live_counts.
    destruct (upsert_trend _ _ _ _ _ _ db) as [[u|e] db1] eqn:U; [discriminate|].
    apply upsert_trend_err in U as [-> _]. discriminate.
  - intros e He. now rewrite update_trends_unfold, He.
  - intros e H. split.
    + revert H. rewrite update_trends_unfold.
      destruct (parse_region_param _) as [region_id|e0]; [|reflexivity].
      destruct (sqlite_int (ub_event_id payload)); [|reflexivity]. cbn [negb].
      destruct (find _ _) as [ev|]; [|reflexivity].
      destruct (ev_region_id ev =? region_id); [|reflexivity].
      unfold live_counts.
      destruct (upsert_trend _ _ _ _ _ _ db) as [[u|e1] db1] eqn:U; [discriminate|].
      now apply upsert_trend_err in U as [_ ->].
    + unfold get_db. destruct (update_trends clock payload db) as [[r|e0] db1];
        [discriminate | reflexivity].
Qed.

(** C7, where the code departs from it. The event id of the body has no
    upper bound, and [db.get] binds it: for an id that is no SQLite
    integer, with a region that resolves, the update raises
    [OverflowError], which is not the 404, although no event has that id
    (the stored keys are SQLite integers). The state is untouched, in the
    session and after the request. *)
Theorem update_trends_out_of_range (clock : Clock) (region : region_param)
    (rank : option positive) (region_id event_id : Z) (db : DB) :
  parse_region_param region = Ok region_id ->
  sqlite_int event_id = false ->
  (forall ev, In ev (events db) -> sqlite_int (ev_id ev) = true) ->
  (forall ev, In ev (events db) -> ev_id ev <> event_id)
  /\ update_trends clock (mkTrendUpdateBody region event_id rank) db
     = (Err OverflowError, db)
  /\ ~ (exists d,
          fst (update_trends clock (mkTrendUpdateBody region event_id rank) db)
          = Err (HTTPException 404 d))
  /\ get_db (update_trends clock (mkTrendUpdateBody region event_id rank)) db
     = (Err OverflowError, db).
Proof.
  intros Hp Hid Hkeys.
  assert (update_trends clock (mkTrendUpdateBody region event_id rank) db
          = (Err OverflowError, db)) as H.
  { rewrite update_trends_unfold. cbn [ub_region ub_event_id].
    now rewrite Hp, Hid. }
  split; [|split; [exact H|split]].
  - intros ev Hev E. apply Hkeys in Hev. congruence.
  - rewrite H. intros [d Hd]. discriminate.
  - unfold get_db. now rewrite H.
Qed.

(** The update of event 2^63 in the region of three events. *)
Lemma update_trends_out_of_range_witness :
  parse_region_param san_diego = Ok 0
  /\ sqlite_int (2 ^ 63) = false
  /\ (forall ev, In ev (events db_three) -> sqlite_int (ev_id ev) = true)
  /\ (forall ev, In ev (events db_three) -> ev_id ev <> 2 ^ 63)
  /\ update_trends clock0 (mkTrendUpdateBody san_diego (2 ^ 63) None) db_three
     = (Err OverflowError, db_three)
  /\ ~ (exists d,
          fst (update_trends clock0 (mkTrendUpdateBody san_diego (2 ^ 63) None)
                 db_three)
          = Err (HTTPException 404 d))
  /\ get_db (update_trends clock0 (mkTrendUpdateBody san_diego (2 ^ 63) None))
       db_three
     = (Err OverflowError, db_three).
Proof.
  assert (forall ev, In ev (events db_three) -> sqlite_int (ev_id ev) = true)
    as Hkeys.
  { intros ev [<-|[<-|[<-|[]]]]; reflexivity. }
  split; [reflexivity|]. split; [reflexivity|]. split; [exact Hkeys|].
  exact (update_trends_out_of_range clock0 san_diego None 0 (2 ^ 63) db_three
           eq_refl eq_refl Hkeys).
Defined.

(** ** The trend list *)

Lemma In_firstn {A : Type} (n : nat) (l : list A) (x : A) :
  In x (firstn n l) -> In x l.
Proof.
  intros H. rewrite <- (firstn_skipn n l). apply in_or_app. now left.
Qed.

Lemma In_skipn {A : Type} (n : nat) (l : list A) (x : A) :
  In x (skipn n l) -> In x l.
Proof.
  intros H. rewrite <- (firstn_skipn n l). apply in_or_app. now right.
Qed.

Lemma trend_join_In (region_id : Z) (db : DB) (t : Trend) (title : string) :
  In (t, title) (trend_join region_id db)
  <-> In t (region_trends region_id db)
      /\ exists ev, In ev (events db)
                    /\ ev_id ev = t_event_id t /\ ev_title ev = title.
Proof.
  unfold trend_join, order_by. rewrite stable_sort_In, in_flat_map. split.
  - intros (t' & Ht' & Hin). apply in_map_iff in Hin as (ev & [= <- <-] & Hev).
    apply filter_In in Hev as [Hev Hid]. apply Z.eqb_eq in Hid.
    split; [exact Ht'|]. now exists ev.
  - intros (Ht & ev & Hev & Hid & Htitle). exists t. split; [exact Ht|].
    apply in_map_iff. exists ev. split; [now rewrite Htitle|].
    apply filter_In. split; [exact Hev | now apply Z.eqb_eq].
Qed.

Lemma order_by_sorted {A : Type} (col : A -> Z) (l : list A) :
  StronglySorted (fun a b => col a <= col b) (order_by col l).
Proof.
  unfold order_by.
  assert (StronglySorted (ordered (fun a b => col a <? col b))
            (stable_sort (fun a b => col a <? col b) l)) as S.
  { apply stable_sort_sorted.
    - intros x y H. apply Z.ltb_lt in H. apply Z.ltb_ge. lia.
    - intros x y z H1 H2. apply Z.ltb_ge in H1, H2. apply Z.ltb_ge. lia. }
  induction S as [|a m S IH F]; constructor; [exact IH|].
  revert F. apply Forall_impl. intros b H. now apply Z.ltb_ge in H.
Qed.

Lemma StronglySorted_skipn {A : Type} (R : A -> A -> Prop) (n : nat) :
  forall l, StronglySorted R l -> StronglySorted R (skipn n l).
Proof.
  induction n as [|n IH]; intros l S; [exact S|].
  destruct l as [|a l]; [constructor|]. simpl.
  apply IH. now apply StronglySorted_inv in S.
Qed.

Lemma StronglySorted_firstn {A : Type} (R : A -> A -> Prop) (n : nat) :
  forall l, StronglySorted R l -> StronglySorted R (firstn n l).
Proof.
  induction n as [|n IH]; intros l S; [constructor|].
  destruct l as [|a l]; [constructor|]. simpl.
  apply StronglySorted_inv in S as [S F]. constructor; [now apply IH|].
  rewrite Forall_forall in *. intros x Hx. apply F.
  now apply In_firstn in Hx.
Qed.

Lemma StronglySorted_map {A B : Type} (R : B -> B -> Prop) (f : A -> B)
    (l : list A) :
  StronglySorted (fun a b => R (f a) (f b)) l -> StronglySorted R (map f l).
Proof.
  induction 1 as [|a l S IH F]; simpl; constructor; [exact IH|].
  now rewrite Forall_map.
Qed.

Lemma sqlite_int_of_nat (n : nat) :
  sqlite_int (Z.of_nat n) = true <-> Z.of_nat n < 2 ^ 63.
Proof.
  unfold sqlite_int. rewrite andb_true_iff, Z.leb_le, Z.ltb_lt. lia.
Qed.

Lemma get_trends_unfold (region : region_param) (region_id : Z)
    (skip limit : nat) (db : DB) :
  parse_region_param region = Ok region_id ->
  get_trends region skip limit db
  = if sqlite_int (Z.of_nat skip)
    then (Ok (map entry_read (firstn limit (skipn skip (trend_join region_id db)))),
          db)
    else (Err OverflowError, db).
Proof.
  intros Hp. unfold get_trends. unfold bind at 1.
  rewrite (resolve_region_ok _ _ _ Hp).
  unfold select_trend_page, bind, bind_param.
  now destruct (sqlite_int (Z.of_nat skip)).
Qed.

Lemma get_trends_spec (region : region_param) (region_id : Z)
    (skip limit : nat) (db : DB) :
  parse_region_param region = Ok region_id ->
  Z.of_nat skip < 2 ^ 63 ->
  get_trends region skip limit db
  = (Ok (map entry_read (firstn limit (skipn skip (trend_join region_id db)))),
     db).
Proof.
  intros Hp Hs. rewrite (get_trends_unfold _ _ _ _ _ Hp).
  apply sqlite_int_of_nat in Hs. now rewrite Hs.
Qed.

Lemma get_trends_overflow (region : region_param) (region_id : Z)
    (skip limit : nat) (db : DB) :
  parse_region_param region = Ok region_id ->
  2 ^ 63 <= Z.of_nat skip ->
  get_trends region skip limit db = (Err OverflowError, db).
Proof.
  intros Hp Hs. rewrite (get_trends_unfold _ _ _ _ _ Hp).
  destruct (sqlite_int (Z.of_nat skip)) eqn:E; [|reflexivity].
  apply sqlite_int_of_nat in E. lia.
Qed.

Lemma trend_join_sorted (region_id : Z) (db : DB) :
  StronglySorted (fun a b : Trend * string => t_rank (fst a) <= t_rank (fst b))
                 (trend_join region_id db).
Proof.
  unfold trend_join.
  exact (order_by_sorted (fun r : Trend * string => t_rank (fst r)) _).
Qed.

(** With unique event ids, a trend row is joined with one event or with
    none. *)
Lemma joined_events (db : DB) (t : Trend) :
  events_pk db ->
  map (fun e => t) (filter (fun e => ev_id e =? t_event_id t) (events db))
  = if has_event db t then [t] else [].
Proof.
  intros PK. unfold has_event, events_pk in *.
  induction (events db) as [|e es IH]; [reflexivity|].
  cbn [map] in PK. apply NoDup_cons_iff in PK as [Hn PK].
  cbn [filter existsb]. destruct (Z.eqb_spec (ev_id e) (t_event_id t)) as [E|N].
  - cbn [map orb]. f_equal.
    assert (filter (fun e0 => ev_id e0 =? t_event_id t) es = []) as ->;
      [|reflexivity].
    clear IH PK. induction es as [|x es IH]; [reflexivity|].
    cbn [filter]. destruct (Z.eqb_spec (ev_id x) (t_event_id t)) as [Ex|_].
    + exfalso. apply Hn. rewrite E, <- Ex. now left.
    + apply IH. intros H. apply Hn. now right.
  - cbn [orb]. now apply IH.
Qed.

Lemma trend_join_rows (region_id : Z) (db : DB) :
  events_pk db ->
  Permutation (map fst (trend_join region_id db))
              (filter (has_event db) (region_trends region_id db)).
Proof.
  intros PK. unfold trend_join.
  rewrite <- (Permutation_map fst (order_by_perm _ _)).
  unfold region_trends.
  induction (filter (in_region region_id) (trends db)) as [|t ts IH];
    [reflexivity|].
  cbn [flat_map filter]. rewrite map_app, map_map. cbn [fst].
  rewrite (joined_events db t PK).
  destruct (has_event db t); cbn [app]; [now apply perm_skip | exact IH].
Qed.

(** C9, as the code has it. With a region that resolves, the full answer
    of the read is a list of pairs of a trend row of the region and the
    title of an event with its event id: a pair is in the list exactly
    when the row is a row of the region and an event with that id and
    that title exists; the list is in ascending order of rank; and with
    unique event ids it has exactly one pair for each row of the region
    whose event exists. For every [skip] that SQLite can hold and every
    [limit], the read raises nothing, changes nothing and returns the
    entries of the page of that list from [skip], of at most [limit]
    pairs. A trend row whose event is missing is in no pair, so no entry
    is made for it, on any page. *)
Theorem get_trends_inner_join (region : region_param) (region_id : Z)
    (db : DB) :
  parse_region_param region = Ok region_id ->
  exists rows : list (Trend * string),
    (forall t title,
       In (t, title) rows
       <-> In t (region_trends region_id db)
           /\ exists ev, In ev (events db)
                         /\ ev_id ev = t_event_id t /\ ev_title ev = title)
    /\ StronglySorted
         (fun a b : Trend * string => t_rank (fst a) <= t_rank (fst b)) rows
    /\ (events_pk db ->
        Permutation (map fst rows)
                    (filter (has_event db) (region_trends region_id db)))
    /\ (forall skip limit : nat,
          Z.of_nat skip < 2 ^ 63 ->
          get_trends region skip limit db
          = (Ok (map entry_read (firstn limit (skipn skip rows))), db)
          /\ StronglySorted rank_le
               (map entry_read (firstn limit (skipn skip rows))))
    /\ (forall t,
          In t (region_trends region_id db) ->
          (forall ev, In ev (events db) -> ev_id ev <> t_event_id t) ->
          (forall title, ~ In (t, title) rows)
          /\ forall skip limit e,
               In e (map entry_read (firstn limit (skipn skip rows))) ->
               te_event_id e <> t_event_id t).
Proof.
  intros Hp. exists (trend_join region_id db).
  split; [intros t title; apply trend_join_In|].
  split; [apply trend_join_sorted|].
  split; [apply trend_join_rows|]. split.
  - intros skip limit Hs. split; [now apply get_trends_spec|].
    apply StronglySorted_map, StronglySorted_firstn, StronglySorted_skipn.
    pose proof (trend_join_sorted region_id db) as S.
    induction S as [|[t title] l S IH F]; constructor; [exact IH|].
    revert F. apply Forall_impl. now intros [t' title'].
  - intros t Ht Hnone. split.
    + intros title Hin.
      apply trend_join_In in Hin as (_ & ev & Hev & Hid & _).
      exact (Hnone ev Hev Hid).
    + intros skip limit e He Heq.
      apply in_map_iff in He as ([t' title] & <- & Hin).
      apply In_firstn, In_skipn in Hin.
      apply trend_join_In in Hin as (_ & ev & Hev & Hid & _).
      cbn in Heq. apply (Hnone ev Hev). congruence.
Qed.

(** The read of the one-event region with a stale trend row. *)
Lemma get_trends_inner_join_witness :
  parse_region_param san_diego = Ok 0
  /\ exists rows : list (Trend * string),
    (forall t title,
       In (t, title) rows
       <-> In t (region_trends 0 db_orphan)
           /\ exists ev, In ev (events db_orphan)
                         /\ ev_id ev = t_event_id t /\ ev_title ev = title)
    /\ StronglySorted
         (fun a b : Trend * string => t_rank (fst a) <= t_rank (fst b)) rows
    /\ (events_pk db_orphan ->
        Permutation (map fst rows)
                    (filter (has_event db_orphan) (region_trends 0 db_orphan)))
    /\ (forall skip limit : nat,
          Z.of_nat skip < 2 ^ 63 ->
          get_trends san_diego skip limit db_orphan
          = (Ok (map entry_read (firstn limit (skipn skip rows))), db_orphan)
          /\ StronglySorted rank_le
               (map entry_read (firstn limit (skipn skip rows))))
    /\ (forall t,
          In t (region_trends 0 db_orphan) ->
          (forall ev, In ev (events db_orphan) -> ev_id ev <> t_event_id t) ->
          (forall title, ~ In (t, title) rows)
          /\ forall skip limit e,
               In e (map entry_read (firstn limit (skipn skip rows))) ->
               te_event_id e <> t_event_id t).
Proof.
  split; [reflexivity|].
  exact (get_trends_inner_join san_diego 0 db_orphan eq_refl).
Defined.

(** C9 fails as stated: [db_orphan] stores a trend row of region 0 for
    event 7, which does not exist, and the read answers with the one
    entry of event 1 and no error. *)
Lemma get_trends_skips_missing_event :
  (exists t, In t (trends db_orphan)
             /\ t_region_id t = 0
             /\ fst (db_get_event (t_event_id t) db_orphan) = Ok None)
  /\ get_trends san_diego 0 50 db_orphan
     = (Ok [mkTrendEntryRead 1 1 "E1" 0 0 0 1000], db_orphan)
  /\ ~ exists e, fst (get_trends san_diego 0 50 db_orphan) = Err e.
Proof.
  split; [|split].
  - exists (mkTrend 2 0 7 2 0 0 0 1000). split; [right; now left|].
    split; reflexivity.
  - reflexivity.
  - intros [e H]. discriminate.
Qed.

(** ** Region resolution *)

Lemma parse_region_param_cases (value : region_param) :
  (accepted_region value /\ parse_region_param value = Ok 0)
  \/ (~ accepted_region value /\ exists e, parse_region_param value = Err e).
Proof.
  destruct value as [v|n]; unfold parse_region_param, accepted_region.
  - destruct (String.eqb_spec (lower (strip v)) "0") as [E|N]; [left; auto|].
    destruct (String.eqb_spec (replace_hyphen (lower (strip v))) "san diego")
      as [E'|N']; [left; auto|].
    right. split; [tauto | eexists; reflexivity].
  - unfold REGION_SAN_DIEGO_ID.
    destruct (Z.eqb_spec n 0) as [->|N]; [left; auto|].
    right. split; [exact N | eexists; reflexivity].
Qed.

(** C10, as the code has it. Resolution succeeds exactly for the integer
    0, for a string that is "0" after trimming and lowercasing, and for a
    string that is "san diego" after trimming, lowercasing and replacing
    hyphens by spaces; it then yields region 0. Every other string or
    integer is rejected, and each of the three trend handlers answers
    400 with the error of the resolution, leaving the state as it was,
    exactly for the rejected parameters. *)
Theorem region_resolution (value : region_param) (clock : Clock)
    (skip limit : nat) (event_id : Z) (rank : option positive) (db : DB) :
  ((exists region_id, parse_region_param value = Ok region_id)
   <-> accepted_region value)
  /\ (parse_region_param value = Ok 0
      \/ exists e, parse_region_param value = Err e)
  /\ ((exists e, get_trends value skip limit db = (Err (invalid_region e), db))
      <-> ~ accepted_region value)
  /\ ((exists e, rebuild_trends clock (mkTrendRebuildBody value) db
                 = (Err (invalid_region e), db))
      <-> ~ accepted_region value)
  /\ ((exists e, update_trends clock (mkTrendUpdateBody value event_id rank) db
                 = (Err (invalid_region e), db))
      <-> ~ accepted_region value).
Proof.
  destruct (parse_region_param_cases value) as [[A Hp]|[A [e Hp]]].
  - split; [split; [auto | intros _; now exists 0]|].
    split; [now left|].
    split; [|split]; (split; [|contradiction]); intros [e H]; exfalso.
    + rewrite (get_trends_unfold _ _ _ _ _ Hp) in H. unfold invalid_region in H.
      destruct (sqlite_int (Z.of_nat skip)); discriminate.
    + rewrite (rebuild_trends_spec clock (mkTrendRebuildBody value) 0 db Hp) in H.
      discriminate.
    + revert H. rewrite update_trends_unfold. cbn [ub_region ub_event_id].
      rewrite Hp. unfold invalid_region.
      destruct (sqlite_int event_id); [|discriminate]. cbn [negb].
      destruct (find _ _) as [ev|]; [|discriminate].
      destruct (ev_region_id ev =? 0); [|discriminate].
      unfold live_counts.
      destruct (upsert_trend _ _ _ _ _ _ db) as [[u|e1] db1] eqn:U;
        [discriminate|].
      apply upsert_trend_err in U as [-> _]. discriminate.
  - split; [split; [intros [r H]; congruence | contradiction]|].
    split; [right; now exists e|].
    split; [|split]; (split; [auto|]); intros _; exists e.
    + unfold get_trends, bind. now rewrite (resolve_region_err _ _ _ Hp).
    + unfold rebuild_trends, bind. cbn [rb_region].
      now rewrite (resolve_region_err _ _ _ Hp).
    + rewrite update_trends_unfold. cbn [ub_region]. now rewrite Hp.
Qed.

(** C10 fails as stated: the string of a space and "0" is not the string
    "0" and does not normalise to "san diego", yet it resolves. *)
Lemma parse_region_param_padded_zero :
  parse_region_param (RegionStr " 0") = Ok 0
  /\ " 0"%string <> "0"%string
  /\ replace_hyphen (lower (strip " 0")) <> "san diego"%string.
Proof. repeat split; discriminate. Qed.


(** ** Worked examples *)

(** Rebuild of E1 (3,1,5), E2 (3,2,0), E3 (0,0,0): E2, E1, E3. *)
Example rebuild_three :
  rebuild_trends clock0 (mkTrendRebuildBody san_diego) db_three
  = (Ok (mkRebuildResult true 3), db_ranked)
  /\ map row_content (trends db_ranked)
     = [(0, 2, 1, (3, 2, 0)); (0, 1, 2, (3, 1, 5)); (0, 3, 3, (0, 0, 0))].
Proof. split; vm_compute; reflexivity. Qed.

(** After a like on E3 and its update the order stays E2, E1, E3 and E3
    has the counts (0,0,1). *)
Example update_three :
  map row_content (trends db_updated)
  = [(0, 2, 1, (3, 2, 0)); (0, 1, 2, (3, 1, 5)); (0, 3, 3, (0, 0, 1))].
Proof. vm_compute. reflexivity. Qed.

(** An update of E1 leaves the row of E3 at its stored (0,0,0) and at
    rank 3, although E3 has by now the most people attending. *)
Example update_keeps_stale_counts :
  live_counts db_stale 3 = (4, 0, 0)
  /\ map row_content (trends (snd (update_trends clock0 update_e1 db_stale)))
     = [(0, 2, 1, (3, 2, 0)); (0, 1, 2, (3, 1, 5)); (0, 3, 3, (0, 0, 0))].
Proof. split; vm_compute; reflexivity. Qed.

(** An event of another region, or none, is a 404, and an unknown
    region a 400. *)
Example update_errors :
  fst (update_trends clock0 (mkTrendUpdateBody san_diego 9 None) db_ranked)
  = Err not_found
  /\ fst (update_trends clock0 (mkTrendUpdateBody (RegionStr "la") 1 None) db_ranked)
     = Err (invalid_region (UnknownRegion "la"))
  /\ fst (update_trends clock0 (mkTrendUpdateBody (RegionInt 1) 1 None) db_ranked)
     = Err (invalid_region UnknownRegionId).
Proof. repeat split. Qed.

Example parse_region_examples :
  parse_region_param (RegionStr "  San-Diego ") = Ok 0
  /\ parse_region_param (RegionStr "0") = Ok 0
  /\ parse_region_param (RegionInt 0) = Ok 0
  /\ parse_region_param (RegionStr "sandiego") = Err (UnknownRegion "sandiego").
Proof. repeat split. Qed.


(** * Further properties of the routers *)

(** ** Rebuild: what it leaves alone and what it keeps *)

Lemma with_trends_same_sources (db : DB) (ts : list Trend) :
  same_sources db (with_trends db ts).
Proof. repeat split. Qed.

(** A rebuild writes to the trend rows of its region only: the events and
    the three interaction tables are what they were, the rows of every
    other region are untouched, and a rebuild that is refused changes
    nothing at all. *)
Theorem rebuild_trends_only_region (clock : Clock) (payload : TrendRebuildBody)
    (db : DB) :
  same_sources db (snd (rebuild_trends clock payload db))
  /\ (forall region_id,
        parse_region_param (rb_region payload) = Ok region_id ->
        other_trends region_id (snd (rebuild_trends clock payload db))
        = other_trends region_id db)
  /\ (forall e,
        parse_region_param (rb_region payload) = Err e ->
        snd (rebuild_trends clock payload db) = db).
Proof.
  destruct (parse_region_param (rb_region payload)) as [region_id|e] eqn:Hp.
  - rewrite (rebuild_trends_spec clock payload region_id db Hp). cbn [snd].
    split; [apply with_trends_same_sources|]. split; [|discriminate].
    intros r [= <-]. apply other_trends_after_rebuild.
  - unfold rebuild_trends, bind. rewrite (resolve_region_err _ _ _ Hp).
    cbn [snd]. split; [repeat split|]. split; [discriminate | reflexivity].
Qed.

Lemma added_rows_pk (region_id now : Z) (ranked : list (Z * entry)) :
  forall ts,
    NoDup (map t_id ts) ->
    NoDup (map t_id (ts ++ added_rows ts region_id now ranked)).
Proof.
  induction ranked as [|[rank [[[eid att] com] lik]] ranked IH]; intros ts N.
  - simpl. now rewrite app_nil_r.
  - cbn [added_rows].
    set (t := mkTrend (next_trend_id ts) region_id eid rank att com lik now).
    change (ts ++ t :: added_rows (ts ++ [t]) region_id now ranked)
      with (ts ++ [t] ++ added_rows (ts ++ [t]) region_id now ranked).
    rewrite app_assoc. apply IH. now apply pk_append.
Qed.

Lemma NoDup_map_filter {Row Key : Type} (key : Row -> Key) (keep : Row -> bool) :
  forall rows : list Row,
    NoDup (map key rows) -> NoDup (map key (filter keep rows)).
Proof.
  intros rows. induction rows as [|r rows IH]; simpl; intros N; [constructor|].
  apply NoDup_cons_iff in N as [Nr N].
  destruct (keep r); simpl; [|now apply IH].
  constructor; [|now apply IH].
  intros H. apply Nr. apply in_map_iff in H as (x & <- & Hx).
  apply in_map. now apply filter_In in Hx.
Qed.

Lemma added_rows_pairs (region_id now : Z) (ranked : list (Z * entry)) :
  forall ts,
    map (fun t => (t_region_id t, t_event_id t))
        (added_rows ts region_id now ranked)
    = map (fun e => (region_id, entry_id e)) (map snd ranked).
Proof.
  induction ranked as [|[rank [[[eid att] com] lik]] ranked IH]; intros ts.
  - reflexivity.
  - simpl. now rewrite IH.
Qed.

Lemma NoDup_map_pair {A B : Type} (a : A) (l : list B) :
  NoDup l -> NoDup (map (pair a) l).
Proof.
  induction 1 as [|x l Hx N IH]; simpl; constructor; [|exact IH].
  intros H. apply in_map_iff in H as (y & [= ->] & Hy). contradiction.
Qed.

Lemma ranking_ids_NoDup (region_id : Z) (db : DB) :
  NoDup (map entry_id
           (map snd (rank_entries (items_as_entries (region_counts region_id db))))).
Proof.
  unfold rank_entries. rewrite enumerate_snd.
  apply (Permutation_NoDup
           (Permutation_map entry_id
              (sorted_perm entry _order_key
                 (items_as_entries (region_counts region_id db))))).
  rewrite items_as_entries_ids. apply dict_of_items_keys_NoDup.
Qed.

(** A rebuild keeps the two constraints of the trend table, and the rows
    it writes for the region have pairwise different events. *)
Theorem rebuild_trends_keeps_constraints (clock : Clock)
    (payload : TrendRebuildBody) (region_id : Z) (db : DB) :
  parse_region_param (rb_region payload) = Ok region_id ->
  trends_pk db -> uq_trend_region_event (trends db) ->
  trends_pk (snd (rebuild_trends clock payload db))
  /\ uq_trend_region_event (trends (snd (rebuild_trends clock payload db)))
  /\ NoDup (map t_event_id
               (region_trends region_id (snd (rebuild_trends clock payload db)))).
Proof.
  intros Hp PK UQ.
  rewrite (rebuild_region_trends clock payload region_id db Hp).
  rewrite (rebuild_trends_spec clock payload region_id db Hp). cbn [snd].
  unfold trends_pk, uq_trend_region_event. cbn [trends with_trends].
  split; [|split].
  - apply added_rows_pk. unfold other_trends. now apply NoDup_map_filter.
  - rewrite map_app, added_rows_pairs. apply NoDup_app.
    + unfold other_trends. now apply NoDup_map_filter.
    + rewrite <- (map_map entry_id (pair region_id)).
      apply NoDup_map_pair, ranking_ids_NoDup.
    + intros [r ev] Ho Ha.
      apply in_map_iff in Ho as (t & [= Hr He] & Ht).
      apply in_map_iff in Ha as (e & [= Hr' He'] & _).
      unfold other_trends in Ht. apply filter_In in Ht as [_ Hn].
      unfold in_region in Hn. rewrite Hr, <- Hr', Z.eqb_refl in Hn.
      discriminate.
  - rewrite added_rows_event_ids. apply ranking_ids_NoDup.
Qed.

Lemma db_three_constraints :
  trends_pk db_three /\ uq_trend_region_event (trends db_three).
Proof. split; constructor. Defined.

Lemma rebuild_trends_keeps_constraints_witness :
  parse_region_param (rb_region (mkTrendRebuildBody san_diego)) = Ok 0
  /\ trends_pk db_three /\ uq_trend_region_event (trends db_three)
  /\ trends_pk (snd (rebuild_trends clock0 (mkTrendRebuildBody san_diego) db_three))
  /\ uq_trend_region_event
       (trends (snd (rebuild_trends clock0 (mkTrendRebuildBody san_diego) db_three)))
  /\ NoDup (map t_event_id
               (region_trends 0
                  (snd (rebuild_trends clock0 (mkTrendRebuildBody san_diego)
                          db_three)))).
Proof.
  split; [reflexivity|].
  split; [exact (proj1 db_three_constraints)|].
  split; [exact (proj2 db_three_constraints)|].
  exact (rebuild_trends_keeps_constraints clock0 (mkTrendRebuildBody san_diego)
           0 db_three eq_refl (proj1 db_three_constraints)
           (proj2 db_three_constraints)).
Defined.

(** ** Update: what it leaves alone and what it keeps *)

Lemma upsert_trend_sources (clock : Clock) (region_id event_id att com lik : Z)
    (db db1 : DB) (r : result exn unit) :
  upsert_trend clock region_id event_id att com lik db = (r, db1) ->
  same_sources db db1.
Proof.
  rewrite upsert_trend_cases.
  destruct (filter (is_row region_id event_id) (trends db)) as [|row [|row' rest]];
    intros [= _ <-]; repeat split.
Qed.

Lemma update_trends_ok_state (clock : Clock) (payload : TrendUpdateBody)
    (region_id : Z) (db db' : DB) (resp : SuccessResponse) :
  parse_region_param (ub_region payload) = Ok region_id ->
  update_trends clock payload db = (Ok resp, db') ->
  exists db1 : DB,
    upsert_trend clock region_id (ub_event_id payload)
      (count_for (event_attending db) (ub_event_id payload))
      (count_for (event_comments db) (ub_event_id payload))
      (count_for (event_likes db) (ub_event_id payload)) db
    = (Ok tt, db1)
    /\ db' = with_trends db1
               (apply_ranks (enumerate 1 (reordered region_id (trends db1)))
                            (trends db1)).
Proof.
  intros Hp. rewrite update_trends_unfold, Hp.
  destruct (sqlite_int (ub_event_id payload)); [cbn [negb]|discriminate].
  destruct (find _ _) as [ev|]; [|discriminate].
  destruct (ev_region_id ev =? region_id); [|discriminate].
  unfold live_counts.
  destruct (upsert_trend _ _ _ _ _ _ db) as [[[] |e] db1]; [|discriminate].
  intros [= _ <-]. exists db1. split; reflexivity.
Qed.

Lemma apply_ranks_ids (ranked : list (Z * Trend)) (ts : list Trend) :
  map t_id (apply_ranks ranked ts) = map t_id ts.
Proof.
  pose proof (f_equal (map (fun p : Z * Z * Z * (Z * Z * Z) * Z =>
                              fst (fst (fst (fst p)))))
                (apply_ranks_frame ranked ts)) as H.
  now rewrite !map_map in H.
Qed.

Lemma apply_ranks_pairs (ranked : list (Z * Trend)) (ts : list Trend) :
  map (fun t => (t_region_id t, t_event_id t)) (apply_ranks ranked ts)
  = map (fun t => (t_region_id t, t_event_id t)) ts.
Proof.
  pose proof (f_equal (map (fun p : Z * Z * Z * (Z * Z * Z) * Z =>
                              (snd (fst (fst (fst p))), snd (fst (fst p)))))
                (apply_ranks_frame ranked ts)) as H.
  now rewrite !map_map in H.
Qed.

Lemma filter_map_fixed {A : Type} (p : A -> bool) (g : A -> A) (l : list A) :
  (forall t, In t l -> p (g t) = p t) ->
  (forall t, In t l -> p t = true -> g t = t) ->
  filter p (map g l) = filter p l.
Proof.
  induction l as [|a l IH]; intros H1 H2; [reflexivity|].
  cbn [map filter]. rewrite H1 by now left.
  destruct (p a) eqn:E.
  - rewrite (H2 a) by (auto; now left). f_equal. apply IH; intros; auto using in_cons.
  - apply IH; intros; auto using in_cons.
Qed.

(** With distinct keys the loop leaves the rows of the other regions as
    they are, ranks included. *)
Lemma reorder_other_regions (region_id : Z) (ts : list Trend) :
  NoDup (map t_id ts) ->
  filter (fun t => negb (in_region region_id t))
         (apply_ranks (enumerate 1 (reordered region_id ts)) ts)
  = filter (fun t => negb (in_region region_id t)) ts.
Proof.
  intros N.
  assert (NoDup (map t_id (map snd (enumerate 1 (reordered region_id ts)))))
    as NR by (rewrite enumerate_snd; now apply reordered_ids).
  rewrite (apply_ranks_find _ NR). apply filter_map_fixed.
  - intros t _. now destruct (find _ _).
  - intros t Ht Hout.
    destruct (find _ _) as [[rank u]|] eqn:F; [|reflexivity].
    exfalso. apply find_some in F as [Hu Hid]. cbn [snd] in Hid.
    apply Z.eqb_eq in Hid.
    apply (in_map snd) in Hu. rewrite enumerate_snd in Hu. cbn [snd] in Hu.
    apply (Permutation_in _ (Permutation_sym (reordered_perm region_id ts))) in Hu.
    apply filter_In in Hu as [Hu Hreg].
    apply (NoDup_map_inj t_id ts u t N Hu Ht) in Hid. subst u.
    now rewrite Hreg in Hout.
Qed.

Lemma filter_narrow {A : Type} (p q : A -> bool) (l l' : list A) :
  (forall t, p t = true -> q t = true) ->
  filter q l = filter q l' -> filter p l = filter p l'.
Proof.
  intros Hpq E.
  assert (forall m, filter p m = filter p (filter q m)) as G.
  { induction m as [|a m IH]; [reflexivity|]. cbn [filter].
    destruct (p a) eqn:Ep.
    - rewrite (Hpq a Ep). cbn [filter]. now rewrite Ep, IH.
    - destruct (q a); cbn [filter]; now rewrite ?Ep, IH. }
  now rewrite (G l), (G l'), E.
Qed.

Lemma upsert_trend_uq (clock : Clock) (region_id event_id att com lik : Z)
    (db db1 : DB) (u : unit) :
  uq_trend_region_event (trends db) ->
  upsert_trend clock region_id event_id att com lik db = (Ok u, db1) ->
  uq_trend_region_event (trends db1).
Proof.
  intros UQ. rewrite upsert_trend_cases.
  destruct (filter (is_row region_id event_id) (trends db)) as [|row [|row' rest]]
    eqn:E; intros [= _ <-]; unfold uq_trend_region_event;
    cbn [trends with_trends].
  - rewrite map_app. apply NoDup_app; [exact UQ | repeat constructor; simpl; tauto|].
    intros a Ha [Hb|[]]. cbn in Hb. subst a.
    apply in_map_iff in Ha as (t & Ht & Hin). apply is_row_pair in Ht.
    assert (In t (filter (is_row region_id event_id) (trends db))) as F
        by (apply filter_In; auto).
    now rewrite E in F.
  - rewrite map_map. erewrite map_ext; [exact UQ|].
    intros t. now destruct (t_id t =? t_id row).
Qed.

(** A successful update keeps the two constraints of the trend table,
    writes to no other table, and leaves the trend rows of every other
    region exactly as they were. *)
Theorem update_trends_keeps_constraints (clock : Clock)
    (payload : TrendUpdateBody) (region_id : Z) (db db' : DB)
    (resp : SuccessResponse) :
  trends_pk db -> uq_trend_region_event (trends db) ->
  parse_region_param (ub_region payload) = Ok region_id ->
  update_trends clock payload db = (Ok resp, db') ->
  trends_pk db'
  /\ uq_trend_region_event (trends db')
  /\ same_sources db db'
  /\ other_trends region_id db' = other_trends region_id db.
Proof.
  intros PK UQ Hp H.
  destruct (update_trends_ok_state _ _ _ _ _ _ Hp H) as (db1 & Hu & ->).
  pose proof (upsert_trend_pk _ _ _ _ _ _ _ _ _ PK Hu) as PK1.
  pose proof (upsert_trend_uq _ _ _ _ _ _ _ _ _ UQ Hu) as UQ1.
  unfold trends_pk, uq_trend_region_event, other_trends.
  cbn [trends with_trends].
  rewrite apply_ranks_ids, apply_ranks_pairs.
  split; [exact PK1|]. split; [exact UQ1|]. split.
  - destruct (upsert_trend_sources _ _ _ _ _ _ _ _ _ Hu) as (E1 & E2 & E3 & E4).
    repeat split; assumption.
  - rewrite (reorder_other_regions region_id (trends db1) PK1).
    destruct (upsert_trend_frame _ _ _ _ _ _ _ _ _ PK Hu) as (Hother & _).
    revert Hother. apply filter_narrow. intros t Ht.
    unfold is_row, in_region in *. apply negb_true_iff in Ht.
    now rewrite Ht.
Qed.

Lemma db_liked_uq : uq_trend_region_event (trends db_liked).
Proof.
  unfold uq_trend_region_event. vm_compute.
  repeat constructor; simpl; intuition discriminate.
Defined.

Lemma update_trends_keeps_constraints_witness :
  trends_pk db_liked /\ uq_trend_region_event (trends db_liked)
  /\ parse_region_param (ub_region update_e3) = Ok 0
  /\ update_trends clock0 update_e3 db_liked
     = (Ok (mkSuccessResponse true), db_updated)
  /\ trends_pk db_updated
  /\ uq_trend_region_event (trends db_updated)
  /\ same_sources db_liked db_updated
  /\ other_trends 0 db_updated = other_trends 0 db_liked.
Proof.
  split; [exact db_liked_pk|]. split; [exact db_liked_uq|].
  split; [reflexivity|]. split; [exact update_e3_ok|].
  exact (update_trends_keeps_constraints clock0 update_e3 0 db_liked db_updated
           (mkSuccessResponse true) db_liked_pk db_liked_uq eq_refl update_e3_ok).
Defined.

(** ** The trend list: order and paging *)

(** With a region that resolves and a [skip] that SQLite can hold, the
    read answers with at most [limit] entries in ascending order of rank,
    each the rank and the stored counts of a trend row of the region, and
    with none when [skip] reaches past the list; it writes nothing. A
    [skip] from 2^63 on makes the statement raise [OverflowError], which
    is no answer of the API but a 500; nothing is written then either. *)
Theorem get_trends_page (region : region_param) (region_id : Z)
    (skip limit : nat) (db : DB) :
  parse_region_param region = Ok region_id ->
  (Z.of_nat skip < 2 ^ 63 ->
   exists es : list TrendEntryRead,
     get_trends region skip limit db = (Ok es, db)
     /\ (length es <= limit)%nat
     /\ StronglySorted rank_le es
     /\ Forall (fun e =>
                  exists t, In t (region_trends region_id db)
                            /\ te_event_id e = t_event_id t
                            /\ te_rank e = t_rank t
                            /\ (te_attendance_count e, te_comments_count e,
                                te_likes_count e) = t_counts t) es
     /\ ((length (trend_join region_id db) <= skip)%nat -> es = []))
  /\ (2 ^ 63 <= Z.of_nat skip ->
      get_trends region skip limit db = (Err OverflowError, db)).
Proof.
  intros Hp. split; [|now apply (get_trends_overflow region region_id)].
  intros Hs. rewrite (get_trends_spec _ _ _ _ _ Hp Hs).
  eexists. split; [reflexivity|]. split; [|split; [|split]].
  - rewrite length_map, length_firstn. lia.
  - apply StronglySorted_map, StronglySorted_firstn, StronglySorted_skipn.
    pose proof (trend_join_sorted region_id db) as S.
    induction S as [|[t title] l S IH F]; constructor; [exact IH|].
    revert F. apply Forall_impl. now intros [t' title'].
  - rewrite Forall_map. apply Forall_forall. intros [t title] Hin.
    apply In_firstn, In_skipn, trend_join_In in Hin as [Ht _].
    exists t. split; [exact Ht|]. repeat split.
  - intros Hlen. rewrite skipn_all2 by exact Hlen. now rewrite firstn_nil.
Qed.

Lemma get_trends_page_witness :
  parse_region_param san_diego = Ok 0
  /\ (Z.of_nat 1 < 2 ^ 63 ->
      exists es : list TrendEntryRead,
        get_trends san_diego 1 2 db_ranked = (Ok es, db_ranked)
        /\ (length es <= 2)%nat
        /\ StronglySorted rank_le es
        /\ Forall (fun e =>
                     exists t, In t (region_trends 0 db_ranked)
                               /\ te_event_id e = t_event_id t
                               /\ te_rank e = t_rank t
                               /\ (te_attendance_count e, te_comments_count e,
                                   te_likes_count e) = t_counts t) es
        /\ ((length (trend_join 0 db_ranked) <= 1)%nat -> es = []))
  /\ (2 ^ 63 <= Z.of_nat 1 ->
      get_trends san_diego 1 2 db_ranked = (Err OverflowError, db_ranked)).
Proof.
  split; [reflexivity|].
  exact (get_trends_page san_diego 0 1 2 db_ranked eq_refl).
Defined.

(** ** The interaction counter *)

Lemma dict_get_values {V : Type} (f : Z -> V) (d : dict V) (k : Z) :
  Forall (fun kv => snd kv = f (fst kv)) d ->
  dict_get d k = if existsb (Z.eqb k) (map fst d) then Some (f k) else None.
Proof.
  induction 1 as [|[k0 v0] d H F IH]; cbn; [reflexivity|].
  cbn in H. rewrite (Z.eqb_sym k k0).
  destruct (Z.eqb_spec k0 k) as [->|N]; cbn; [now rewrite H | exact IH].
Qed.

(** The counter reads only. Its dictionary has a key for an event id
    exactly when an event of the region has that id, and the value is
    then the numbers of attendance, comment and like rows on that event:
    an event without interactions is present with (0,0,0), an event of
    another region is absent. *)
Theorem interaction_counts_lookup (region_id event_id : Z) (db : DB) :
  exists counts : dict (Z * Z * Z),
    _get_event_interaction_counts region_id db = (Ok counts, db)
    /\ NoDup (map fst counts)
    /\ ((exists c, dict_get counts event_id = Some c)
        <-> In event_id (region_event_ids region_id db))
    /\ (dict_get counts event_id = Some (live_counts db event_id)
        \/ dict_get counts event_id = None)
    /\ (region_event_ids region_id db = [] <-> counts = []).
Proof.
  rewrite get_counts_spec. fold (region_counts region_id db).
  eexists. split; [reflexivity|].
  pose proof (dict_get_values (live_counts db) (region_counts region_id db)
                event_id (dict_of_items_values _ _ _)) as G.
  split; [apply dict_of_items_keys_NoDup|]. split; [|split].
  - rewrite <- region_counts_keys, G.
    destruct (existsb (Z.eqb event_id) (map fst (region_counts region_id db)))
      eqn:E.
    + apply existsb_exists in E as (x & Hx & ->%Z.eqb_eq).
      split; [auto | intros _; eexists; reflexivity].
    + split; [intros [c Hc]; discriminate|]. intros Hin. exfalso.
      assert (existsb (Z.eqb event_id) (map fst (region_counts region_id db))
              = true) as E'
          by (apply existsb_exists; exists event_id; split;
              [exact Hin | apply Z.eqb_refl]).
      congruence.
  - rewrite G. destruct (existsb _ _); auto.
  - split.
    + intros E. unfold region_counts. now rewrite E.
    + intros E.
      destruct (region_event_ids region_id db) as [|e l] eqn:El; [reflexivity|].
      exfalso. assert (In e (map fst (region_counts region_id db))) as Hin
          by (apply region_counts_keys; rewrite El; now left).
      now rewrite E in Hin.
Qed.


(** ** Regions and city locations *)

(** The name shown for a region is a city location that signs up into
    that region, and a city location that is accepted belongs to a region
    shown as "san diego". *)
Theorem city_location_round_trip (region_id : Z) (city : string) :
  (region_id_to_city_location region_id = Some city ->
   city_location_to_region_id city = Ok region_id)
  /\ (city_location_to_region_id city = Ok region_id ->
      region_id_to_city_location region_id = Some "san diego"%string).
Proof.
  unfold region_id_to_city_location, city_location_to_region_id,
    REGION_SAN_DIEGO_ID.
  split.
  - destruct (Z.eqb_spec region_id 0) as [->|N]; [|discriminate].
    now intros [= <-].
  - destruct (String.eqb _ _); [|discriminate]. now intros [= <-].
Qed.

(** A city location is accepted exactly when it is accepted as a region
    parameter without being "0" after trimming and lowercasing, and both
    functions then give region 0: the string forms of 0 are the only
    region parameters that are no city location. *)
Theorem parse_region_param_city_location (v : string) :
  (parse_region_param (RegionStr v) = Ok 0
   <-> city_location_to_region_id v = Ok 0 \/ lower (strip v) = "0"%string)
  /\ (city_location_to_region_id v = Ok 0
      <-> replace_hyphen (lower (strip v)) = "san diego"%string)
  /\ (city_location_to_region_id v = Ok 0
      \/ city_location_to_region_id v = Err (UnsupportedCityLocation v)).
Proof.
  unfold parse_region_param, city_location_to_region_id, REGION_SAN_DIEGO_ID.
  destruct (String.eqb_spec (lower (strip v)) "0") as [E0|N0];
    destruct (String.eqb_spec (replace_hyphen (lower (strip v))) "san diego")
      as [E|N];
    intuition (auto; try discriminate; try congruence).
Qed.

Lemma is_space_lower (c : ascii) : is_space (lower_char c) = is_space c.
Proof. destruct c as [[] [] [] [] [] [] [] []]; reflexivity. Qed.

Lemma lstrip_map (f : ascii -> ascii) (s : string) :
  (forall c, is_space (f c) = is_space c) ->
  lstrip (map_string f s) = map_string f (lstrip s).
Proof.
  intros Hf. induction s as [|c s IH]; [reflexivity|].
  cbn [map_string lstrip]. rewrite Hf. now destruct (is_space c).
Qed.

Lemma rstrip_map (f : ascii -> ascii) (s : string) :
  (forall c, is_space (f c) = is_space c) ->
  rstrip (map_string f s) = map_string f (rstrip s).
Proof.
  intros Hf. induction s as [|c s IH]; [reflexivity|].
  cbn [map_string rstrip]. rewrite IH, Hf.
  destruct (rstrip s); [now destruct (is_space c) | reflexivity].
Qed.

Lemma strip_lower (s : string) : strip (lower s) = lower (strip s).
Proof.
  unfold strip, lower.
  rewrite lstrip_map, rstrip_map by apply is_space_lower. reflexivity.
Qed.

Lemma lstrip_all_space (p : string) : all_space p = true -> lstrip p = EmptyString.
Proof.
  induction p as [|c p IH]; [reflexivity|]. cbn [all_space lstrip].
  intros H. apply andb_true_iff in H as [Hc Hp]. now rewrite Hc, IH.
Qed.

Lemma rstrip_all_space (p : string) : all_space p = true -> rstrip p = EmptyString.
Proof.
  induction p as [|c p IH]; [reflexivity|]. cbn [all_space rstrip].
  intros H. apply andb_true_iff in H as [Hc Hp]. now rewrite IH, Hc.
Qed.

Lemma lstrip_pad (p s : string) :
  all_space p = true -> lstrip (p ++ s) = lstrip s.
Proof.
  induction p as [|c p IH]; [reflexivity|]. cbn [all_space append lstrip].
  intros H. apply andb_true_iff in H as [Hc Hp]. now rewrite Hc, IH.
Qed.

Lemma rstrip_pad (s p : string) :
  all_space p = true -> rstrip (s ++ p) = rstrip s.
Proof.
  intros Hp. induction s as [|c s IH]; cbn [append rstrip].
  - now apply rstrip_all_space.
  - now rewrite IH.
Qed.

Lemma lstrip_app (s p : string) :
  lstrip (s ++ p)
  = match lstrip s with
    | EmptyString => lstrip p
    | _ => (lstrip s ++ p)%string
    end.
Proof.
  induction s as [|c s IH]; [reflexivity|]. cbn [append lstrip].
  destruct (is_space c); [exact IH | reflexivity].
Qed.

Lemma strip_pad (pad1 s pad2 : string) :
  all_space pad1 = true -> all_space pad2 = true ->
  strip (pad1 ++ s ++ pad2) = strip s.
Proof.
  intros H1 H2. unfold strip. rewrite lstrip_pad by exact H1.
  rewrite lstrip_app. destruct (lstrip s) as [|c t] eqn:E.
  - now rewrite lstrip_all_space.
  - now rewrite rstrip_pad.
Qed.

(** White space around a region name and the case of its letters do not
    matter: a string padded with white space on either side is accepted
    exactly when any string that differs from it in letter case only is,
    as a region parameter and as a city location alike. *)
Theorem region_names_insensitive (v w pad1 pad2 : string) :
  all_space pad1 = true -> all_space pad2 = true ->
  lower v = lower w ->
  ((exists r, parse_region_param (RegionStr (pad1 ++ v ++ pad2)) = Ok r)
   <-> (exists r, parse_region_param (RegionStr w) = Ok r))
  /\ ((exists r, city_location_to_region_id (pad1 ++ v ++ pad2) = Ok r)
      <-> (exists r, city_location_to_region_id w = Ok r)).
Proof.
  intros H1 H2 E.
  assert (lower (strip (pad1 ++ v ++ pad2)) = lower (strip w)) as N.
  { rewrite (strip_pad _ _ _ H1 H2). now rewrite <- !strip_lower, E. }
  unfold parse_region_param, city_location_to_region_id. rewrite N.
  split.
  - destruct (String.eqb _ _); [split; intros _; eexists; reflexivity|].
    destruct (String.eqb _ _); split; intros [r H]; try discriminate;
      eexists; reflexivity.
  - destruct (String.eqb _ _); split; intros [r H]; try discriminate;
      eexists; reflexivity.
Qed.

Lemma region_names_insensitive_witness :
  all_space "  " = true /\ all_space " " = true
  /\ lower "San-Diego" = lower "san-diego"
  /\ ((exists r, parse_region_param (RegionStr ("  " ++ "San-Diego" ++ " ")) = Ok r)
      <-> (exists r, parse_region_param (RegionStr "san-diego") = Ok r))
  /\ ((exists r, city_location_to_region_id ("  " ++ "San-Diego" ++ " ") = Ok r)
      <-> (exists r, city_location_to_region_id "san-diego" = Ok r)).
Proof.
  split; [reflexivity|]. split; [reflexivity|]. split; [reflexivity|].
  exact (region_names_insensitive "San-Diego" "san-diego" "  " " "
           eq_refl eq_refl eq_refl).
Defined.

(** ** Likes and attendance *)

Lemma rows_of_with_rows (T : table) (db : DB) (rows : list Interaction) :
  rows_of T (with_rows T db rows) = rows.
Proof. now destruct T. Qed.

Lemma with_rows_same (T : table) (db : DB) : with_rows T db (rows_of T db) = db.
Proof. now destruct T, db. Qed.

Lemma with_rows_twice (T : table) (db : DB) (rows rows' : list Interaction) :
  with_rows T (with_rows T db rows) rows' = with_rows T db rows'.
Proof. now destruct T. Qed.

Lemma with_rows_same_but (T : table) (db : DB) (rows : list Interaction) :
  same_but T db (with_rows T db rows).
Proof.
  unfold same_but. destruct T; repeat split; intros [] H; try reflexivity;
    now contradiction H.
Qed.

Lemma same_but_refl (T : table) (db : DB) : same_but T db db.
Proof. repeat split. Qed.

Lemma existsb_filter {A : Type} (p : A -> bool) (l : list A) :
  existsb p l = match filter p l with [] => false | _ => true end.
Proof.
  induction l as [|a l IH]; [reflexivity|]. cbn [existsb filter].
  destruct (p a); [reflexivity | exact IH].
Qed.

Lemma count_for_app (rows rows' : list Interaction) (event_id : Z) :
  count_for (rows ++ rows') event_id
  = count_for rows event_id + count_for rows' event_id.
Proof. unfold count_for. rewrite filter_app, length_app. lia. Qed.

(** The outcomes of [put_member]: by the two ids, which the statements
    bind, and by the rows the user has on the event. *)
Lemma put_member_unfold (users : list Z) (T : table) (event_id user_id : Z)
    (db : DB) :
  put_member users T event_id user_id db
  = if negb (sqlite_int event_id) then (Err (Raised OverflowError), db)
    else
    match find (fun e => ev_id e =? event_id) (events db) with
    | None => (Err (http 404 "Event not found"), db)
    | Some _ =>
        if negb (sqlite_int user_id) then (Err (Raised OverflowError), db)
        else
        match filter (of_user_event event_id user_id) (rows_of T db) with
        | [] =>
            if negb (existsb (Z.eqb user_id) users)
               || negb (existsb (fun e => ev_id e =? event_id) (events db))
               || (unique_user_event T
                   && existsb (of_user_event event_id user_id) (rows_of T db))
            then (Err IntegrityError, db)
            else
              (Ok (mkSuccessResponse true),
               with_rows T db
                 (rows_of T db ++
                  [mkInteraction (next_interaction_id (rows_of T db))
                                 user_id event_id]))
        | [_] => (Ok (mkSuccessResponse true), db)
        | _ => (Err (Raised MultipleResultsFound), db)
        end
    end.
Proof.
  unfold put_member, get_event, select_user_event, bind_paramI.
  destruct (sqlite_int event_id); [cbn [negb]|reflexivity].
  unfold bindI at 1 2. cbn [retI].
  destruct (find _ _) as [ev|]; [|reflexivity].
  destruct (sqlite_int user_id); [cbn [negb]|reflexivity].
  unfold bindI, retI.
  destruct (filter _ _) as [|r [|r' rest]]; try reflexivity.
  cbn [one_or_none retI]. unfold insert_interaction.
  now destruct (_ || _).
Qed.

(** A request that succeeded had ids that SQLite can hold. *)
Lemma put_member_ok_ids (users : list Z) (T : table) (event_id user_id : Z)
    (db db' : DB) (resp : SuccessResponse) :
  put_member users T event_id user_id db = (Ok resp, db') ->
  sqlite_int event_id = true /\ sqlite_int user_id = true.
Proof.
  rewrite put_member_unfold.
  destruct (sqlite_int event_id); [cbn [negb]|discriminate].
  destruct (find _ _) as [ev|]; [|discriminate].
  destruct (sqlite_int user_id); [auto|discriminate].
Qed.

Lemma put_member_cases (users : list Z) (T : table) (event_id user_id : Z)
    (db : DB) :
  sqlite_int event_id = true -> sqlite_int user_id = true ->
  put_member users T event_id user_id db
  = match find (fun e => ev_id e =? event_id) (events db) with
    | None => (Err (http 404 "Event not found"), db)
    | Some _ =>
        match filter (of_user_event event_id user_id) (rows_of T db) with
        | [] =>
            if negb (existsb (Z.eqb user_id) users)
               || negb (existsb (fun e => ev_id e =? event_id) (events db))
               || (unique_user_event T
                   && existsb (of_user_event event_id user_id) (rows_of T db))
            then (Err IntegrityError, db)
            else
              (Ok (mkSuccessResponse true),
               with_rows T db
                 (rows_of T db ++
                  [mkInteraction (next_interaction_id (rows_of T db))
                                 user_id event_id]))
        | [_] => (Ok (mkSuccessResponse true), db)
        | _ => (Err (Raised MultipleResultsFound), db)
        end
    end.
Proof.
  intros Re Ru. now rewrite put_member_unfold, Re, Ru.
Qed.

Lemma find_existsb {A : Type} (p : A -> bool) (l : list A) :
  existsb p l = match find p l with Some _ => true | None => false end.
Proof.
  induction l as [|a l IH]; [reflexivity|]. cbn [existsb find].
  destruct (p a); [reflexivity | exact IH].
Qed.

(** What a successful [add_like] or [add_attending] does: the event
    exists; afterwards the user has a row on the event; the table is as
    before when the user had one already and has one more row, of this
    user on this event, otherwise, so that the count of the event grows by
    one exactly then and no other count moves; and no other table is
    written. *)
Theorem put_member_effect (users : list Z) (T : table) (event_id user_id : Z)
    (db db' : DB) (resp : SuccessResponse) :
  put_member users T event_id user_id db = (Ok resp, db') ->
  existsb (fun e => ev_id e =? event_id) (events db) = true
  /\ member T db' event_id user_id = true
  /\ rows_of T db'
     = (if member T db event_id user_id then rows_of T db
        else rows_of T db
             ++ [mkInteraction (next_interaction_id (rows_of T db))
                               user_id event_id])
  /\ (forall e,
        count_for (rows_of T db') e
        = count_for (rows_of T db) e
          + (if (e =? event_id) && negb (member T db event_id user_id)
             then 1 else 0))
  /\ same_but T db db'.
Proof.
  intros H. destruct (put_member_ok_ids _ _ _ _ _ _ _ H) as [Re Ru].
  revert H. rewrite (put_member_cases _ _ _ _ _ Re Ru).
  rewrite (find_existsb (fun e => ev_id e =? event_id) (events db)).
  unfold member.
  destruct (find _ _) as [ev|]; [|discriminate].
  rewrite (existsb_filter (of_user_event event_id user_id) (rows_of T db)).
  destruct (filter _ _) as [|r [|r' rest]] eqn:F; [| |discriminate].
  - destruct (_ || _); [discriminate|]. intros [= _ <-].
    rewrite rows_of_with_rows. split; [reflexivity|]. split; [|split; [|split]].
    + rewrite existsb_app. cbn. unfold of_user_event. cbn.
      rewrite !Z.eqb_refl. apply orb_true_r.
    + reflexivity.
    + intros e. rewrite count_for_app. unfold count_for at 2. cbn.
      rewrite andb_true_r, (Z.eqb_sym e event_id).
      now destruct (event_id =? e).
    + apply with_rows_same_but.
  - intros [= _ <-]. split; [reflexivity|]. split; [|split; [|split]].
    + rewrite existsb_filter, F. reflexivity.
    + reflexivity.
    + intros e. rewrite andb_false_r. lia.
    + apply same_but_refl.
Qed.

Lemma put_member_effect_witness :
  put_member [5] Likes 1 5 db_one_event
  = (Ok (mkSuccessResponse true),
     with_rows Likes db_one_event [mkInteraction 1 5 1])
  /\ existsb (fun e => ev_id e =? 1) (events db_one_event) = true
  /\ member Likes (with_rows Likes db_one_event [mkInteraction 1 5 1]) 1 5 = true
  /\ rows_of Likes (with_rows Likes db_one_event [mkInteraction 1 5 1])
     = (if member Likes db_one_event 1 5 then rows_of Likes db_one_event
        else rows_of Likes db_one_event
             ++ [mkInteraction (next_interaction_id (rows_of Likes db_one_event))
                               5 1])
  /\ (forall e,
        count_for (rows_of Likes (with_rows Likes db_one_event [mkInteraction 1 5 1])) e
        = count_for (rows_of Likes db_one_event) e
          + (if (e =? 1) && negb (member Likes db_one_event 1 5) then 1 else 0))
  /\ same_but Likes db_one_event (with_rows Likes db_one_event [mkInteraction 1 5 1]).
Proof.
  split; [reflexivity|].
  exact (put_member_effect [5] Likes 1 5 db_one_event _ _ eq_refl).
Defined.


(** Adding is idempotent: after a successful [add_like] or
    [add_attending], the same request again succeeds and changes
    nothing. *)
Theorem put_member_idempotent (users : list Z) (T : table)
    (event_id user_id : Z) (db db' : DB) (resp : SuccessResponse) :
  put_member users T event_id user_id db = (Ok resp, db') ->
  put_member users T event_id user_id db' = (Ok resp, db').
Proof.
  intros H. destruct (put_member_ok_ids _ _ _ _ _ _ _ H) as [Re Ru].
  revert H. rewrite !(put_member_cases _ _ _ _ _ Re Ru).
  destruct (find _ (events db)) as [ev|] eqn:Fe; [|discriminate].
  destruct (filter _ (rows_of T db)) as [|r [|r' rest]] eqn:F; [| |discriminate].
  - destruct (_ || _); [discriminate|]. intros [= <- <-].
    rewrite rows_of_with_rows, filter_app, F.
    replace (events (with_rows T db _)) with (events db) by now destruct T.
    rewrite Fe. cbn [filter app]. unfold of_user_event at 1. cbn.
    now rewrite !Z.eqb_refl.
  - intros [= <- <-]. now rewrite Fe, F.
Qed.

Lemma put_member_idempotent_witness :
  put_member [5] Likes 1 5 db_one_event
  = (Ok (mkSuccessResponse true),
     with_rows Likes db_one_event [mkInteraction 1 5 1])
  /\ put_member [5] Likes 1 5 (with_rows Likes db_one_event [mkInteraction 1 5 1])
     = (Ok (mkSuccessResponse true),
        with_rows Likes db_one_event [mkInteraction 1 5 1]).
Proof.
  split; [reflexivity|].
  exact (put_member_idempotent [5] Likes 1 5 db_one_event _ _ eq_refl).
Defined.

Lemma filter_pair_unique (rows : list Interaction) (event_id user_id : Z) :
  uq_user_event rows ->
  (length (filter (of_user_event event_id user_id) rows) <= 1)%nat.
Proof.
  unfold uq_user_event. induction rows as [|r rows IH]; cbn; intros N; [lia|].
  apply NoDup_cons_iff in N as [Nr N].
  destruct (of_user_event event_id user_id r) eqn:E; [|now apply IH].
  cbn. assert (filter (of_user_event event_id user_id) rows = []) as ->; [|cbn; lia].
  destruct (filter _ rows) as [|x l] eqn:F; [reflexivity|]. exfalso. apply Nr.
  assert (In x (filter (of_user_event event_id user_id) rows)) as Hx
      by (rewrite F; now left).
  apply filter_In in Hx as [Hx Ex]. apply in_map_iff. exists x. split; [|exact Hx].
  unfold of_user_event in E, Ex.
  apply andb_true_iff in E as [E1 E2], Ex as [X1 X2].
  apply Z.eqb_eq in E1, E2, X1, X2. congruence.
Qed.

(** When [add_like] or [add_attending] is refused nothing is written.
    With the unique constraint of the table in force it is refused in
    three cases only: with [OverflowError] when the event id is no SQLite
    integer, or the event exists and the user id is none; with 404 when
    the event id is one and the event does not exist; and by the database
    when both ids are SQLite integers, the event exists, the user has no
    row on it yet and is not a known user. *)
Theorem put_member_refused (users : list Z) (T : table) (event_id user_id : Z)
    (db : DB) :
  uq_user_event (rows_of T db) ->
  (forall e db',
     put_member users T event_id user_id db = (Err e, db') -> db' = db)
  /\ (fst (put_member users T event_id user_id db) = Err (Raised OverflowError)
      <-> sqlite_int event_id = false
          \/ (existsb (fun e => ev_id e =? event_id) (events db) = true
              /\ sqlite_int user_id = false))
  /\ (fst (put_member users T event_id user_id db) = Err (http 404 "Event not found")
      <-> sqlite_int event_id = true
          /\ existsb (fun e => ev_id e =? event_id) (events db) = false)
  /\ (fst (put_member users T event_id user_id db) = Err IntegrityError
      <-> sqlite_int event_id = true /\ sqlite_int user_id = true
          /\ existsb (fun e => ev_id e =? event_id) (events db) = true
          /\ member T db event_id user_id = false
          /\ existsb (Z.eqb user_id) users = false)
  /\ ((exists resp, fst (put_member users T event_id user_id db) = Ok resp)
      <-> sqlite_int event_id = true /\ sqlite_int user_id = true
          /\ existsb (fun e => ev_id e =? event_id) (events db) = true
          /\ (member T db event_id user_id = true
              \/ existsb (Z.eqb user_id) users = true)).
Proof.
  intros UQ. pose proof (filter_pair_unique _ event_id user_id UQ) as L.
  rewrite put_member_unfold. unfold member.
  rewrite (existsb_filter (of_user_event event_id user_id) (rows_of T db)).
  rewrite (find_existsb (fun e => ev_id e =? event_id) (events db)).
  destruct (sqlite_int event_id);
    [destruct (find _ _) as [ev|];
     [destruct (sqlite_int user_id);
      [destruct (filter _ _) as [|r [|r' rest]];
       [cbn [negb andb orb]; rewrite andb_false_r, orb_false_r;
        destruct (existsb (Z.eqb user_id) users)
       | | cbn in L; lia] |] |] |];
    cbn [negb orb andb fst];
    repeat split; intros;
    repeat match goal with
           | H : exists _, _ |- _ => destruct H
           | H : _ /\ _ |- _ => destruct H
           | H : _ \/ _ |- _ => destruct H
           end;
    try discriminate; try reflexivity; try (eexists; reflexivity);
    try match goal with
        | H : (_, _) = (_, _) |- _ => now inversion H
        end;
    auto.
Qed.

Lemma put_member_refused_witness :
  uq_user_event (rows_of Likes db_one_event)
  /\ (forall e db',
        put_member [5] Likes 2 5 db_one_event = (Err e, db') -> db' = db_one_event)
  /\ (fst (put_member [5] Likes 2 5 db_one_event) = Err (Raised OverflowError)
      <-> sqlite_int 2 = false
          \/ (existsb (fun e => ev_id e =? 2) (events db_one_event) = true
              /\ sqlite_int 5 = false))
  /\ (fst (put_member [5] Likes 2 5 db_one_event) = Err (http 404 "Event not found")
      <-> sqlite_int 2 = true
          /\ existsb (fun e => ev_id e =? 2) (events db_one_event) = false)
  /\ (fst (put_member [5] Likes 2 5 db_one_event) = Err IntegrityError
      <-> sqlite_int 2 = true /\ sqlite_int 5 = true
          /\ existsb (fun e => ev_id e =? 2) (events db_one_event) = true
          /\ member Likes db_one_event 2 5 = false
          /\ existsb (Z.eqb 5) [5] = false)
  /\ ((exists resp, fst (put_member [5] Likes 2 5 db_one_event) = Ok resp)
      <-> sqlite_int 2 = true /\ sqlite_int 5 = true
          /\ existsb (fun e => ev_id e =? 2) (events db_one_event) = true
          /\ (member Likes db_one_event 2 5 = true
              \/ existsb (Z.eqb 5) [5] = true)).
Proof.
  assert (uq_user_event (rows_of Likes db_one_event)) as UQ by constructor.
  split; [exact UQ|].
  exact (put_member_refused [5] Likes 2 5 db_one_event UQ).
Defined.

Lemma drop_member_unfold (T : table) (msg : string) (event_id user_id : Z)
    (db : DB) :
  drop_member T msg event_id user_id db
  = if sqlite_int event_id && sqlite_int user_id
    then
      match filter (of_user_event event_id user_id) (rows_of T db) with
      | [] => (Err (http 404 msg), db)
      | [r] =>
          (Ok (mkSuccessResponse true),
           with_rows T db
             (filter (fun x => negb (ia_id x =? ia_id r)) (rows_of T db)))
      | _ => (Err (Raised MultipleResultsFound), db)
      end
    else (Err (Raised OverflowError), db).
Proof.
  unfold drop_member, select_user_event, bind_paramI.
  destruct (sqlite_int event_id); [|reflexivity].
  destruct (sqlite_int user_id); [|reflexivity].
  unfold bindI, retI. cbn [andb].
  now destruct (filter _ _) as [|r [|r' rest]].
Qed.

Lemma drop_member_cases (T : table) (msg : string) (event_id user_id : Z)
    (db : DB) :
  sqlite_int event_id = true -> sqlite_int user_id = true ->
  drop_member T msg event_id user_id db
  = match filter (of_user_event event_id user_id) (rows_of T db) with
    | [] => (Err (http 404 msg), db)
    | [r] =>
        (Ok (mkSuccessResponse true),
         with_rows T db
           (filter (fun x => negb (ia_id x =? ia_id r)) (rows_of T db)))
    | _ => (Err (Raised MultipleResultsFound), db)
    end.
Proof.
  intros Re Ru. now rewrite drop_member_unfold, Re, Ru.
Qed.

Lemma next_interaction_id_fresh (rows : list Interaction) :
  Forall (fun r => ia_id r < next_interaction_id rows) rows.
Proof.
  unfold next_interaction_id. induction rows as [|r rows IH]; constructor; simpl.
  - lia.
  - revert IH. apply Forall_impl. intros a. lia.
Qed.

Lemma filter_below (rows : list Interaction) (n : Z) :
  Forall (fun r => ia_id r < n) rows ->
  filter (fun x => negb (ia_id x =? n)) rows = rows.
Proof.
  induction 1 as [|x l Hx Fr IH]; [reflexivity|]. cbn.
  destruct (Z.eqb_spec (ia_id x) n); [lia|]. cbn. now rewrite IH.
Qed.

(** Removing undoes adding: when the user had no row on the event and
    [add_like] (or [add_attending]) succeeded, [remove_like] (or
    [remove_attending]) then succeeds and gives back the database as it
    was before the two requests. *)
Theorem put_then_drop_member (users : list Z) (T : table) (msg : string)
    (event_id user_id : Z) (db db1 : DB) (resp : SuccessResponse) :
  member T db event_id user_id = false ->
  put_member users T event_id user_id db = (Ok resp, db1) ->
  drop_member T msg event_id user_id db1 = (Ok (mkSuccessResponse true), db).
Proof.
  intros Hm H. destruct (put_member_ok_ids _ _ _ _ _ _ _ H) as [Re Ru].
  revert Hm H. unfold member.
  rewrite existsb_filter, (put_member_cases _ _ _ _ _ Re Ru),
    (drop_member_cases _ _ _ _ _ Re Ru).
  destruct (find _ _) as [ev|]; [|discriminate].
  destruct (filter _ (rows_of T db)) as [|r rest] eqn:F; [|discriminate].
  intros _. destruct (_ || _); [discriminate|]. intros [= _ <-].
  rewrite rows_of_with_rows, filter_app, F. cbn [filter app].
  unfold of_user_event at 1. cbn. rewrite !Z.eqb_refl. cbn.
  rewrite with_rows_twice, filter_app. cbn. rewrite Z.eqb_refl. cbn.
  rewrite app_nil_r.
  assert (filter (fun x => negb (ia_id x =? next_interaction_id (rows_of T db)))
                 (rows_of T db) = rows_of T db) as ->.
  { apply filter_below, next_interaction_id_fresh. }
  now rewrite with_rows_same.
Qed.

Lemma put_then_drop_member_witness :
  member Likes db_one_event 1 5 = false
  /\ put_member [5] Likes 1 5 db_one_event
     = (Ok (mkSuccessResponse true),
        with_rows Likes db_one_event [mkInteraction 1 5 1])
  /\ drop_member Likes "Like not found" 1 5
       (with_rows Likes db_one_event [mkInteraction 1 5 1])
     = (Ok (mkSuccessResponse true), db_one_event).
Proof.
  split; [reflexivity|]. split; [reflexivity|].
  exact (put_then_drop_member [5] Likes "Like not found" 1 5 db_one_event _ _
           eq_refl eq_refl).
Defined.

Lemma count_for_split (p : Interaction -> bool) (rows : list Interaction)
    (event_id : Z) :
  count_for rows event_id
  = count_for (filter p rows) event_id
    + count_for (filter (fun r => negb (p r)) rows) event_id.
Proof.
  unfold count_for. induction rows as [|r rows IH]; [reflexivity|].
  cbn [filter]. destruct (p r); cbn [negb filter];
    destruct (ia_event_id r =? event_id); cbn [length]; lia.
Qed.

Lemma filter_not_then {A : Type} (p : A -> bool) (l : list A) :
  filter p (filter (fun y => negb (p y)) l) = [].
Proof.
  induction l as [|a l IH]; [reflexivity|]. cbn [filter].
  destruct (p a) eqn:Ea; cbn [negb filter]; [exact IH | now rewrite Ea].
Qed.

(** [remove_like] and [remove_attending], with the two constraints of the
    table in force. With ids that SQLite can hold: if the user has a row
    on the event the request succeeds and removes exactly that row: the
    user has none afterwards, the count of the event drops by one, no
    other count moves and no other table is written; if not, the answer
    is 404 and nothing changes. With an id that is no SQLite integer the
    select raises [OverflowError] and nothing changes. *)
Theorem drop_member_effect (T : table) (msg : string) (event_id user_id : Z)
    (db db' : DB) (r : result api_exn SuccessResponse) :
  rows_pk (rows_of T db) -> uq_user_event (rows_of T db) ->
  drop_member T msg event_id user_id db = (r, db') ->
  (sqlite_int event_id = true /\ sqlite_int user_id = true
   /\ member T db event_id user_id = true
   /\ r = Ok (mkSuccessResponse true)
   /\ rows_of T db'
      = filter (fun x => negb (of_user_event event_id user_id x)) (rows_of T db)
   /\ member T db' event_id user_id = false
   /\ (forall e,
         count_for (rows_of T db') e
         = count_for (rows_of T db) e - (if e =? event_id then 1 else 0))
   /\ same_but T db db')
  \/ (sqlite_int event_id = true /\ sqlite_int user_id = true
      /\ member T db event_id user_id = false
      /\ r = Err (http 404 msg) /\ db' = db)
  \/ ((sqlite_int event_id = false \/ sqlite_int user_id = false)
      /\ r = Err (Raised OverflowError) /\ db' = db).
Proof.
  intros PK UQ. pose proof (filter_pair_unique _ event_id user_id UQ) as L.
  rewrite drop_member_unfold. unfold member. rewrite existsb_filter.
  destruct (sqlite_int event_id); cbn [andb];
    [destruct (sqlite_int user_id)|];
    [|intros [= <- <-]; right; right; auto..].
  destruct (filter _ (rows_of T db)) as [|x [|y rest]] eqn:F;
    [| |cbn in L; lia]; intros [= <- <-].
  - right. left. auto.
  - left. split; [reflexivity|]. split; [reflexivity|].
    split; [reflexivity|]. split; [reflexivity|].
    rewrite rows_of_with_rows.
    assert (In x (rows_of T db) /\ of_user_event event_id user_id x = true)
      as [Hx Ex] by (apply filter_In; rewrite F; now left).
    assert (filter (fun y => negb (ia_id y =? ia_id x)) (rows_of T db)
            = filter (fun y => negb (of_user_event event_id user_id y))
                     (rows_of T db)) as ->.
    { apply filter_ext_in. intros y Hy. f_equal.
      destruct (of_user_event event_id user_id y) eqn:Ey.
      - assert (In y (filter (of_user_event event_id user_id) (rows_of T db)))
          as Hf by (apply filter_In; auto).
        rewrite F in Hf. destruct Hf as [<-|[]]. apply Z.eqb_refl.
      - destruct (Z.eqb_spec (ia_id y) (ia_id x)) as [E|N]; [|reflexivity].
        apply (NoDup_map_inj ia_id _ y x PK Hy Hx) in E. congruence. }
    split; [reflexivity|]. split; [|split].
    + rewrite existsb_filter.
      now rewrite filter_not_then.
    + intros e.
      rewrite (count_for_split (of_user_event event_id user_id) (rows_of T db) e).
      rewrite F. unfold count_for at 2. cbn [filter].
      unfold of_user_event in Ex. apply andb_true_iff in Ex as [Ex _].
      apply Z.eqb_eq in Ex. rewrite Ex, (Z.eqb_sym e event_id).
      destruct (event_id =? e); cbn [length]; lia.
    + apply with_rows_same_but.
Qed.

Lemma drop_member_effect_witness :
  rows_pk (rows_of Likes (with_rows Likes db_one_event [mkInteraction 1 5 1]))
  /\ uq_user_event (rows_of Likes (with_rows Likes db_one_event [mkInteraction 1 5 1]))
  /\ drop_member Likes "Like not found" 1 5
       (with_rows Likes db_one_event [mkInteraction 1 5 1])
     = (Ok (mkSuccessResponse true), db_one_event)
  /\ ((sqlite_int 1 = true /\ sqlite_int 5 = true
       /\ member Likes (with_rows Likes db_one_event [mkInteraction 1 5 1]) 1 5 = true
       /\ @Ok api_exn _ (mkSuccessResponse true) = Ok (mkSuccessResponse true)
       /\ rows_of Likes db_one_event
          = filter (fun x => negb (of_user_event 1 5 x))
              (rows_of Likes (with_rows Likes db_one_event [mkInteraction 1 5 1]))
       /\ member Likes db_one_event 1 5 = false
       /\ (forall e,
             count_for (rows_of Likes db_one_event) e
             = count_for
                 (rows_of Likes (with_rows Likes db_one_event [mkInteraction 1 5 1])) e
               - (if e =? 1 then 1 else 0))
       /\ same_but Likes (with_rows Likes db_one_event [mkInteraction 1 5 1])
                   db_one_event)
      \/ (sqlite_int 1 = true /\ sqlite_int 5 = true
          /\ member Likes (with_rows Likes db_one_event [mkInteraction 1 5 1]) 1 5 = false
          /\ @Ok api_exn _ (mkSuccessResponse true) = Err (http 404 "Like not found")
          /\ db_one_event = with_rows Likes db_one_event [mkInteraction 1 5 1])
      \/ ((sqlite_int 1 = false \/ sqlite_int 5 = false)
          /\ @Ok api_exn _ (mkSuccessResponse true) = Err (Raised OverflowError)
          /\ db_one_event = with_rows Likes db_one_event [mkInteraction 1 5 1])).
Proof.
  assert (rows_pk (rows_of Likes (with_rows Likes db_one_event [mkInteraction 1 5 1])))
    as PK by (repeat constructor; simpl; tauto).
  assert (uq_user_event
            (rows_of Likes (with_rows Likes db_one_event [mkInteraction 1 5 1])))
    as UQ by (repeat constructor; simpl; tauto).
  split; [exact PK|]. split; [exact UQ|]. split; [reflexivity|].
  exact (drop_member_effect Likes "Like not found" 1 5 _ _ _ PK UQ eq_refl).
Defined.

(** ** Comments *)

(** [remove_comment], with the primary key of the comments in force. The
    request succeeds exactly when the comment of that key is on that
    event and by that user; it is refused with 403 exactly when the
    comment is on that event and by another user. On success the comment,
    and nothing else, is gone and the comment count of the event drops by
    one; on any refusal nothing changes. *)
Theorem remove_comment_owner (event_id comment_id user_id : Z) (db db' : DB)
    (r : result api_exn SuccessResponse) :
  rows_pk (event_comments db) ->
  remove_comment event_id comment_id user_id db = (r, db') ->
  ((exists resp, r = Ok resp)
   <-> exists c, In c (event_comments db) /\ ia_id c = comment_id
                 /\ ia_event_id c = event_id /\ ia_user_id c = user_id)
  /\ (r = Err (http 403 "Cannot delete another user's comment")
      <-> exists c, In c (event_comments db) /\ ia_id c = comment_id
                    /\ ia_event_id c = event_id /\ ia_user_id c <> user_id)
  /\ ((exists resp, r = Ok resp) ->
      event_comments db'
      = filter (fun c => negb (ia_id c =? comment_id)) (event_comments db)
      /\ same_but Comments db db'
      /\ count_for (event_comments db') event_id
         = count_for (event_comments db) event_id - 1)
  /\ ((exists e, r = Err e) -> db' = db).
Proof.
  intros PK. unfold remove_comment.
  destruct (find _ _) as [c|] eqn:F.
  - apply find_some in F as [Hc Hid]. apply Z.eqb_eq in Hid.
    assert (forall x, In x (event_comments db) -> ia_id x = comment_id -> x = c)
      as U.
    { intros x Hx Ex. apply (NoDup_map_inj ia_id _ x c PK Hx Hc). congruence. }
    destruct (Z.eqb_spec (ia_event_id c) event_id) as [Ee|Ne]; cbn [negb].
    + destruct (Z.eqb_spec (ia_user_id c) user_id) as [Eu|Nu]; cbn [negb].
      * unfold bindI, delete_row, retI. cbn [rows_of with_rows].
        intros [= <- <-]. cbn [event_comments]. rewrite Hid.
        split; [split; [intros _; now exists c | intros _; eexists; reflexivity]|].
        split; [split; [discriminate|]|].
        { intros (x & Hx & Ex & _ & Nx). rewrite (U x Hx Ex) in Nx. contradiction. }
        split; [|intros [e H]; discriminate].
        intros _. split; [reflexivity|].
        split; [repeat split; intros [] H; try reflexivity; now contradiction H|].
        rewrite (count_for_split (fun x => ia_id x =? comment_id)
                   (event_comments db) event_id).
        rewrite (filter_unique ia_id (fun x => ia_id x =? comment_id)
                   (event_comments db) c PK).
        -- unfold count_for at 2. cbn [filter]. rewrite Ee, Z.eqb_refl.
           cbn [length]. lia.
        -- intros t _ Ht. apply Z.eqb_eq in Ht. congruence.
        -- exact Hc.
        -- now apply Z.eqb_eq.
      * intros [= <- <-].
        split; [split; [intros [resp H]; discriminate|]|].
        { intros (x & Hx & Ex & _ & Eu). rewrite (U x Hx Ex) in Eu. contradiction. }
        split; [split; [intros _; now exists c | reflexivity]|].
        split; [intros [resp H]; discriminate | reflexivity].
    + intros [= <- <-].
      split; [split; [intros [resp H]; discriminate|]|].
      { intros (x & Hx & Ex & Ee & _). rewrite (U x Hx Ex) in Ee. contradiction. }
      split; [split; [discriminate|]|].
      { intros (x & Hx & Ex & Ee & _). rewrite (U x Hx Ex) in Ee. contradiction. }
      split; [intros [resp H]; discriminate | reflexivity].
  - intros [= <- <-].
    assert (forall x, In x (event_comments db) -> ia_id x <> comment_id) as U.
    { intros x Hx. apply (find_none _ _ F) in Hx. now apply Z.eqb_neq. }
    split; [split; [intros [resp H]; discriminate|]|].
    { intros (x & Hx & Ex & _). now apply U in Hx. }
    split; [split; [discriminate|]|].
    { intros (x & Hx & Ex & _). now apply U in Hx. }
    split; [intros [resp H]; discriminate | reflexivity].
Qed.

Lemma remove_comment_owner_witness :
  rows_pk (event_comments db_commented)
  /\ remove_comment 1 2 5 db_commented
     = (Err (http 403 "Cannot delete another user's comment"), db_commented)
  /\ ((exists resp,
         @Err api_exn SuccessResponse
              (http 403 "Cannot delete another user's comment") = Ok resp)
      <-> exists c, In c (event_comments db_commented) /\ ia_id c = 2
                    /\ ia_event_id c = 1 /\ ia_user_id c = 5)
  /\ (@Err api_exn SuccessResponse
            (http 403 "Cannot delete another user's comment")
      = Err (http 403 "Cannot delete another user's comment")
      <-> exists c, In c (event_comments db_commented) /\ ia_id c = 2
                    /\ ia_event_id c = 1 /\ ia_user_id c <> 5)
  /\ ((exists resp,
         @Err api_exn SuccessResponse
              (http 403 "Cannot delete another user's comment") = Ok resp) ->
      event_comments db_commented
      = filter (fun c => negb (ia_id c =? 2)) (event_comments db_commented)
      /\ same_but Comments db_commented db_commented
      /\ count_for (event_comments db_commented) 1
         = count_for (event_comments db_commented) 1 - 1)
  /\ ((exists e,
         @Err api_exn SuccessResponse
              (http 403 "Cannot delete another user's comment") = Err e)
      -> db_commented = db_commented).
Proof.
  assert (rows_pk (event_comments db_commented)) as PK
      by (repeat constructor; simpl; intuition discriminate).
  split; [exact PK|]. split; [reflexivity|].
  exact (remove_comment_owner 1 2 5 db_commented _ _ PK eq_refl).
Defined.

(** ** Deleting an event *)

Lemma delete_event_cases (id : Z) (db : DB) :
  delete_event id db
  = if negb (sqlite_int id) then (Err OverflowError, db)
    else
    match find (fun e => ev_id e =? id) (events db) with
    | None => (Err (HTTPException 404 (DetailText "Event not found")), db)
    | Some _ =>
        (Ok (mkSuccessResponse true),
         mkDB (filter (fun e => negb (ev_id e =? id)) (events db))
              (filter (fun r => negb (ia_event_id r =? id)) (event_attending db))
              (filter (fun r => negb (ia_event_id r =? id)) (event_comments db))
              (filter (fun r => negb (ia_event_id r =? id)) (event_likes db))
              (filter (fun t => negb (t_event_id t =? id)) (trends db)))
    end.
Proof.
  unfold delete_event. unfold bind at 1. rewrite db_get_event_spec.
  destruct (sqlite_int id); [cbn [negb]|reflexivity].
  destruct (find _ _) as [ev|] eqn:F; [|reflexivity].
  apply find_some in F as [_ E]. apply Z.eqb_eq in E. now rewrite E.
Qed.

Lemma count_for_other (rows : list Interaction) (id e : Z) :
  e <> id ->
  count_for (filter (fun r => negb (ia_event_id r =? id)) rows) e
  = count_for rows e.
Proof.
  intros N. unfold count_for. f_equal.
  induction rows as [|r rows IH]; [reflexivity|]. cbn [filter].
  destruct (Z.eqb_spec (ia_event_id r) id) as [E|N']; cbn [negb filter].
  - destruct (Z.eqb_spec (ia_event_id r) e); [congruence | exact IH].
  - destruct (ia_event_id r =? e); cbn [length]; now rewrite IH.
Qed.

Lemma count_for_gone (rows : list Interaction) (id : Z) :
  count_for (filter (fun r => negb (ia_event_id r =? id)) rows) id = 0.
Proof.
  unfold count_for.
  rewrite (filter_not_then (fun r => ia_event_id r =? id) rows). reflexivity.
Qed.

Lemma existsb_survives (evs : list Event) (id e : Z) :
  e <> id ->
  existsb (fun x => ev_id x =? e) evs = true ->
  existsb (fun x => ev_id x =? e) (filter (fun x => negb (ev_id x =? id)) evs)
  = true.
Proof.
  intros N H. apply existsb_exists in H as (x & Hx & Ex).
  apply existsb_exists. exists x. split; [|exact Ex].
  apply filter_In. split; [exact Hx|]. apply Z.eqb_eq in Ex.
  apply negb_true_iff, Z.eqb_neq. congruence.
Qed.

(** [delete_event] raises [OverflowError] and changes nothing when the
    id is no SQLite integer. For an id that is one, it answers 404 and
    changes nothing when no event has the id; otherwise it succeeds, and
    afterwards no event has the id, no like, comment, attendance or trend
    row is on it, its live counts are (0,0,0), and every other event
    keeps its live counts and its rows; and if every row was on an
    existing event before, that is still so. *)
Theorem delete_event_cascade (id : Z) (db db' : DB)
    (r : result exn SuccessResponse) :
  delete_event id db = (r, db') ->
  (sqlite_int id = false /\ r = Err OverflowError /\ db' = db)
  \/
  (sqlite_int id = true
   /\ existsb (fun e => ev_id e =? id) (events db) = false
   /\ r = Err (HTTPException 404 (DetailText "Event not found"))
   /\ db' = db)
  \/ (sqlite_int id = true
      /\ existsb (fun e => ev_id e =? id) (events db) = true
      /\ r = Ok (mkSuccessResponse true)
      /\ existsb (fun e => ev_id e =? id) (events db') = false
      /\ (forall T, existsb (fun x => ia_event_id x =? id) (rows_of T db') = false)
      /\ existsb (fun t => t_event_id t =? id) (trends db') = false
      /\ live_counts db' id = (0, 0, 0)
      /\ (forall e, e <> id ->
            live_counts db' e = live_counts db e
            /\ filter (fun t => t_event_id t =? e) (trends db')
               = filter (fun t => t_event_id t =? e) (trends db)
            /\ existsb (fun x => ev_id x =? e) (events db')
               = existsb (fun x => ev_id x =? e) (events db))
      /\ (references_ok db -> references_ok db')).
Proof.
  rewrite delete_event_cases.
  rewrite (find_existsb (fun e => ev_id e =? id) (events db)).
  destruct (sqlite_int id); cbn [negb]; [|intros [= <- <-]; left; auto].
  destruct (find _ _) as [ev|]; intros [= <- <-];
    [right; right | right; left; auto].
  split; [reflexivity|].
  split; [reflexivity|]. split; [reflexivity|]. cbn [events trends].
  assert (forall (A : Type) (f : A -> Z) (l : list A),
            existsb (fun x => f x =? id) (filter (fun x => negb (f x =? id)) l)
            = false) as G.
  { intros A f l. rewrite existsb_filter.
    now rewrite (filter_not_then (fun x => f x =? id) l). }
  split; [apply G|]. split; [intros []; apply G|]. split; [apply G|].
  split; [unfold live_counts; cbn; now rewrite !count_for_gone|].
  split.
  - intros e N. split; [|split].
    + unfold live_counts. cbn. now rewrite !count_for_other.
    + induction (trends db) as [|t ts IH]; [reflexivity|]. cbn [filter].
      destruct (Z.eqb_spec (t_event_id t) id) as [E|N']; cbn [negb filter].
      * destruct (Z.eqb_spec (t_event_id t) e); [congruence | exact IH].
      * now rewrite IH.
    + induction (events db) as [|x xs IH]; [reflexivity|]. cbn [filter existsb].
      destruct (Z.eqb_spec (ev_id x) id) as [E|N']; cbn [negb existsb].
      * destruct (Z.eqb_spec (ev_id x) e); [congruence | exact IH].
      * now rewrite IH.
  - intros [Rt Rr]. split.
    + cbn [trends events]. apply Forall_forall. intros t Ht.
      apply filter_In in Ht as [Ht Nt].
      rewrite Forall_forall in Rt. apply existsb_survives; [|now apply Rt].
      apply negb_true_iff, Z.eqb_neq in Nt. exact Nt.
    + intros T. apply Forall_forall. intros x Hx.
      assert (In x (rows_of T db) /\ ia_event_id x <> id) as [Hx' Nx].
      { destruct T; cbn [rows_of event_likes event_attending event_comments] in Hx;
          apply filter_In in Hx as [Hx Nx];
          apply negb_true_iff, Z.eqb_neq in Nx; auto. }
      specialize (Rr T). rewrite Forall_forall in Rr.
      cbn [events]. apply existsb_survives; [exact Nx | now apply Rr].
Qed.

Lemma delete_event_cascade_witness :
  delete_event 3 db_ranked
  = (Ok (mkSuccessResponse true), snd (delete_event 3 db_ranked))
  /\ ((sqlite_int 3 = false
       /\ @Ok exn _ (mkSuccessResponse true) = Err OverflowError
       /\ snd (delete_event 3 db_ranked) = db_ranked)
      \/
      (sqlite_int 3 = true
       /\ existsb (fun e => ev_id e =? 3) (events db_ranked) = false
       /\ @Ok exn _ (mkSuccessResponse true)
          = Err (HTTPException 404 (DetailText "Event not found"))
       /\ snd (delete_event 3 db_ranked) = db_ranked)
      \/ (sqlite_int 3 = true
          /\ existsb (fun e => ev_id e =? 3) (events db_ranked) = true
          /\ @Ok exn _ (mkSuccessResponse true) = Ok (mkSuccessResponse true)
          /\ existsb (fun e => ev_id e =? 3)
                     (events (snd (delete_event 3 db_ranked))) = false
          /\ (forall T,
                existsb (fun x => ia_event_id x =? 3)
                        (rows_of T (snd (delete_event 3 db_ranked))) = false)
          /\ existsb (fun t => t_event_id t =? 3)
                     (trends (snd (delete_event 3 db_ranked))) = false
          /\ live_counts (snd (delete_event 3 db_ranked)) 3 = (0, 0, 0)
          /\ (forall e, e <> 3 ->
                live_counts (snd (delete_event 3 db_ranked)) e
                = live_counts db_ranked e
                /\ filter (fun t => t_event_id t =? e)
                          (trends (snd (delete_event 3 db_ranked)))
                   = filter (fun t => t_event_id t =? e) (trends db_ranked)
                /\ existsb (fun x => ev_id x =? e)
                           (events (snd (delete_event 3 db_ranked)))
                   = existsb (fun x => ev_id x =? e) (events db_ranked))
          /\ (references_ok db_ranked ->
              references_ok (snd (delete_event 3 db_ranked))))).
Proof.
  split; [vm_compute; reflexivity|].
  apply (delete_event_cascade 3 db_ranked). vm_compute. reflexivity.
Defined.

(** ** From an interaction to the trend list *)

Lemma update_trends_row_counts (clock : Clock) (payload : TrendUpdateBody)
    (region_id : Z) (db db' : DB) (resp : SuccessResponse) :
  trends_pk db ->
  parse_region_param (ub_region payload) = Ok region_id ->
  update_trends clock payload db = (Ok resp, db') ->
  exists x : Trend,
    filter (is_row region_id (ub_event_id payload)) (trends db') = [x]
    /\ t_counts x = live_counts db (ub_event_id payload).
Proof.
  intros PK Hp H.
  destruct (update_trends_ok_state _ _ _ _ _ _ Hp H) as (db1 & Hu & ->).
  destruct (upsert_trend_frame _ _ _ _ _ _ _ _ _ PK Hu)
    as (_ & (x1 & Hx1) & Hcounts).
  cbn [trends with_trends].
  pose proof (apply_ranks_filter_frame
                (is_row region_id (ub_event_id payload))
                (enumerate 1 (reordered region_id (trends db1)))
                (fun _ _ => eq_refl) (trends db1)) as F.
  rewrite Hx1 in F. rewrite Hx1 in Hcounts.
  destruct (filter _ (apply_ranks _ _)) as [|x [|y rest]]; try discriminate.
  exists x. split; [reflexivity|].
  assert (row_unranked x = row_unranked x1) as F'
      by (cbn [map] in F; congruence).
  inversion Hcounts as [|? ? Hc _]; subst.
  assert (t_counts x = t_counts x1) as ->
      by exact (f_equal (fun p => snd (fst p)) F').
  exact Hc.
Qed.

(** A like shows in the trend list after the next update of the event:
    when a user who had not liked the event likes it, and the event is
    then updated in its region, the trend row of the event carries the
    attendance and comment counts as they were and one like more than
    before. *)
Theorem like_then_update_trends (users : list Z) (clock : Clock)
    (region : region_param) (rank : option positive)
    (region_id event_id user_id : Z) (db db1 db2 : DB)
    (r1 r2 : SuccessResponse) :
  trends_pk db ->
  parse_region_param region = Ok region_id ->
  member Likes db event_id user_id = false ->
  add_like users event_id (mkInteractionLikeBody user_id) db = (Ok r1, db1) ->
  update_trends clock (mkTrendUpdateBody region event_id rank) db1 = (Ok r2, db2) ->
  exists x : Trend,
    filter (is_row region_id event_id) (trends db2) = [x]
    /\ t_counts x
       = (count_for (event_attending db) event_id,
          count_for (event_comments db) event_id,
          count_for (event_likes db) event_id + 1).
Proof.
  intros PK Hp Hm Ha Hu.
  unfold add_like in Ha.
  destruct (put_member_ok_ids _ _ _ _ _ _ _ Ha) as [Re Ru].
  rewrite (put_member_cases _ _ _ _ _ Re Ru) in Ha.
  unfold member in Hm. rewrite existsb_filter in Hm. cbn [like_user_id] in Ha.
  destruct (find _ _) as [ev|]; [|discriminate].
  destruct (filter _ (rows_of Likes db)) as [|r rest]; [|discriminate].
  destruct (_ || _); [discriminate|]. injection Ha as _ <-.
  eapply update_trends_row_counts in Hu; [|exact PK|exact Hp].
  destruct Hu as (x & Hx & Hc).
  exists x. split; [exact Hx|]. rewrite Hc. cbn [ub_event_id].
  unfold live_counts. cbn [with_rows rows_of event_attending event_comments
                           event_likes].
  rewrite count_for_app. unfold count_for at 4. cbn [filter ia_event_id].
  now rewrite Z.eqb_refl.
Qed.

Lemma like_then_update_trends_witness :
  trends_pk db_ranked
  /\ parse_region_param san_diego = Ok 0
  /\ member Likes db_ranked 3 9 = false
  /\ add_like [9] 3 (mkInteractionLikeBody 9) db_ranked
     = (Ok (mkSuccessResponse true),
        snd (add_like [9] 3 (mkInteractionLikeBody 9) db_ranked))
  /\ update_trends clock0 (mkTrendUpdateBody san_diego 3 None)
       (snd (add_like [9] 3 (mkInteractionLikeBody 9) db_ranked))
     = (Ok (mkSuccessResponse true),
        snd (update_trends clock0 (mkTrendUpdateBody san_diego 3 None)
               (snd (add_like [9] 3 (mkInteractionLikeBody 9) db_ranked))))
  /\ exists x : Trend,
       filter (is_row 0 3)
              (trends
                 (snd (update_trends clock0 (mkTrendUpdateBody san_diego 3 None)
                         (snd (add_like [9] 3 (mkInteractionLikeBody 9) db_ranked)))))
       = [x]
       /\ t_counts x
          = (count_for (event_attending db_ranked) 3,
             count_for (event_comments db_ranked) 3,
             count_for (event_likes db_ranked) 3 + 1).
Proof.
  split; [exact db_ranked_pk|]. split; [reflexivity|]. split; [reflexivity|].
  assert (add_like [9] 3 (mkInteractionLikeBody 9) db_ranked
          = (Ok (mkSuccessResponse true),
             snd (add_like [9] 3 (mkInteractionLikeBody 9) db_ranked))) as Ha
      by (vm_compute; reflexivity).
  assert (update_trends clock0 (mkTrendUpdateBody san_diego 3 None)
            (snd (add_like [9] 3 (mkInteractionLikeBody 9) db_ranked))
          = (Ok (mkSuccessResponse true),
             snd (update_trends clock0 (mkTrendUpdateBody san_diego 3 None)
                    (snd (add_like [9] 3 (mkInteractionLikeBody 9) db_ranked)))))
    as Hu by (vm_compute; reflexivity).
  split; [exact Ha|]. split; [exact Hu|].
  exact (like_then_update_trends [9] clock0 san_diego None 0 3 9 db_ranked _ _ _ _
           db_ranked_pk eq_refl eq_refl Ha Hu).
Defined.


(** ** Reading after a rebuild *)

Lemma stable_sort_sorted_id {A : Type} (lt : A -> A -> bool) (l : list A) :
  StronglySorted (ordered lt) l -> stable_sort lt l = l.
Proof.
  induction 1 as [|a l S IH F]; [reflexivity|].
  cbn [stable_sort fold_right]. fold (stable_sort lt l). rewrite IH.
  destruct l as [|y l']; [reflexivity|]. cbn [insert_stable].
  apply Forall_inv in F. unfold ordered in F. now rewrite F.
Qed.

Lemma seq_sorted (n : nat) :
  forall start, StronglySorted (fun a b => (a <= b)%nat) (seq start n).
Proof.
  induction n as [|n IH]; intros start; cbn [seq]; constructor; [apply IH|].
  apply Forall_forall. intros x Hx. apply in_seq in Hx. lia.
Qed.

Lemma enumerate_ranks_sorted {A : Type} (l : list A) :
  StronglySorted Z.le (map fst (enumerate 1 l)).
Proof.
  rewrite enumerate_fst. apply StronglySorted_map.
  pose proof (seq_sorted (length l) 0) as S.
  induction S as [|a m S IH F]; constructor; [exact IH|].
  revert F. apply Forall_impl. intros b. lia.
Qed.

Lemma StronglySorted_unmap {A B : Type} (R : B -> B -> Prop) (f : A -> B)
    (l : list A) :
  StronglySorted R (map f l) -> StronglySorted (fun a b => R (f a) (f b)) l.
Proof.
  induction l as [|a l IH]; intros S; [constructor|].
  cbn [map] in S. apply StronglySorted_inv in S as [S F].
  constructor; [now apply IH|]. now rewrite Forall_map in F.
Qed.

Lemma added_rows_ranked (region_id now : Z) (ranked : list (Z * entry)) :
  forall ts,
    map (fun t => (t_rank t,
                   (t_event_id t, t_attendance_count t, t_comments_count t,
                    t_likes_count t)))
        (added_rows ts region_id now ranked)
    = ranked.
Proof.
  induction ranked as [|[rank [[[eid att] com] lik]] ranked IH]; intros ts.
  - reflexivity.
  - simpl. now rewrite IH.
Qed.

Lemma StronglySorted_weaken {A : Type} (R R' : A -> A -> Prop) (l : list A) :
  (forall a b, R a b -> R' a b) -> StronglySorted R l -> StronglySorted R' l.
Proof.
  intros HR. induction 1 as [|a m S IH F]; constructor; [exact IH|].
  revert F. apply Forall_impl. intros b. apply HR.
Qed.

Lemma added_rows_rank_sorted (region_id now : Z) (ranked : list (Z * entry))
    (ts : list Trend) :
  StronglySorted Z.le (map fst ranked) ->
  StronglySorted (fun a b => t_rank a <= t_rank b)
                 (added_rows ts region_id now ranked).
Proof.
  intros S. apply (StronglySorted_unmap Z.le t_rank).
  assert (map t_rank (added_rows ts region_id now ranked) = map fst ranked) as E.
  { rewrite <- (added_rows_ranked region_id now ranked ts) at 2.
    rewrite map_map. reflexivity. }
  now rewrite E.
Qed.

Lemma event_by_id (db : DB) (ev : Event) :
  events_pk db -> In ev (events db) ->
  filter (fun e => ev_id e =? ev_id ev) (events db) = [ev]
  /\ title_of db (ev_id ev) = ev_title ev.
Proof.
  intros PK Hin.
  assert (filter (fun e => ev_id e =? ev_id ev) (events db) = [ev]) as F.
  { apply (filter_unique ev_id); auto.
    - intros t _ Ht. now apply Z.eqb_eq in Ht.
    - apply Z.eqb_refl. }
  split; [exact F|]. unfold title_of.
  destruct (find _ _) as [x|] eqn:Fx.
  - apply find_some in Fx as [Hx Ex].
    assert (In x (filter (fun e => ev_id e =? ev_id ev) (events db))) as H
        by (apply filter_In; auto).
    rewrite F in H. destruct H as [<-|[]]. reflexivity.
  - apply (find_none _ _ Fx) in Hin. now rewrite Z.eqb_refl in Hin.
Qed.

Lemma flat_map_single {A B : Type} (f : A -> list B) (g : A -> B) (l : list A) :
  Forall (fun a => f a = [g a]) l -> flat_map f l = map g l.
Proof.
  induction 1 as [|a l H F IH]; [reflexivity|].
  cbn [flat_map map]. now rewrite H, IH.
Qed.

(** After a rebuild, with the primary key of the events in force, the
    first page of the trend list is the ranking itself: the entries are,
    in order, the first [limit] ranked entries, with the rank, the event
    and the three counts the ranker gave them, and each has the title of
    its event, an event of the region. *)
Theorem rebuild_then_get_trends (clock : Clock) (region : region_param)
    (region_id : Z) (limit : nat) (db : DB) :
  events_pk db ->
  parse_region_param region = Ok region_id ->
  exists es : list TrendEntryRead,
    get_trends region 0 limit
      (snd (rebuild_trends clock (mkTrendRebuildBody region) db))
    = (Ok es, snd (rebuild_trends clock (mkTrendRebuildBody region) db))
    /\ map entry_ranked es
       = firstn limit
           (rank_entries (items_as_entries (region_counts region_id db)))
    /\ Forall (fun e =>
                 exists ev, In ev (events db)
                            /\ ev_id ev = te_event_id e
                            /\ ev_title ev = te_title e
                            /\ ev_region_id ev = region_id) es.
Proof.
  intros PK Hp.
  set (db' := snd (rebuild_trends clock (mkTrendRebuildBody region) db)).
  set (ranked := rank_entries (items_as_entries (region_counts region_id db))).
  assert (region_trends region_id db'
          = added_rows (other_trends region_id db) region_id (utc_now clock) ranked)
    as HR by (apply (rebuild_region_trends clock (mkTrendRebuildBody region)); exact Hp).
  assert (events db' = events db) as HE.
  { pose proof (rebuild_trends_spec clock (mkTrendRebuildBody region) region_id db Hp)
      as HS. unfold db'. now rewrite HS. }
  set (added := added_rows (other_trends region_id db) region_id (utc_now clock)
                           ranked) in *.
  assert (Forall (fun t => exists ev, In ev (events db)
                                      /\ ev_id ev = t_event_id t
                                      /\ ev_region_id ev = region_id) added)
    as HEv.
  { apply Forall_forall. intros t Ht.
    assert (In (t_event_id t) (region_event_ids region_id db)) as Hin.
    { apply region_counts_keys. rewrite <- items_as_entries_ids.
      apply ranking_event_ids. fold ranked.
      rewrite <- (added_rows_event_ids region_id (utc_now clock) ranked
                    (other_trends region_id db)).
      now apply in_map. }
    unfold region_event_ids in Hin. apply in_map_iff in Hin as (ev & Eid & Hev).
    apply filter_In in Hev as [Hev Hreg]. apply Z.eqb_eq in Hreg.
    now exists ev. }
  assert (trend_join region_id db'
          = map (fun t => (t, title_of db (t_event_id t))) added) as HJ.
  { unfold trend_join. fold (region_trends region_id db'). rewrite HR, HE.
    rewrite (flat_map_single _ (fun t => (t, title_of db (t_event_id t)))).
    - apply stable_sort_sorted_id. apply StronglySorted_map.
      apply (StronglySorted_weaken (fun a b : Trend => t_rank a <= t_rank b)).
      + intros a b H. unfold ordered. cbn [fst]. now apply Z.ltb_ge.
      + apply added_rows_rank_sorted, enumerate_ranks_sorted.
    - revert HEv. apply Forall_impl. intros t (ev & Hev & Eid & _).
      destruct (event_by_id db ev PK Hev) as [F Ti].
      rewrite <- Eid, F, Ti. reflexivity. }
  rewrite (get_trends_spec _ _ _ _ _ Hp) by reflexivity. rewrite HJ. cbn [skipn].
  eexists. split; [reflexivity|]. split.
  - rewrite <- !firstn_map, !map_map. f_equal.
    exact (added_rows_ranked region_id (utc_now clock) ranked
             (other_trends region_id db)).
  - rewrite Forall_map. apply Forall_forall. intros [t title] Hin.
    apply In_firstn in Hin. apply in_map_iff in Hin as (t' & [= <- <-] & Ht).
    rewrite Forall_forall in HEv. destruct (HEv t' Ht) as (ev & Hev & Eid & Hreg).
    exists ev. cbn. repeat split; auto.
    destruct (event_by_id db ev PK Hev) as [_ Ti]. now rewrite <- Eid, Ti.
Qed.

Lemma db_three_events_pk : events_pk db_three.
Proof.
  unfold events_pk. vm_compute. repeat constructor; simpl; intuition discriminate.
Defined.

Lemma rebuild_then_get_trends_witness :
  events_pk db_three
  /\ parse_region_param san_diego = Ok 0
  /\ exists es : list TrendEntryRead,
    get_trends san_diego 0 2
      (snd (rebuild_trends clock0 (mkTrendRebuildBody san_diego) db_three))
    = (Ok es, snd (rebuild_trends clock0 (mkTrendRebuildBody san_diego) db_three))
    /\ map entry_ranked es
       = firstn 2 (rank_entries (items_as_entries (region_counts 0 db_three)))
    /\ Forall (fun e =>
                 exists ev, In ev (events db_three)
                            /\ ev_id ev = te_event_id e
                            /\ ev_title ev = te_title e
                            /\ ev_region_id ev = 0) es.
Proof.
  split; [exact db_three_events_pk|]. split; [reflexivity|].
  exact (rebuild_then_get_trends clock0 san_diego 0 2 db_three
           db_three_events_pk eq_refl).
Defined.

(** ** Updating after a rebuild *)

(** Setting ranks that the rows have already changes nothing. *)
Lemma apply_ranks_noop (ranked : list (Z * Trend)) (ts : list Trend) :
  NoDup (map t_id ts) ->
  Forall (fun r => In (snd r) ts /\ t_rank (snd r) = fst r) ranked ->
  apply_ranks ranked ts = ts.
Proof.
  intros N F. induction F as [|[rank t] ranked [Ht Hr] F IH]; [reflexivity|].
  unfold apply_ranks in *. cbn [fold_left fst snd] in *.
  assert (map (fun x => if t_id x =? t_id t then set_rank rank x else x) ts = ts)
    as ->; [|exact IH].
  erewrite map_ext_in; [apply map_id|]. intros x Hx. cbn beta.
  destruct (Z.eqb_spec (t_id x) (t_id t)) as [E|_]; [|reflexivity].
  apply (NoDup_map_inj t_id ts x t N Hx Ht) in E. subst x. rewrite <- Hr.
  now destruct t.
Qed.

Lemma enumerate_own_ranks (l : list Trend) :
  forall start,
    map t_rank l = map fst (enumerate start l) ->
    Forall (fun r => t_rank (snd r) = fst r) (enumerate start l).
Proof.
  induction l as [|t l IH]; intros start E; cbn [enumerate]; constructor.
  - cbn [map enumerate fst snd] in *. congruence.
  - apply IH. cbn [map enumerate] in E. congruence.
Qed.

Lemma StronglySorted_map_in {A B : Type} (R : A -> A -> Prop)
    (R' : B -> B -> Prop) (g : A -> B) (l : list A) :
  (forall a b, In a l -> In b l -> R a b -> R' (g a) (g b)) ->
  StronglySorted R l -> StronglySorted R' (map g l).
Proof.
  intros H S. induction S as [|a m S IH F]; cbn [map]; constructor.
  - apply IH. intros x y Hx Hy. apply H; now right.
  - rewrite Forall_map. rewrite Forall_forall in *. intros b Hb.
    apply H; [now left | now right | now apply F].
Qed.

Lemma added_rows_key_sorted (region_id now : Z) (ranked : list (Z * entry))
    (ts : list Trend) :
  StronglySorted (ordered (key_lt _order_key)) (map snd ranked) ->
  StronglySorted (ordered (key_lt trend_key))
                 (added_rows ts region_id now ranked).
Proof.
  intros S.
  assert (map (fun t => (t_event_id t, t_attendance_count t, t_comments_count t,
                         t_likes_count t))
              (added_rows ts region_id now ranked) = map snd ranked) as E.
  { rewrite <- (added_rows_ranked region_id now ranked ts) at 2.
    rewrite map_map. reflexivity. }
  rewrite <- E in S. apply StronglySorted_unmap in S. exact S.
Qed.

Lemma added_rows_live (region_id now : Z) (db : DB) (ts : list Trend) :
  Forall (fun t => t_counts t = live_counts db (t_event_id t))
         (added_rows ts region_id now
            (rank_entries (items_as_entries (region_counts region_id db)))).
Proof.
  apply (added_rows_Forall (fun eid c => c = live_counts db eid)).
  unfold rank_entries. rewrite enumerate_snd.
  apply Forall_forall. intros e He.
  apply (proj1 (sorted_In entry _order_key e _)) in He. revert e He.
  apply Forall_forall, items_as_entries_counts, dict_of_items_values.
Qed.

Lemma is_row_not_other (region_id event_id : Z) (db : DB) :
  filter (is_row region_id event_id) (other_trends region_id db) = [].
Proof.
  unfold other_trends. induction (trends db) as [|t ts IH]; [reflexivity|].
  cbn [filter]. destruct (in_region region_id t) eqn:E; cbn [negb filter];
    [exact IH|].
  unfold is_row. unfold in_region in E. rewrite E. exact IH.
Qed.

(** When the rows of the region already stand, in storage order, in the
    order of the sort key and carry the ranks 1..N, the reorder changes
    nothing. *)
Lemma reorder_sorted_noop (region_id : Z) (ts : list Trend) :
  NoDup (map t_id ts) ->
  StronglySorted (fun a b => t_rank a <= t_rank b)
                 (filter (in_region region_id) ts) ->
  StronglySorted (ordered (key_lt trend_key)) (filter (in_region region_id) ts) ->
  map t_rank (filter (in_region region_id) ts)
  = one_to (length (filter (in_region region_id) ts)) ->
  apply_ranks (enumerate 1 (reordered region_id ts)) ts = ts.
Proof.
  intros N Sr Sk Hr.
  assert (reordered region_id ts = filter (in_region region_id) ts) as ->.
  { unfold reordered, sorted, order_by.
    rewrite (stable_sort_sorted_id (fun a b => t_rank a <? t_rank b)).
    - now apply stable_sort_sorted_id.
    - revert Sr. apply StronglySorted_weaken. intros a b H. unfold ordered.
      now apply Z.ltb_ge. }
  apply apply_ranks_noop; [exact N|].
  pose proof (enumerate_own_ranks (filter (in_region region_id) ts) 1) as Own.
  rewrite enumerate_one_fst in Own. specialize (Own Hr).
  rewrite Forall_forall in *. intros r Hin. split; [|now apply Own].
  apply (in_map snd) in Hin. rewrite enumerate_snd in Hin.
  now apply filter_In in Hin.
Qed.

Lemma find_by_pk (db : DB) (ev : Event) :
  events_pk db -> In ev (events db) ->
  find (fun e => ev_id e =? ev_id ev) (events db) = Some ev.
Proof.
  intros PK Hin. destruct (find _ _) as [x|] eqn:F.
  - apply find_some in F as [Hx Ex]. apply Z.eqb_eq in Ex.
    f_equal. now apply (NoDup_map_inj ev_id (events db) x ev PK).
  - apply (find_none _ _ F) in Hin. now rewrite Z.eqb_refl in Hin.
Qed.

(** An update right after a rebuild, with nothing liked, commented or
    attended in between, of an event of the region (its id a SQLite
    integer, as stored ids are), succeeds and writes the trend table
    only. The table keeps its rows in their places: every row other than
    the one of the event is the same row as before, in every column; the
    row of the event keeps its key, region, event, rank and counts, and
    its timestamp is the time of the update. *)
Theorem rebuild_then_update_stable (clock1 clock2 : Clock)
    (region : region_param) (rank : option positive)
    (region_id event_id : Z) (db : DB) :
  trends_pk db -> events_pk db ->
  parse_region_param region = Ok region_id ->
  In event_id (region_event_ids region_id db) ->
  sqlite_int event_id = true ->
  exists db2 : DB,
    update_trends clock2 (mkTrendUpdateBody region event_id rank)
      (snd (rebuild_trends clock1 (mkTrendRebuildBody region) db))
    = (Ok (mkSuccessResponse true), db2)
    /\ same_sources
         (snd (rebuild_trends clock1 (mkTrendRebuildBody region) db)) db2
    /\ Forall2
         (fun t t' : Trend =>
            if is_row region_id event_id t
            then t_id t' = t_id t
                 /\ row_content t' = row_content t
                 /\ t_updated_at t' = utc_now clock2
            else t' = t)
         (trends (snd (rebuild_trends clock1 (mkTrendRebuildBody region) db)))
         (trends db2).
Proof.
  intros PK EPK Hp HX Hid.
  rewrite (rebuild_trends_spec clock1 (mkTrendRebuildBody region) region_id db Hp).
  cbn [snd].
  set (others := other_trends region_id db).
  set (ranked := rank_entries (items_as_entries (region_counts region_id db))).
  set (added := added_rows others region_id (utc_now clock1) ranked).
  (* the event and its row *)
  assert (exists ev, In ev (events db) /\ ev_id ev = event_id
                     /\ ev_region_id ev = region_id) as (ev & Hev & Eid & Ereg).
  { unfold region_event_ids in HX. apply in_map_iff in HX as (ev & Eid & Hin).
    apply filter_In in Hin as [Hin Hreg]. apply Z.eqb_eq in Hreg. now exists ev. }
  assert (NoDup (map t_event_id added)) as NE.
  { unfold added. rewrite added_rows_event_ids. apply ranking_ids_NoDup. }
  assert (exists x0, In x0 added /\ t_event_id x0 = event_id) as (x0 & Hx0 & Ex0).
  { assert (In event_id (map t_event_id added)) as H.
    { unfold added. rewrite added_rows_event_ids. apply ranking_event_ids.
      rewrite items_as_entries_ids. now apply region_counts_keys. }
    apply in_map_iff in H as (x0 & E & H). now exists x0. }
  assert (filter (in_region region_id) added = added) as Hreg
      by apply added_rows_in_region.
  assert (in_region region_id x0 = true) as Rx0.
  { rewrite <- Hreg in Hx0. now apply filter_In in Hx0. }
  assert (is_row region_id event_id x0 = true) as Ix0.
  { unfold is_row. unfold in_region in Rx0. rewrite Rx0, Ex0. apply Z.eqb_refl. }
  assert (filter (is_row region_id event_id) (others ++ added) = [x0]) as Frow.
  { rewrite filter_app. unfold others. rewrite is_row_not_other. cbn [app].
    apply (filter_unique t_event_id); auto.
    intros t _ Ht. apply is_row_pair in Ht. congruence. }
  assert (t_counts x0 = live_counts db event_id) as Lx0.
  { pose proof (added_rows_live region_id (utc_now clock1) db others) as L.
    rewrite Forall_forall in L. rewrite <- Ex0. now apply L. }
  assert (NoDup (map t_id (others ++ added))) as N1.
  { apply added_rows_pk. unfold others, other_trends. now apply NoDup_map_filter. }
  (* the update, step by step *)
  rewrite update_trends_unfold. cbn [ub_region ub_event_id]. rewrite Hp, Hid.
  cbn [negb].
  replace (events (with_trends db (others ++ added))) with (events db)
    by reflexivity.
  assert (find (fun e => ev_id e =? event_id) (events db) = Some ev) as Ffind.
  { rewrite <- Eid. now apply find_by_pk. }
  rewrite Ffind, Ereg, Z.eqb_refl.
  replace (live_counts (with_trends db (others ++ added)) event_id)
    with (live_counts db event_id) by reflexivity.
  unfold live_counts in Lx0 |- *. rewrite upsert_trend_cases.
  cbn [trends with_trends]. rewrite Frow.
  set (g := fun t : Trend =>
              if t_id t =? t_id x0
              then set_counts (count_for (event_attending db) event_id)
                              (count_for (event_comments db) event_id)
                              (count_for (event_likes db) event_id)
                              (utc_now clock2) t
              else t).
  assert (forall t, In t (others ++ added) ->
            row_content (g t) = row_content t /\ trend_key (g t) = trend_key t)
    as Hg.
  { intros t Ht. unfold g.
    destruct (Z.eqb_spec (t_id t) (t_id x0)) as [E|_]; [|auto].
    assert (t = x0) as ->.
    { apply (NoDup_map_inj t_id (others ++ added) t x0 N1 Ht); [|exact E].
      apply in_or_app. now right. }
    unfold row_content, trend_key, _order_key, t_counts in *. cbn.
    injection Lx0 as -> -> ->. auto. }
  assert (forall t, t_id (g t) = t_id t /\ t_rank (g t) = t_rank t
                    /\ in_region region_id (g t) = in_region region_id t) as Hg'.
  { intros t. unfold g. now destruct (t_id t =? t_id x0). }
  assert (filter (in_region region_id) (map g (others ++ added)) = map g added)
    as FR.
  { rewrite filter_map_preserved by (intros t; apply Hg').
    rewrite filter_app. unfold others. rewrite other_trends_not_in_region.
    cbn [app]. now rewrite Hreg. }
  eexists. split; [reflexivity|]. split; [repeat split|].
  cbn [trends with_trends].
  rewrite reorder_sorted_noop.
  - apply Forall2_map_self. intros t Ht.
    destruct (is_row region_id event_id t) eqn:It.
    + assert (t = x0) as ->.
      { assert (In t (filter (is_row region_id event_id) (others ++ added))) as H
            by (apply filter_In; auto).
        rewrite Frow in H. now destruct H as [<-|[]]. }
      split; [apply Hg'|]. split; [now apply Hg|].
      unfold g. now rewrite Z.eqb_refl.
    + unfold g. destruct (Z.eqb_spec (t_id t) (t_id x0)) as [E|_]; [|reflexivity].
      assert (t = x0) as E'.
      { apply (NoDup_map_inj t_id (others ++ added) t x0 N1 Ht); [|exact E].
        apply in_or_app. now right. }
      rewrite E' in It. congruence.
  - rewrite map_map. erewrite map_ext; [exact N1|]. intros t. apply Hg'.
  - rewrite FR. apply StronglySorted_map.
    apply (StronglySorted_weaken (fun a b : Trend => t_rank a <= t_rank b)).
    + intros a b H. destruct (Hg' a) as (_ & -> & _).
      now destruct (Hg' b) as (_ & -> & _).
    + apply added_rows_rank_sorted, enumerate_ranks_sorted.
  - rewrite FR.
    apply (StronglySorted_map_in (ordered (key_lt trend_key))).
    + intros a b Ha Hb H. unfold ordered, key_lt in *.
      destruct (Hg a) as [_ ->]; [apply in_or_app; now right|].
      destruct (Hg b) as [_ ->]; [apply in_or_app; now right|]. exact H.
    + apply added_rows_key_sorted. unfold ranked, rank_entries.
      rewrite enumerate_snd. apply sorted_ordered.
  - rewrite FR, map_map, length_map.
    erewrite map_ext; [|intros t; apply Hg'].
    assert (map t_rank added = map fst ranked) as E.
    { unfold added.
      rewrite <- (added_rows_ranked region_id (utc_now clock1) ranked others) at 2.
      rewrite map_map. reflexivity. }
    change (map t_rank added = one_to (length added)). rewrite E.
    unfold added. rewrite added_rows_length. unfold ranked, rank_entries.
    now rewrite enumerate_one_fst, enumerate_length.
Qed.

Lemma rebuild_then_update_stable_witness :
  trends_pk db_liked /\ events_pk db_liked
  /\ parse_region_param san_diego = Ok 0
  /\ In 3 (region_event_ids 0 db_liked)
  /\ sqlite_int 3 = true
  /\ exists db2 : DB,
    update_trends (mkClock 2000 2001) (mkTrendUpdateBody san_diego 3 (Some 1%positive))
      (snd (rebuild_trends clock0 (mkTrendRebuildBody san_diego) db_liked))
    = (Ok (mkSuccessResponse true), db2)
    /\ same_sources
         (snd (rebuild_trends clock0 (mkTrendRebuildBody san_diego) db_liked)) db2
    /\ Forall2
         (fun t t' : Trend =>
            if is_row 0 3 t
            then t_id t' = t_id t
                 /\ row_content t' = row_content t
                 /\ t_updated_at t' = utc_now (mkClock 2000 2001)
            else t' = t)
         (trends (snd (rebuild_trends clock0 (mkTrendRebuildBody san_diego)
                         db_liked)))
         (trends db2).
Proof.
  assert (events_pk db_liked) as EPK.
  { unfold events_pk. vm_compute.
    repeat constructor; simpl; intuition discriminate. }
  assert (In 3 (region_event_ids 0 db_liked)) as HX.
  { vm_compute. auto. }
  split; [exact db_liked_pk|]. split; [exact EPK|]. split; [reflexivity|].
  split; [exact HX|]. split; [reflexivity|].
  exact (rebuild_then_update_stable clock0 (mkClock 2000 2001) san_diego
           (Some 1%positive) 0 3 db_liked db_liked_pk EPK eq_refl HX eq_refl).
Defined.
